(** * gpu_worker: the polling worker of [gpu_worker.py]

    A shallow embedding of the worker's schedule gate, inference client, job
    dispatch and poll loop, followed by the properties stated about them.

    Modelling conventions.
    - JSON documents (settings, poll responses, jobs, backend responses) are
      values of [json]; a Python dict is an association list in which the
      binding of a key is its first entry.
    - A Python call that can fail returns a [result]: [Ok v] or [Raise e].
      The exception carries its class and the text of [str(e)].
    - Everything outside the process (clock, time-zone database, dispatch
      server, inference backend, settings file) is an explicit argument that
      gives the outcome of each call; the calls made are recorded as a list
      of [event]s.
    - [KeyboardInterrupt] is an exception like the others, raised where the
      environment says so; it is the one class that [except Exception] does
      not catch.
    - A JSON number is an integer or a float; a float stands for its exact
      rational value, and how Python prints one is the interface [PyFloat].
    - Strings are byte strings; slicing and ordering agree with Python's on
      ASCII text, which is what identifiers, weekday codes and "HH:MM" times
      are. *)

From Stdlib Require Import ZArith QArith List String Ascii Bool Lia DecimalString.
From Stdlib Require DecimalPos.
Import ListNotations.
Open Scope string_scope.
Open Scope Z_scope.

(** ** Constants of the module *)

Definition POLL_INTERVAL : Z := 5.

(** ** JSON values and Python exceptions *)

#[warnings="-register-all"]
Inductive json : Type :=
| JNull
| JBool (b : bool)
| JInt (z : Z)
| JFloat (q : Q)
| JStr (s : string)
| JList (l : list json)
| JDict (d : list (string * json)).

Inductive exn_class : Type :=
| KeyboardInterrupt
| ImportError
| KeyError
| ValueError
| TypeError
| AttributeError
| IndexError
| OSError
| OtherException (name : string).

Record exn : Type := Exn { exn_cls : exn_class; exn_msg : string }.

(** [isinstance(e, Exception)]: of the classes above only
    [KeyboardInterrupt] derives from [BaseException] directly. *)
Definition is_Exception (e : exn) : bool :=
  match exn_cls e with
  | KeyboardInterrupt => false
  | _ => true
  end.

Inductive result (A : Type) : Type :=
| Ok (a : A)
| Raise (e : exn).
Arguments Ok {A} a.
Arguments Raise {A} e.

Definition rbind {A B : Type} (r : result A) (k : A -> result B) : result B :=
  match r with
  | Ok a => k a
  | Raise e => Raise e
  end.

Declare Scope py_scope.
Delimit Scope py_scope with py.
Notation "x <- r ;; k" := (rbind r (fun x => k))
  (at level 100, r at next level, right associativity) : py_scope.

(** ** Python primitives on JSON values *)

(** Python renders floats by its own shortest-digits algorithm; the two
    renderings the worker uses ([str(x)] and the format [.1f]) are taken as
    an interface. *)
Class PyFloat : Type := {
  float_repr : Q -> string;
  float_fixed1 : Q -> string
}.

Definition decimal (z : Z) : string := NilZero.string_of_int (Z.to_int z).

Definition py_type_name (v : json) : string :=
  match v with
  | JNull => "NoneType"
  | JBool _ => "bool"
  | JInt _ => "int"
  | JFloat _ => "float"
  | JStr _ => "str"
  | JList _ => "list"
  | JDict _ => "dict"
  end.

(** [bool(v)] *)
Definition truthy (v : json) : bool :=
  match v with
  | JNull => false
  | JBool b => b
  | JInt z => negb (z =? 0)
  | JFloat q => negb (Qeq_bool q 0)
  | JStr s => negb (s =? "")%string
  | JList l => match l with [] => false | _ :: _ => true end
  | JDict d => match d with [] => false | _ :: _ => true end
  end.

Fixpoint dict_get (k : string) (d : list (string * json)) : option json :=
  match d with
  | [] => None
  | (k', v) :: rest => if (k' =? k)%string then Some v else dict_get k rest
  end.

(** [d[k] = v]: an existing key keeps its position, a new key goes last. *)
Fixpoint dict_set (k : string) (v : json) (d : list (string * json))
  : list (string * json) :=
  match d with
  | [] => [(k, v)]
  | (k', v') :: rest =>
      if (k' =? k)%string then (k, v) :: rest else (k', v') :: dict_set k v rest
  end.

Section Primitives.
Context {PF : PyFloat}.

(** [repr(v)]. Strings are quoted with single quotes and not escaped, which
    is what Python prints for text free of quotes, backslashes and control
    characters. *)
Fixpoint py_repr (v : json) : string :=
  match v with
  | JNull => "None"
  | JBool true => "True"
  | JBool false => "False"
  | JInt z => decimal z
  | JFloat q => float_repr q
  | JStr s => "'" ++ s ++ "'"
  | JList l =>
      "[" ++
      (fix items (l : list json) : string :=
         match l with
         | [] => ""
         | x :: r =>
             match r with
             | [] => py_repr x
             | _ :: _ => py_repr x ++ ", " ++ items r
             end
         end) l ++ "]"
  | JDict d =>
      "{" ++
      (fix items (d : list (string * json)) : string :=
         match d with
         | [] => ""
         | (k, x) :: r =>
             match r with
             | [] => "'" ++ k ++ "': " ++ py_repr x
             | _ :: _ => "'" ++ k ++ "': " ++ py_repr x ++ ", " ++ items r
             end
         end) d ++ "}"
  end.

(** [str(v)], as an f-string field renders it. *)
Definition py_str (v : json) : string :=
  match v with
  | JStr s => s
  | _ => py_repr v
  end.

End Primitives.

Definition no_attribute {A : Type} (v : json) (attr : string) : result A :=
  Raise (Exn AttributeError
           ("'" ++ py_type_name v ++ "' object has no attribute '" ++ attr ++ "'")).

Definition not_subscriptable {A : Type} (v : json) : result A :=
  Raise (Exn TypeError ("'" ++ py_type_name v ++ "' object is not subscriptable")).

Definition not_iterable {A : Type} (v : json) : result A :=
  Raise (Exn TypeError ("'" ++ py_type_name v ++ "' object is not iterable")).

(** [v.get(k, dflt)] *)
Definition py_get (v : json) (k : string) (dflt : json) : result json :=
  match v with
  | JDict d => Ok (match dict_get k d with Some x => x | None => dflt end)
  | _ => no_attribute v "get"
  end.

(** [v[k]] for a string key *)
Definition py_lookup (v : json) (k : string) : result json :=
  match v with
  | JDict d =>
      match dict_get k d with
      | Some x => Ok x
      | None => Raise (Exn KeyError ("'" ++ k ++ "'"))
      end
  | JList _ =>
      Raise (Exn TypeError "list indices must be integers or slices, not str")
  | JStr _ => Raise (Exn TypeError "string indices must be integers, not 'str'")
  | _ => not_subscriptable v
  end.

(** [v[0]] *)
Definition py_first (v : json) : result json :=
  match v with
  | JList (x :: _) => Ok x
  | JList [] => Raise (Exn IndexError "list index out of range")
  | JStr (String c _) => Ok (JStr (String c EmptyString))
  | JStr EmptyString => Raise (Exn IndexError "string index out of range")
  | JDict _ => Raise (Exn KeyError "0")
  | _ => not_subscriptable v
  end.

(** [v[:8]] *)
Definition py_slice8 (v : json) : result json :=
  match v with
  | JStr s => Ok (JStr (substring 0 8 s))
  | JList l => Ok (JList (firstn 8 l))
  | JDict _ => Raise (Exn TypeError "unhashable type: 'slice'")
  | _ => not_subscriptable v
  end.

Fixpoint is_substring (p s : string) : bool :=
  prefix p s ||
  match s with
  | EmptyString => false
  | String _ r => is_substring p r
  end.

Definition is_str (s : string) (v : json) : bool :=
  match v with
  | JStr s' => (s' =? s)%string
  | _ => false
  end.

(** [s in v] for a string [s]: key of a dict, element of a list, substring
    of a string. *)
Definition py_contains (s : string) (v : json) : result bool :=
  match v with
  | JDict d => Ok (match dict_get s d with Some _ => true | None => false end)
  | JList l => Ok (existsb (is_str s) l)
  | JStr t => Ok (is_substring s t)
  | _ =>
      Raise (Exn TypeError
               ("argument of type '" ++ py_type_name v ++ "' is not iterable"))
  end.

(** [for x in v] *)
Definition py_iter (v : json) : result (list json) :=
  match v with
  | JList l => Ok l
  | JDict d => Ok (map (fun kv => JStr (fst kv)) d)
  | JStr s => Ok (map (fun c => JStr (String c EmptyString)) (list_ascii_of_string s))
  | _ => not_iterable v
  end.

Definition num_val (v : json) : option Q :=
  match v with
  | JBool b => Some (inject_Z (if b then 1 else 0))
  | JInt z => Some (inject_Z z)
  | JFloat q => Some q
  | _ => None
  end.

Definition not_supported {A : Type} (op : string) (a b : json) : result A :=
  Raise (Exn TypeError
           ("'" ++ op ++ "' not supported between instances of '" ++
            py_type_name a ++ "' and '" ++ py_type_name b ++ "'")).

(** [a <= b] and [a > b] on numbers and on strings. Python also orders two
    lists, element by element; no document of the worker puts a list where
    a version or a time of day goes, and that case is reported here as the
    [TypeError] every other mixed comparison raises. *)
Definition py_le (a b : json) : result bool :=
  match a, b with
  | JInt x, JInt y => Ok (x <=? y)
  | JStr s, JStr t => Ok (String.leb s t)
  | _, _ =>
      match num_val a, num_val b with
      | Some x, Some y => Ok (Qle_bool x y)
      | _, _ => not_supported "<=" a b
      end
  end.

Definition py_gt (a b : json) : result bool :=
  match a, b with
  | JInt x, JInt y => Ok (y <? x)
  | JStr s, JStr t => Ok (String.ltb t s)
  | _, _ =>
      match num_val a, num_val b with
      | Some x, Some y => Ok (negb (Qle_bool x y))
      | _, _ => not_supported ">" a b
      end
  end.

Definition lower_ascii (c : ascii) : ascii :=
  let n := nat_of_ascii c in
  if (Nat.leb 65 n && Nat.leb n 90)%bool then ascii_of_nat (n + 32) else c.

Fixpoint lower (s : string) : string :=
  match s with
  | EmptyString => EmptyString
  | String c r => String (lower_ascii c) (lower r)
  end.

(** ** The schedule gate *)

(** What [zoneinfo.ZoneInfo(key)] finds for a string key: a zone, no zone
    ([ZoneInfoNotFoundError], a [KeyError]), or a key that is not a
    normalised relative path (an absolute path, an empty key, a key that
    leaves the database directory), for which the constructor raises
    [ValueError] with the given complaint. *)
Inductive tz_status : Type :=
| TzFound
| TzNotFound
| TzMalformed (complaint : string).

Record Clock : Type := {
  zoneinfo_importable : bool;          (* [from zoneinfo import ZoneInfo] works *)
  tz_lookup : string -> tz_status;     (* the time-zone database *)
  now_a : string -> string;            (* [datetime.now(tz).strftime('%a')] *)
  now_HM : string -> string            (* [datetime.now(tz).strftime('%H:%M')] *)
}.

Definition ZoneInfo (c : Clock) (key : json) : result string :=
  match key with
  | JStr k =>
      match tz_lookup c k with
      | TzFound => Ok k
      | TzNotFound =>
          Raise (Exn KeyError ("'No time zone found with key " ++ k ++ "'"))
      | TzMalformed complaint =>
          Raise (Exn ValueError (complaint ++ ", got: " ++ k))
      end
  | _ =>
      Raise (Exn TypeError
               ("expected str, bytes or os.PathLike object, not " ++ py_type_name key))
  end.

(** The body of the [for rule in ...] loop of [is_within_schedule]. *)
Fixpoint scan_rules (current_day current_time : string) (rules : list json)
  : result bool :=
  match rules with
  | [] => Ok false
  | rule :: rest =>
      (days <- py_get rule "days" (JList []) ;;
       in_days <- py_contains current_day days ;;
       if in_days then
         start <- py_get rule "start_time" (JStr "00:00") ;;
         after_start <- py_le start (JStr current_time) ;;
         if after_start then
           stop <- py_get rule "end_time" (JStr "23:59") ;;
           before_end <- py_le (JStr current_time) stop ;;
           if before_end then Ok true
           else scan_rules current_day current_time rest
         else scan_rules current_day current_time rest
       else scan_rules current_day current_time rest)%py
  end.

Definition is_within_schedule (c : Clock) (schedule : json) : result bool :=
  if negb (truthy schedule) then Ok true
  else
    (enabled <- py_get schedule "enabled" JNull ;;
     if negb (truthy enabled) then Ok true
     else
       let resolved :=
         if zoneinfo_importable c then
           (key <- py_get schedule "timezone" (JStr "UTC") ;; ZoneInfo c key)
         else Raise (Exn ImportError "No module named 'zoneinfo'") in
       match resolved with
       | Raise e =>
           match exn_cls e with
           | ImportError | KeyError => Ok true
           | _ => Raise e
           end
       | Ok tz =>
           let current_day := substring 0 3 (lower (now_a c tz)) in
           let current_time := now_HM c tz in
           rules <- py_get schedule "rules" (JList []) ;;
           items <- py_iter rules ;;
           scan_rules current_day current_time items
       end)%py.

(** ** Calls that leave the process *)

Inductive event : Type :=
| Log (msg : string)                              (* [log(msg)], without its time stamp *)
| Sleep (seconds : Z)                             (* [time.sleep(seconds)] *)
| PollRequest                                     (* GET  SERVER_URL/worker/jobs/poll *)
| Txt2ImgRequest (body : json)                    (* POST SD_SERVER/txt2img *)
| CompleteRequest (job_id : string) (body : json) (* POST SERVER_URL/worker/jobs/<id>/complete *)
| SaveSettings (settings : json).                 (* [save_settings(settings)] *)

(** A [requests] response: its status and what [resp.json()] gives. *)
Record Response : Type := {
  status_code : Z;
  json_body : result json
}.

(** Computations that record events and may raise. *)
Definition Eff (A : Type) : Type := (list event * result A)%type.

Definition eret {A : Type} (a : A) : Eff A := ([], Ok a).

Definition ebind {A B : Type} (m : Eff A) (k : A -> Eff B) : Eff B :=
  match m with
  | (tr, Ok a) => let (tr', r) := k a in ((tr ++ tr')%list, r)
  | (tr, Raise e) => (tr, Raise e)
  end.

Definition lift {A : Type} (r : result A) : Eff A := ([], r).

Definition emit (ev : event) : Eff unit := ([ev], Ok tt).

(** An outgoing call: the event, then the outcome the peer gives. *)
Definition call {A : Type} (ev : event) (outcome : result A) : Eff A :=
  ([ev], outcome).

(** [try: m  except Exception as e: h(e)] *)
Definition except_Exception {A : Type} (m : Eff A) (h : exn -> Eff A) : Eff A :=
  match m with
  | (tr, Raise e) =>
      if is_Exception e then let (tr', r) := h e in ((tr ++ tr')%list, r)
      else (tr, Raise e)
  | (tr, Ok a) => (tr, Ok a)
  end.

Declare Scope eff_scope.
Delimit Scope eff_scope with eff.
Notation "x <- m ;; k" := (ebind m (fun x => k))
  (at level 100, m at next level, right associativity) : eff_scope.
Notation "m ;;; k" := (ebind m (fun _ => k))
  (at level 100, right associativity) : eff_scope.

(** ** The inference client *)

Definition error_result (msg : string) : json := JDict [("error", JStr msg)].

(** The JSON body of the request: the job's parameters with their defaults. *)
Definition txt2img_body (params : json) : result json :=
  (prompt <- py_get params "prompt" (JStr "") ;;
   negative_prompt <- py_get params "negative_prompt" (JStr "") ;;
   width <- py_get params "width" (JInt 1024) ;;
   height <- py_get params "height" (JInt 1024) ;;
   steps <- py_get params "steps" (JInt 20) ;;
   cfg_scale <- py_get params "cfg_scale" (JFloat 7%Q) ;;
   seed <- py_get params "seed" (JInt (-1)) ;;
   Ok (JDict [("prompt", prompt);
              ("negative_prompt", negative_prompt);
              ("width", width);
              ("height", height);
              ("steps", steps);
              ("cfg_scale", cfg_scale);
              ("seed", seed);
              ("sample_method", JStr "euler_a")]))%py.

(** From [if resp.status_code != 200] to [return {'error': 'No image'}]. *)
Definition read_response (resp : Response) : result json :=
  if negb (status_code resp =? 200) then
    Ok (error_result ("Server error " ++ decimal (status_code resp)))
  else
    (r <- json_body resp ;;
     has_images <- py_contains "images" r ;;
     usable <- (if has_images then
                  images <- py_lookup r "images" ;; Ok (truthy images)
                else Ok false) ;;
     if usable then
       images <- py_lookup r "images" ;;
       image <- py_first images ;;
       seed <- py_get r "seed" (JInt (-1)) ;;
       Ok (JDict [("image", image); ("seed", seed)])
     else
       has_image <- py_contains "image" r ;;
       if has_image then
         image <- py_lookup r "image" ;;
         seed <- py_get r "seed" (JInt (-1)) ;;
         Ok (JDict [("image", image); ("seed", seed)])
       else Ok (error_result "No image"))%py.

Definition run_sdxl (backend : result Response) (params : json) : Eff json :=
  except_Exception
    (body <- lift (txt2img_body params) ;;
     resp <- call (Txt2ImgRequest body) backend ;;
     lift (read_response resp))%eff
    (fun e => eret (error_result (exn_msg e))).

(** ** Job dispatch *)

(** [v[k] = x] *)
Definition py_setitem (v : json) (k : string) (x : json) : result json :=
  match v with
  | JDict d => Ok (JDict (dict_set k x d))
  | _ =>
      Raise (Exn TypeError
               ("'" ++ py_type_name v ++ "' object does not support item assignment"))
  end.

Section Dispatch.
Context {PF : PyFloat}.

(** From [if 'error' in result] to the end of [process_job]. *)
Definition finish_job (elapsed : Q) (result : json) : Eff json :=
  (failed <- lift (py_contains "error" result) ;;
   if failed then
     err <- lift (py_lookup result "error") ;;
     emit (Log ("Job failed: " ++ py_str err)) ;;;
     eret (JDict [("error", err)])
   else
     emit (Log ("Job completed in " ++ float_fixed1 elapsed ++ "s")) ;;;
     result' <- lift (py_setitem result "inference_time" (JFloat elapsed)) ;;
     eret (JDict [("result", result')]))%eff.

(** [backend] is what the inference backend answers if it is called, and
    [elapsed] the duration [time.time() - start] measured around the call. *)
Definition process_job (backend : result Response) (elapsed : Q) (job : json)
  : Eff json :=
  (service <- lift (py_get job "service" (JStr "sdxl")) ;;
   params <- lift (py_get job "params" (JDict [])) ;;
   id <- lift (py_lookup job "id") ;;
   id8 <- lift (py_slice8 id) ;;
   emit (Log ("Processing " ++ py_str service ++ " job " ++ py_str id8 ++ "...")) ;;;
   if negb (is_str "sdxl" service) then
     eret (error_result ("Unsupported service: " ++ py_str service))
   else
     result <- run_sdxl backend params ;;
     finish_job elapsed result)%eff.

End Dispatch.

(** ** The worker loop *)

(** The variables of [worker_loop] that the loop assigns. *)
Record Locals : Type := {
  settings : json;           (* [None] is [JNull] *)
  settings_version : json;
  errors : Z
}.

(** What one iteration finds outside the process. *)
Record IterEnv : Type := {
  clock : Clock;
  poll_response : result Response;       (* the GET of the poll *)
  save_outcome : result unit;            (* [save_settings], if called *)
  backend_response : result Response;    (* the inference backend, if called *)
  elapsed_time : Q;                      (* duration measured by [process_job] *)
  complete_response : result Response    (* the completion POST, if made *)
}.

(** How a block of the loop body ends: it falls through, raises, or runs
    [continue] or [return]. *)
Inductive flow (A : Type) : Type :=
| Next (a : A)
| Throw (e : exn)
| Continue
| Return.
Arguments Next {A} a.
Arguments Throw {A} e.
Arguments Continue {A}.
Arguments Return {A}.

Definition Body (A : Type) : Type := Locals -> (list event * Locals * flow A)%type.

Definition bret {A : Type} (a : A) : Body A := fun st => ([], st, Next a).

Definition bbind {A B : Type} (m : Body A) (k : A -> Body B) : Body B :=
  fun st =>
    match m st with
    | (tr, st', Next a) =>
        match k a st' with
        | (tr', st'', f) => ((tr ++ tr')%list, st'', f)
        end
    | (tr, st', Throw e) => (tr, st', Throw e)
    | (tr, st', Continue) => (tr, st', Continue)
    | (tr, st', Return) => (tr, st', Return)
    end.

Definition of_result {A : Type} (r : result A) : Body A :=
  fun st =>
    match r with
    | Ok a => ([], st, Next a)
    | Raise e => ([], st, Throw e)
    end.

Definition of_eff {A : Type} (m : Eff A) : Body A :=
  fun st =>
    match m with
    | (tr, Ok a) => (tr, st, Next a)
    | (tr, Raise e) => (tr, st, Throw e)
    end.

Definition read {A : Type} (f : Locals -> A) : Body A := fun st => ([], st, Next (f st)).
Definition assign (f : Locals -> Locals) : Body unit := fun st => ([], f st, Next tt).
Definition do_continue {A : Type} : Body A := fun st => ([], st, Continue).
Definition do_return {A : Type} : Body A := fun st => ([], st, Return).
Definition log (msg : string) : Body unit := of_eff (emit (Log msg)).
Definition sleep (seconds : Z) : Body unit := of_eff (emit (Sleep seconds)).

Definition set_settings (v : json) (st : Locals) : Locals :=
  {| settings := v; settings_version := settings_version st; errors := errors st |}.
Definition set_settings_version (v : json) (st : Locals) : Locals :=
  {| settings := settings st; settings_version := v; errors := errors st |}.
Definition set_errors (n : Z) (st : Locals) : Locals :=
  {| settings := settings st; settings_version := settings_version st; errors := n |}.

Declare Scope body_scope.
Delimit Scope body_scope with body.
Notation "x <- m ;; k" := (bbind m (fun x => k))
  (at level 100, m at next level, right associativity) : body_scope.
Notation "m ;;; k" := (bbind m (fun _ => k))
  (at level 100, right associativity) : body_scope.

(** [min(POLL_INTERVAL * errors, 60)] *)
Definition backoff (errors : Z) : Z := Z.min (POLL_INTERVAL * errors) 60.

Section Loop.
Context {PF : PyFloat}.

(** The [# Sync settings] block. *)
Definition sync_settings (env : IterEnv) (data : json) : Body unit :=
  (config_sync <- of_result (py_get data "config_sync" JNull) ;;
   if truthy config_sync then
     config_sync <- of_result (py_lookup data "config_sync") ;;
     new_ver <- of_result (py_get config_sync "settings_version" (JInt 0)) ;;
     held <- read settings_version ;;
     newer <- of_result (py_gt new_ver held) ;;
     if newer then
       new_settings <- of_result (py_get config_sync "settings" JNull) ;;
       assign (set_settings new_settings) ;;;
       if truthy new_settings then
         of_eff (call (SaveSettings new_settings) (save_outcome env)) ;;;
         assign (set_settings_version new_ver) ;;;
         log ("Settings synced (v" ++ py_str new_ver ++ ")")
       else bret tt
     else bret tt
   else bret tt)%body.

(** The condition [settings and not is_within_schedule(settings.get('schedule', {}))]. *)
Definition schedule_forbids (c : Clock) (held_settings : json) : result bool :=
  if truthy held_settings then
    (schedule <- py_get held_settings "schedule" (JDict []) ;;
     within <- is_within_schedule c schedule ;;
     Ok (negb within))%py
  else Ok false.

(** The block from [job = data.get('job')] to the end of the [try] body. *)
Definition handle_job (env : IterEnv) (data : json) : Body unit :=
  (job <- of_result (py_get data "job" JNull) ;;
   if truthy job then
     assign (set_errors 0) ;;;
     result <- of_eff (process_job (backend_response env) (elapsed_time env) job) ;;
     id <- of_result (py_lookup job "id") ;;
     of_eff (call (CompleteRequest (py_str id) result) (complete_response env)) ;;;
     bret tt
   else
     assign (set_errors 0) ;;;
     sleep POLL_INTERVAL)%body.

(** The body of the [try] statement of the loop. *)
Definition try_body (env : IterEnv) : Body unit :=
  (held_settings <- read settings ;;
   closed <- of_result (schedule_forbids (clock env) held_settings) ;;
   if closed then sleep POLL_INTERVAL ;;; do_continue
   else
     resp <- of_eff (call PollRequest (poll_response env)) ;;
     if status_code resp =? 401 then log "ERROR: Invalid API key" ;;; do_return
     else if negb (status_code resp =? 200) then
       assign (fun st => set_errors (errors st + 1) st) ;;;
       n <- read errors ;;
       sleep (backoff n) ;;;
       do_continue
     else
       data <- of_result (json_body resp) ;;
       sync_settings env data ;;;
       handle_job env data)%body.

Inductive status : Type := Running | Stopped.

(** One turn of [while True]: the [try] body and its two handlers. *)
Definition iteration (env : IterEnv) (st : Locals) : list event * Locals * status :=
  match try_body env st with
  | (tr, st', Next _) => (tr, st', Running)
  | (tr, st', Continue) => (tr, st', Running)
  | (tr, st', Return) => (tr, st', Stopped)
  | (tr, st', Throw e) =>
      if is_Exception e then
        let n := errors st' + 1 in
        ((tr ++ [Log ("Error: " ++ exn_msg e); Sleep (backoff n)])%list,
         set_errors n st', Running)
      else
        ((tr ++ [Log "Shutting down..."])%list, st', Stopped)
  end.

(** The loop, run for as many iterations as environments are supplied. *)
Fixpoint worker_loop (envs : list IterEnv) (st : Locals)
  : list event * Locals * status :=
  match envs with
  | [] => ([], st, Running)
  | env :: rest =>
      match iteration env st with
      | (tr, st', Stopped) => (tr, st', Stopped)
      | (tr, st', Running) =>
          match worker_loop rest st' with
          | (tr', st'', s) => ((tr ++ tr')%list, st'', s)
          end
      end
  end.

End Loop.

(** The state the loop starts in, from what [load_settings] returned. *)
Definition startup (loaded : json) : result Locals :=
  (version <- (if truthy loaded then py_get loaded "settings_version" (JInt 0)
               else Ok (JInt 0)) ;;
   Ok {| settings := loaded; settings_version := version; errors := 0 |})%py.

(** * The probes of the start-up

    What [worker_loop] gathers before its loop: the GPUs [nvidia-smi] lists,
    the model files, the hashes of the critical files and the settings file.
    The outcome of each call that leaves the process ([subprocess.run],
    [glob.glob], [open], [read], [json.load]) is an argument. An exception
    class the handlers of this part name, and that is not one of
    [exn_class], is [OtherException] with the class's name; a class derived
    from [OSError] ([FileNotFoundError], [PermissionError]) is [OSError]. *)

(** ** Text *)

(** The ASCII characters [str.strip()] removes. *)
Definition is_space (c : ascii) : bool :=
  let n := nat_of_ascii c in
  ((Nat.leb 9 n && Nat.leb n 13) || (Nat.leb 28 n && Nat.leb n 32))%bool.

Fixpoint lstrip (s : string) : string :=
  match s with
  | EmptyString => EmptyString
  | String c r => if is_space c then lstrip r else s
  end.

Fixpoint rstrip (s : string) : string :=
  match s with
  | EmptyString => EmptyString
  | String c r =>
      match rstrip r with
      | EmptyString => if is_space c then EmptyString else String c EmptyString
      | r' => String c r'
      end
  end.

(** [s.strip()] *)
Definition strip (s : string) : string := rstrip (lstrip s).

(** [s.split(sep)] for a separator of one character: never an empty list. *)
Fixpoint split (sep : ascii) (s : string) : list string :=
  match s with
  | EmptyString => [EmptyString]
  | String c r =>
      if Ascii.eqb c sep then EmptyString :: split sep r
      else match split sep r with
           | field :: fields => String c field :: fields
           | [] => [String c EmptyString]
           end
  end.

(** [s.replace(pat, '')] for a non-empty [pat]: the occurrences are found
    from the left and do not overlap; [skip] characters of the occurrence
    found last are still to be dropped. *)
Fixpoint remove_from (pat : string) (skip : nat) (s : string) : string :=
  match s with
  | EmptyString => EmptyString
  | String c r =>
      match skip with
      | S k => remove_from pat k r
      | O => if prefix pat s then remove_from pat (Nat.pred (String.length pat)) r
             else String c (remove_from pat O r)
      end
  end.

Definition remove (pat s : string) : string := remove_from pat O s.

(** The ASCII characters [int()] skips around a literal. *)
Definition is_int_space (c : ascii) : bool :=
  let n := nat_of_ascii c in
  ((Nat.leb 9 n && Nat.leb n 13) || Nat.eqb n 32)%bool.

Fixpoint int_lstrip (s : string) : string :=
  match s with
  | EmptyString => EmptyString
  | String c r => if is_int_space c then int_lstrip r else s
  end.

Fixpoint int_rstrip (s : string) : string :=
  match s with
  | EmptyString => EmptyString
  | String c r =>
      match int_rstrip r with
      | EmptyString => if is_int_space c then EmptyString else String c EmptyString
      | r' => String c r'
      end
  end.

(** The digits of a decimal literal: at least one digit, and single
    underscores between digits only. *)
Fixpoint int_digits (s : string) (after_digit : bool) : option Decimal.uint :=
  match s with
  | EmptyString => if after_digit then Some Decimal.Nil else None
  | String c r =>
      if Ascii.eqb c "_" then
        if after_digit then int_digits r false else None
      else DecimalString.uint_of_char c (int_digits r true)
  end.

(** [int(s)] for ASCII text, [None] for [ValueError]: blanks around, an
    optional sign, the digits. [max_digits] is the interpreter's
    [int_max_str_digits], which refuses literals of more digits; 0 is no
    limit. *)
Definition py_int (max_digits : nat) (s : string) : option Z :=
  let body := int_rstrip (int_lstrip s) in
  let '(negative, literal) :=
    match body with
    | String "-" r => (true, r)
    | String "+" r => (false, r)
    | _ => (false, body)
    end in
  match int_digits literal false with
  | Some d =>
      if (Nat.ltb 0 max_digits && Nat.ltb max_digits (Decimal.nb_digits d))%bool
      then None
      else Some (if negative then - Z.of_uint d else Z.of_uint d)
  | None => None
  end.

(** ** GPUs *)

(** What [subprocess.run] returned. *)
Record CompletedProcess : Type := {
  returncode : Z;
  stdout : string
}.

(** [except (subprocess.SubprocessError, FileNotFoundError, OSError)] *)
Definition is_tool_failure (e : exn) : bool :=
  match exn_cls e with
  | OSError => true
  | OtherException name =>
      ((name =? "SubprocessError") || (name =? "TimeoutExpired") ||
       (name =? "CalledProcessError"))%string
  | _ => false
  end.

Definition software_keywords : list string := ["llvmpipe"; "software"; "virtual"].

(** The label of [vram] MiB. *)
Definition memory_label (vram : Z) : string :=
  if 1024 <=? vram then decimal (vram / 1024) ++ "GB" else decimal vram ++ "MB".

(** One turn of the loop over the lines: the GPU the line adds, if any. A
    line of fewer than three fields, a [ValueError] of [int] and the two
    [continue]s add nothing. *)
Definition gpu_row (max_digits : nat) (line : string) : option json :=
  match map strip (split "," line) with
  | index :: name :: mem :: _ =>
      match py_int max_digits index with
      | None => None
      | Some idx =>
          if existsb (fun k => is_substring k (lower name)) software_keywords then None
          else
            match py_int max_digits (strip (remove "MiB" mem)) with
            | None => None
            | Some vram =>
                if vram <? 2000 then None
                else Some (JDict [("index", JInt idx);
                                  ("name", JStr name);
                                  ("memory", JStr (memory_label vram))])
            end
      end
  | _ => None
  end.

Definition gpu_rows (max_digits : nat) (output : string) : list json :=
  flat_map (fun line => match gpu_row max_digits line with
                        | Some gpu => [gpu]
                        | None => []
                        end)
           (split "010" (strip output)).

Definition detect_gpus (max_digits : nat) (nvidia_smi : result CompletedProcess)
  : result (list json) :=
  match nvidia_smi with
  | Ok completed =>
      if returncode completed =? 0 then Ok (gpu_rows max_digits (stdout completed))
      else Ok []
  | Raise e => if is_tool_failure e then Ok [] else Raise e
  end.

(** The [gpu_info] of the request headers. *)
Definition gpu_info (gpus : list json) : result json :=
  match gpus with
  | first :: _ =>
      (name <- py_lookup first "name" ;;
       memory <- py_lookup first "memory" ;;
       Ok (JDict [("name", name); ("memory", memory)]))%py
  | [] => Ok (JDict [])
  end.

(** ** Models *)

Definition MODELS_DIR : string := "/models/sd".

(** [PurePosixPath(p).name]: the last component that is neither empty nor
    ".", or "" when there is none. *)
Definition path_name (p : string) : string :=
  last (filter (fun part => negb (part =? "")%string && negb (part =? ".")%string)
               (split "/" p))
       "".

(** [s.rfind('.')], [None] for -1. *)
Fixpoint rfind_dot (s : string) : option nat :=
  match s with
  | EmptyString => None
  | String c r =>
      match rfind_dot r with
      | Some i => Some (S i)
      | None => if Ascii.eqb c "." then Some O else None
      end
  end.

(** [PurePosixPath(p).stem] *)
Definition path_stem (p : string) : string :=
  let name := path_name p in
  match rfind_dot name with
  | Some i =>
      if (Nat.ltb 0 i && Nat.ltb (S i) (String.length name))%bool
      then substring 0 i name
      else name
  | None => name
  end.

(** [detect_models()], where [glob] gives what [glob.glob] returns for a
    pattern. *)
Definition detect_models (glob : string -> list string) : list json :=
  map (fun filepath => JDict [("name", JStr (path_stem filepath));
                              ("service", JStr "sdxl")])
      (glob (MODELS_DIR ++ "/*.safetensors")).

(** ** Integrity hashes *)

(** [hashlib.sha256()]: the fresh hash object, feeding it bytes, its digest
    in hexadecimal. *)
Class Sha256 : Type := {
  hasher : Type;
  sha256 : hasher;
  update : hasher -> string -> hasher;
  hexdigest : hasher -> string
}.

(** How a file reads: what [open] does, what the successive [f.read(8192)]
    return (every read after the listed ones returns [b'']), and what
    closing the file does. *)
Record FileRead : Type := {
  open_outcome : result unit;
  read_outcomes : list (result string);
  close_outcome : result unit
}.

(** [except (IOError, OSError)] *)
Definition is_OSError (e : exn) : bool :=
  match exn_cls e with
  | OSError => true
  | _ => false
  end.

(** Leaving a [with] block closes the file; an exception of the closing
    replaces the one of the block. *)
Definition leave_with {A : Type} (body : result A) (closing : result unit) : result A :=
  match closing with
  | Ok _ => body
  | Raise e => Raise e
  end.

Section Hashing.
Context {SHA : Sha256}.

(** [for chunk in iter(lambda: f.read(8192), b''): h.update(chunk)] *)
Fixpoint hash_chunks (h : hasher) (reads : list (result string)) : result hasher :=
  match reads with
  | [] => Ok h
  | Ok chunk :: rest =>
      if (chunk =? "")%string then Ok h else hash_chunks (update h chunk) rest
  | Raise e :: _ => Raise e
  end.

Definition compute_file_hash (file : FileRead) : result (option string) :=
  let attempt :=
    (_ <- open_outcome file ;;
     h <- leave_with (hash_chunks sha256 (read_outcomes file)) (close_outcome file) ;;
     Ok (hexdigest h))%py in
  match attempt with
  | Ok digest => Ok (Some digest)
  | Raise e => if is_OSError e then Ok None else Raise e
  end.

Definition INTEGRITY_PATHS : list string :=
  ["/usr/local/bin/sd"; "/models/sd/*.safetensors"].

(** [h = compute_file_hash(filepath)] and [if h: hashes[key] = h] *)
Definition add_hash (files : string -> FileRead) (key filepath : string)
           (hashes : list (string * json)) : result (list (string * json)) :=
  (h <- compute_file_hash (files filepath) ;;
   Ok (match h with
       | Some digest =>
           if (digest =? "")%string then hashes else dict_set key (JStr digest) hashes
       | None => hashes
       end))%py.

Fixpoint add_hashes (files : string -> FileRead) (filepaths : list string)
         (hashes : list (string * json)) : result (list (string * json)) :=
  match filepaths with
  | [] => Ok hashes
  | filepath :: rest =>
      (hashes' <- add_hash files filepath filepath hashes ;;
       add_hashes files rest hashes')%py
  end.

Fixpoint hash_patterns (files : string -> FileRead) (glob : string -> list string)
         (patterns : list string) (hashes : list (string * json))
  : result (list (string * json)) :=
  match patterns with
  | [] => Ok hashes
  | pattern :: rest =>
      (hashes' <- (if is_substring "*" pattern
                   then add_hashes files (glob pattern) hashes
                   else add_hash files pattern pattern hashes) ;;
       hash_patterns files glob rest hashes')%py
  end.

(** [compute_integrity_hashes()], where [script] is the resolved path of the
    worker's own file. *)
Definition compute_integrity_hashes (files : string -> FileRead)
           (glob : string -> list string) (script : string)
  : result (list (string * json)) :=
  (hashes <- hash_patterns files glob INTEGRITY_PATHS [] ;;
   add_hash files "worker_script" script hashes)%py.

End Hashing.

(** ** The settings file *)

(** Whether [SETTINGS_FILE] exists, and what opening it and [json.load] give. *)
Record SettingsFile : Type := {
  file_exists : bool;
  load_outcome : result json
}.

(** [except (json.JSONDecodeError, IOError, OSError)] *)
Definition is_load_failure (e : exn) : bool :=
  match exn_cls e with
  | OSError => true
  | OtherException name => (name =? "JSONDecodeError")%string
  | _ => false
  end.

Definition load_settings (file : SettingsFile) : result json :=
  if file_exists file then
    match load_outcome file with
    | Ok loaded => Ok loaded
    | Raise e => if is_load_failure e then Ok JNull else Raise e
    end
  else Ok JNull.

(** [load_settings()] and the line after it: the state the loop starts in. *)
Definition initial_state (file : SettingsFile) : result Locals :=
  (loaded <- load_settings file ;; startup loaded)%py.

(** * The data model of the specification *)

(** ** Schedule rules *)

(** The schedule rule of the data model: a set of weekday codes and an
    inclusive window of times of day. A JSON rule denotes one when its
    fields, where present, have the types of the data model; a missing
    field takes the default [is_within_schedule] gives it. *)
Record window : Type := {
  w_days : list json;
  w_start : string;
  w_end : string
}.

Definition field_list (o : option json) : option (list json) :=
  match o with
  | None => Some []
  | Some (JList l) => Some l
  | Some _ => None
  end.

Definition field_time (dflt : string) (o : option json) : option string :=
  match o with
  | None => Some dflt
  | Some (JStr s) => Some s
  | Some _ => None
  end.

Definition rule_window (rule : json) : option window :=
  match rule with
  | JDict r =>
      match field_list (dict_get "days" r),
            field_time "00:00" (dict_get "start_time" r),
            field_time "23:59" (dict_get "end_time" r) with
      | Some ds, Some s, Some e => Some {| w_days := ds; w_start := s; w_end := e |}
      | _, _, _ => None
      end
  | _ => None
  end.

(** The rule covers weekday [day] at time [hm]: the day is in its day set
    and [hm] lies in its window, ends included, in the order of strings. *)
Definition covers (day hm : string) (w : window) : Prop :=
  In (JStr day) (w_days w) /\
  String.leb (w_start w) hm = true /\ String.leb hm (w_end w) = true.

Definition coversb (day hm : string) (w : window) : bool :=
  existsb (is_str day) (w_days w) && String.leb (w_start w) hm && String.leb hm (w_end w).

(** The name of the zone a schedule asks for, and its rule list. *)
Definition schedule_timezone (d : list (string * json)) : option string :=
  match dict_get "timezone" d with
  | None => Some "UTC"
  | Some (JStr k) => Some k
  | Some _ => None
  end.

Definition schedule_rules (d : list (string * json)) : option (list json) :=
  field_list (dict_get "rules" d).

Definition enabled_flag (d : list (string * json)) : json :=
  match dict_get "enabled" d with
  | Some v => v
  | None => JNull
  end.

(** The three-letter lower-case weekday and the "HH:MM" time in zone [tz]. *)
Definition current_day (c : Clock) (tz : string) : string :=
  substring 0 3 (lower (now_a c tz)).
Definition current_time (c : Clock) (tz : string) : string := now_HM c tz.

(** ** Inference results *)

(** The seed a backend response reports, [-1] when it reports none. *)
Definition reported_seed (r : list (string * json)) : json :=
  match dict_get "seed" r with
  | Some seed => seed
  | None => JInt (-1)
  end.

(** The outcome is a [KeyboardInterrupt], which no [except Exception]
    clause handles. *)
Definition interrupts {A : Type} (r : result A) : bool :=
  match r with
  | Raise e => negb (is_Exception e)
  | Ok _ => false
  end.

Definition backend_interrupts (backend : result Response) : bool :=
  match backend with
  | Ok resp => interrupts (json_body resp)
  | Raise e => negb (is_Exception e)
  end.

(** The two shapes of what [run_sdxl] returns. *)
Definition is_sdxl_result (res : json) : Prop :=
  (exists msg, res = error_result msg) \/
  (exists image seed, res = JDict [("image", image); ("seed", seed)]).

(** ** Job results *)

(** Field [k] of a job result is populated. *)
Definition populated (k : string) (res : json) : bool :=
  match res with
  | JDict d => match dict_get k d with Some _ => true | None => false end
  | _ => false
  end.

(** ** Poll responses and traces *)

(** The version and the settings a [config_sync] payload carries, with the
    defaults [.get] gives them. *)
Definition incoming_version (config_sync : list (string * json)) : json :=
  match dict_get "settings_version" config_sync with
  | Some v => v
  | None => JInt 0
  end.

Definition incoming_settings (config_sync : list (string * json)) : json :=
  match dict_get "settings" config_sync with
  | Some v => v
  | None => JNull
  end.

(** The job a poll response carries, [None] when it carries none. *)
Definition incoming_job (data : list (string * json)) : json :=
  match dict_get "job" data with
  | Some v => v
  | None => JNull
  end.

(** The settings documents a trace persisted, the completion calls and the
    polls it made, and the sleeps it took, in order. *)
Fixpoint saved (tr : list event) : list json :=
  match tr with
  | [] => []
  | SaveSettings v :: rest => v :: saved rest
  | _ :: rest => saved rest
  end.

Fixpoint completions (tr : list event) : list (string * json) :=
  match tr with
  | [] => []
  | CompleteRequest id body :: rest => (id, body) :: completions rest
  | _ :: rest => completions rest
  end.

Fixpoint polls (tr : list event) : nat :=
  match tr with
  | [] => O
  | PollRequest :: rest => S (polls rest)
  | _ :: rest => polls rest
  end.

Fixpoint sleeps (tr : list event) : list Z :=
  match tr with
  | [] => []
  | Sleep n :: rest => n :: sleeps rest
  | _ :: rest => sleeps rest
  end.

(** The events job dispatch can produce, and those of the settings sync. *)
Definition dispatch_event (ev : event) : bool :=
  match ev with
  | Log _ | Txt2ImgRequest _ => true
  | _ => false
  end.

Definition sync_event (ev : event) : bool :=
  match ev with
  | Log _ | SaveSettings _ => true
  | _ => false
  end.

(** A transient poll failure: the request raises an exception, or the
    response has a status other than 200 and 401. *)
Definition transient_poll_failure (env : IterEnv) : bool :=
  match poll_response env with
  | Raise e => is_Exception e
  | Ok resp => negb (status_code resp =? 200) && negb (status_code resp =? 401)
  end.

(** The requests a trace sent to the inference backend. *)
Fixpoint inferences (tr : list event) : nat :=
  match tr with
  | [] => O
  | Txt2ImgRequest _ :: rest => S (inferences rest)
  | _ :: rest => inferences rest
  end.

(** How a block may end inside the [try] statement when it has no
    [continue] and no [return] of its own. *)
Definition falls_or_raises {A : Type} (f : flow A) : Prop :=
  match f with
  | Next _ | Throw _ => True
  | Continue | Return => False
  end.

(** The trace and the final state of an iteration or of a run. *)
Definition trace_of {A B : Type} (r : list event * A * B) : list event := fst (fst r).
Definition state_of {A B : Type} (r : list event * A * B) : A := snd (fst r).
Definition status_of {A B : Type} (r : list event * A * B) : B := snd r.

(** ** Day codes *)

Definition is_upper (c : ascii) : bool :=
  let n := nat_of_ascii c in (Nat.leb 65 n && Nat.leb n 90)%bool.

(** Some character of the string is an upper-case ASCII letter. *)
Fixpoint has_upper (s : string) : bool :=
  match s with
  | EmptyString => false
  | String c r => is_upper c || has_upper r
  end.

(** A day entry the gate can never find equal to the current day: not a
    string, longer than three characters, or with an upper-case letter. *)
Definition unmatchable_day (v : json) : bool :=
  match v with
  | JStr d => Nat.ltb 3 (String.length d) || has_upper d
  | _ => true
  end.

(** ** GPU listings *)

(** A GPU as [nvidia-smi] knows it: index, name and memory in MiB. *)
Record gpu : Type := {
  g_index : Z;
  g_name : string;
  g_vram : Z
}.

(** The line [--format=csv,noheader] prints for it, and the listing of
    several GPUs, one line each. *)
Definition gpu_line (g : gpu) : string :=
  decimal (g_index g) ++ ", " ++ g_name g ++ ", " ++ decimal (g_vram g) ++ " MiB".

Definition listing (gpus : list gpu) : string :=
  fold_right (fun g rest => gpu_line g ++ String "010" rest) "" gpus.

(** The entry [detect_gpus] reports for a GPU of [gb] whole GiB. *)
Definition gpu_entry (index : Z) (name : string) (gb : Z) : json :=
  JDict [("index", JInt index); ("name", JStr name);
         ("memory", JStr (decimal gb ++ "GB"))].

(** The name is one of a software renderer. *)
Definition is_software (name : string) : bool :=
  existsb (fun k => is_substring k (lower name)) software_keywords.

Definition reported_gpu (entry : json) : Prop :=
  exists index name gb,
    entry = gpu_entry index name gb /\ 1 <= gb /\ is_software name = false.

Fixpoint contains_char (c : ascii) (s : string) : bool :=
  match s with
  | EmptyString => false
  | String c' r => Ascii.eqb c' c || contains_char c r
  end.

(** A name that survives the CSV: no blanks around it, no comma, no line
    break. *)
Definition plain_name (name : string) : bool :=
  (strip name =? name)%string && negb (contains_char "," name) &&
  negb (contains_char "010" name).

(** The number prints in no more digits than the interpreter reads. *)
Definition within_limit (max_digits : nat) (z : Z) : bool :=
  (Nat.eqb max_digits 0 || Nat.leb (String.length (decimal z)) max_digits)%bool.

(** A hardware GPU with at least 2000 MiB. *)
Definition usable_gpu (max_digits : nat) (g : gpu) : bool :=
  (0 <=? g_index g) && (2000 <=? g_vram g) &&
  plain_name (g_name g) && negb (is_software (g_name g)) &&
  within_limit max_digits (g_index g) && within_limit max_digits (g_vram g).

(** ** Model files *)

Definition model_entry (stem : string) : json :=
  JDict [("name", JStr stem); ("service", JStr "sdxl")].

(** A file name before its extension: not empty, no slash. *)
Definition file_stem (stem : string) : bool :=
  negb (stem =? "")%string && negb (contains_char "/" stem).

(** ** Hashed files *)

(** The paths [compute_integrity_hashes] hashes under their own name. *)
Definition critical_file (glob : string -> list string) (path : string) : Prop :=
  path = "/usr/local/bin/sd" \/ In path (glob "/models/sd/*.safetensors").

(** What the table holds for a file: its digest, when the file can be read
    and the digest is not the empty string. *)
Definition hash_entry {SHA : Sha256} (files : string -> FileRead) (path : string)
  : option json :=
  match compute_file_hash (files path) with
  | Ok (Some digest) => if (digest =? "")%string then None else Some (JStr digest)
  | _ => None
  end.

(** * Example inputs *)

(** Floats with one digit after the point, exact for the few non-negative
    values the examples measure. *)
Definition one_decimal (q : Q) : string :=
  let tenths := (Qnum q * 10) / Z.pos (Qden q) in
  decimal (tenths / 10) ++ "." ++ decimal (tenths mod 10).

Definition example_floats : PyFloat :=
  {| float_repr := one_decimal; float_fixed1 := one_decimal |}.

(** A machine whose time-zone database knows "UTC" and "Europe/Kyiv",
    rejects absolute paths and the empty key as [ZoneInfo] does, and whose
    clock shows the given weekday and time in every zone. *)
Definition clock_at (day hm : string) : Clock :=
  {| zoneinfo_importable := true;
     tz_lookup := fun k =>
       if prefix "/" k then TzMalformed "ZoneInfo keys may not be absolute paths"
       else if (k =? "")%string then
         TzMalformed "ZoneInfo keys must be normalized relative paths"
       else if ((k =? "UTC") || (k =? "Europe/Kyiv"))%string then TzFound
       else TzNotFound;
     now_a := fun _ => day;
     now_HM := fun _ => hm |}.

Definition http (status : Z) (body : json) : result Response :=
  Ok {| status_code := status; json_body := Ok body |}.

Definition connection_error : exn :=
  Exn (OtherException "ConnectionError") "Connection refused".

(** The schedule of the specification's example: Mondays, 09:00 to 17:00. *)
Definition office_rule : json :=
  JDict [("days", JList [JStr "mon"]);
         ("start_time", JStr "09:00");
         ("end_time", JStr "17:00")].

Definition office_window : window :=
  {| w_days := [JStr "mon"]; w_start := "09:00"; w_end := "17:00" |}.

Definition office_hours : list (string * json) :=
  [("enabled", JBool true); ("rules", JList [office_rule])].

(** An enabled schedule whose time zone is an absolute path. *)
Definition path_zone_schedule : json :=
  JDict [("enabled", JBool true); ("timezone", JStr "/etc/localtime")].

(** The backend answer of the specification's example. *)
Definition images_body : json :=
  JDict [("images", JList [JStr "abc"]); ("seed", JInt 42)].

Definition unknown_job : list (string * json) :=
  [("id", JStr "0123456789abcdef"); ("service", JStr "unknown")].

Definition untagged_job : list (string * json) :=
  [("id", JStr "0123456789abcdef"); ("params", JDict [("prompt", JStr "a cat")])].

Definition tagged_job : json :=
  JDict [("id", JStr "0123456789abcdef"); ("service", JStr "sdxl");
         ("params", JDict [("prompt", JStr "a cat")])].

(** An iteration at Monday noon in which the poll gets [poll]; the settings
    file can be written, the backend returns an image after a second and a
    half, and the completion call gets [complete]. *)
Definition iteration_with (poll complete : result Response) : IterEnv :=
  {| clock := clock_at "Mon" "12:00";
     poll_response := poll;
     save_outcome := Ok tt;
     backend_response := http 200 images_body;
     elapsed_time := (3 # 2)%Q;
     complete_response := complete |}.

(** The same, on a machine whose settings file cannot be written. *)
Definition iteration_read_only (poll : result Response) : IterEnv :=
  {| clock := clock_at "Mon" "12:00";
     poll_response := poll;
     save_outcome := Raise (Exn OSError "[Errno 30] Read-only file system");
     backend_response := http 200 images_body;
     elapsed_time := (3 # 2)%Q;
     complete_response := http 200 (JDict []) |}.

Definition sync_payload (version : Z) (new_settings : json) : list (string * json) :=
  [("settings_version", JInt version); ("settings", new_settings)].

Definition poll_with_sync (version : Z) (new_settings : json) : result Response :=
  http 200 (JDict [("config_sync", JDict (sync_payload version new_settings))]).

Definition poll_with_job : result Response := http 200 (JDict [("job", tagged_job)]).

(** Settings with an always-permitting schedule, held at version 1. *)
Definition settings_v1 : json :=
  JDict [("settings_version", JInt 1); ("schedule", JDict [("enabled", JBool false)])].

Definition settings_v2 : json :=
  JDict [("settings_version", JInt 2); ("schedule", JDict office_hours)].

Definition holding_v1 (count : Z) : Locals :=
  {| settings := settings_v1; settings_version := JInt 1; errors := count |}.

Definition no_settings : Locals :=
  {| settings := JNull; settings_version := JInt 0; errors := 0 |}.

(** Settings whose schedule names an absolute path as its time zone. *)
Definition holding_path_zone : Locals :=
  {| settings := JDict [("schedule", path_zone_schedule)];
     settings_version := JInt 3;
     errors := 0 |}.

(** The fields of [tagged_job]. *)
Definition job_fields : list (string * json) :=
  [("id", JStr "0123456789abcdef"); ("service", JStr "sdxl");
   ("params", JDict [("prompt", JStr "a cat")])].

Definition prompt_request : json :=
  JDict [("prompt", JStr "a cat"); ("negative_prompt", JStr "");
         ("width", JInt 1024); ("height", JInt 1024); ("steps", JInt 20);
         ("cfg_scale", JFloat (7 # 1)%Q); ("seed", JInt (-1));
         ("sample_method", JStr "euler_a")].

(** An iteration whose inference call is interrupted from the keyboard. *)
Definition iteration_interrupted (poll : result Response) : IterEnv :=
  {| clock := clock_at "Mon" "12:00";
     poll_response := poll;
     save_outcome := Ok tt;
     backend_response := Raise (Exn KeyboardInterrupt "");
     elapsed_time := (3 # 2)%Q;
     complete_response := http 200 (JDict []) |}.

(** A rule meant for the night from Monday to Tuesday. *)
Definition night_rule : json :=
  JDict [("days", JList [JStr "mon"]);
         ("start_time", JStr "22:00");
         ("end_time", JStr "06:00")].

Definition night_window : window :=
  {| w_days := [JStr "mon"]; w_start := "22:00"; w_end := "06:00" |}.

Definition night_shift : list (string * json) :=
  [("enabled", JBool true); ("rules", JList [night_rule])].

(** Two rules in either order. *)
Definition weekend_rule : json :=
  JDict [("days", JList [JStr "sat"; JStr "sun"])].

Definition weekend_window : window :=
  {| w_days := [JStr "sat"; JStr "sun"]; w_start := "00:00"; w_end := "23:59" |}.

Definition office_then_weekend : list (string * json) :=
  [("enabled", JBool true); ("rules", JList [office_rule; weekend_rule])].

Definition weekend_then_office : list (string * json) :=
  [("enabled", JBool true); ("rules", JList [weekend_rule; office_rule; weekend_rule])].

(** A rule whose days are written the way [strftime] prints them. *)
Definition capitalised_rule : json :=
  JDict [("days", JList [JStr "Mon"; JStr "monday"; JInt 1])].

Definition capitalised_window : window :=
  {| w_days := [JStr "Mon"; JStr "monday"; JInt 1];
     w_start := "00:00"; w_end := "23:59" |}.

Definition capitalised_schedule : list (string * json) :=
  [("enabled", JBool true); ("rules", JList [capitalised_rule])].

(** A worker that holds the office-hours schedule, and an iteration on a
    Monday evening. *)
Definition holding_office_hours : Locals :=
  {| settings := JDict [("schedule", JDict office_hours)];
     settings_version := JInt 2;
     errors := 0 |}.

Definition monday_evening (poll : result Response) : IterEnv :=
  {| clock := clock_at "Mon" "20:00";
     poll_response := poll;
     save_outcome := Ok tt;
     backend_response := http 200 images_body;
     elapsed_time := (3 # 2)%Q;
     complete_response := http 200 (JDict []) |}.

(** A machine with two cards and a software renderer. *)
Definition rtx3090 : gpu :=
  {| g_index := 0; g_name := "NVIDIA GeForce RTX 3090"; g_vram := 24576 |}.

Definition gtx1050 : gpu :=
  {| g_index := 1; g_name := "NVIDIA GeForce GTX 1050"; g_vram := 2048 |}.

Definition smi_output (text : string) : result CompletedProcess :=
  Ok {| returncode := 0; stdout := text |}.

Definition mixed_output : string :=
  listing [rtx3090] ++
  "1, llvmpipe (LLVM 15.0.6), 4096 MiB" ++ String "010" "" ++
  "2, NVIDIA GeForce GT 710, 1999 MiB" ++ String "010" "".

(** The model directory of a machine with two checkpoints. *)
Definition two_models (pattern : string) : list string :=
  if (pattern =? "/models/sd/*.safetensors")%string
  then ["/models/sd/sd_xl_base_1.0.safetensors"; "/models/sd/turbo.safetensors"]
  else [].

(** A stand-in for SHA-256 that keeps the bytes it was fed. *)
Definition transcript : Sha256 :=
  {| hasher := string; sha256 := ""; update := append; hexdigest := fun h => h |}.

Definition readable (chunks : list string) : FileRead :=
  {| open_outcome := Ok tt;
     read_outcomes := map Ok chunks;
     close_outcome := Ok tt |}.

Definition unreadable : FileRead :=
  {| open_outcome := Raise (Exn OSError "[Errno 2] No such file or directory");
     read_outcomes := [];
     close_outcome := Ok tt |}.

(** A machine with the inference binary, one readable checkpoint and one
    that cannot be opened. *)
Definition two_files (path : string) : FileRead :=
  if (path =? "/usr/local/bin/sd")%string then readable ["ELF"; "binary"]
  else if (path =? "/models/sd/turbo.safetensors")%string then readable ["weights"]
  else if (path =? "/opt/worker/gpu_worker.py")%string then readable ["import os"]
  else unreadable.

Definition no_settings_file : SettingsFile :=
  {| file_exists := false; load_outcome := Ok JNull |}.

Definition truncated_settings_file : SettingsFile :=
  {| file_exists := true;
     load_outcome := Raise (Exn (OtherException "JSONDecodeError")
                                "Expecting value: line 1 column 1 (char 0)") |}.

Definition settings_file_with (document : json) : SettingsFile :=
  {| file_exists := true; load_outcome := Ok document |}.

(** * Theorems *)

(** ** Schedule gate *)

Lemma is_str_In (s : string) (l : list json) :
  existsb (is_str s) l = true <-> In (JStr s) l.
Proof.
  rewrite existsb_exists. split.
  - intros [x [Hin Hx]]. destruct x; simpl in Hx; try discriminate.
    apply String.eqb_eq in Hx. now subst.
  - intros Hin. exists (JStr s). split; [assumption | simpl; apply String.eqb_refl].
Qed.

Lemma coversb_covers (day hm : string) (w : window) :
  coversb day hm w = true <-> covers day hm w.
Proof.
  unfold coversb, covers. rewrite !andb_true_iff, is_str_In. tauto.
Qed.

Lemma scan_rules_typed (day hm : string) (rules : list json) (ws : list window) :
  map rule_window rules = map Some ws ->
  scan_rules day hm rules = Ok (existsb (coversb day hm) ws).
Proof.
  revert ws. induction rules as [|rule rest IH]; intros [|w ws] Hmap;
    try discriminate; [reflexivity|].
  simpl in Hmap. injection Hmap as Hrule Hrest.
  specialize (IH ws Hrest).
  destruct rule as [ | | | | | |r]; try discriminate.
  unfold rule_window in Hrule.
  cbn [scan_rules py_get rbind].
  destruct (dict_get "days" r) as [[ | | | | |ds| ]|]; try discriminate;
    destruct (dict_get "start_time" r) as [[ | | | |s| | ]|]; try discriminate;
    destruct (dict_get "end_time" r) as [[ | | | |e| | ]|]; try discriminate;
    cbn in Hrule; injection Hrule as <-;
    cbn [py_contains py_le rbind existsb]; unfold coversb;
    cbn [w_days w_start w_end existsb andb orb]; rewrite IH;
    repeat (match goal with
            | |- context [if ?b then _ else _] => destruct b
            end; cbn [andb orb]);
    reflexivity.
Qed.

(** With the zone resolved, [is_within_schedule] is the scan of the rules. *)
Lemma is_within_schedule_enabled (c : Clock) (d : list (string * json))
      (tz : string) (rules : list json) :
  truthy (enabled_flag d) = true ->
  zoneinfo_importable c = true ->
  schedule_timezone d = Some tz ->
  tz_lookup c tz = TzFound ->
  schedule_rules d = Some rules ->
  is_within_schedule c (JDict d) =
  scan_rules (current_day c tz) (current_time c tz) rules.
Proof.
  intros Hen Himp Htz Hfound Hrules.
  unfold is_within_schedule, enabled_flag, schedule_timezone, schedule_rules in *.
  assert (Hd : truthy (JDict d) = true).
  { destruct d; [discriminate Hen | reflexivity]. }
  rewrite Hd. cbn [negb py_get rbind].
  destruct (dict_get "enabled" d) as [en|]; [|discriminate Hen].
  rewrite Hen, Himp. cbn [negb].
  destruct (dict_get "timezone" d) as [[ | | | |k| | ]|]; try discriminate;
    injection Htz as ->; cbn [ZoneInfo]; rewrite Hfound;
    destruct (dict_get "rules" d) as [[ | | | | |l| ]|]; try discriminate;
    injection Hrules as <-; reflexivity.
Qed.

(** C5. Schedule gate semantics: an absent schedule, and a schedule whose
    [enabled] flag is false or missing, is within schedule whatever the clock
    shows; an enabled schedule whose time zone resolves is within schedule
    exactly when one of its rules has the current three-letter weekday in its
    day set and the current "HH:MM" inside its inclusive window, and is not
    within schedule when no rule does. *)
Theorem schedule_gate_semantics (c : Clock) :
  is_within_schedule c JNull = Ok true /\
  is_within_schedule c (JDict []) = Ok true /\
  (forall d,
      dict_get "enabled" d = None \/ dict_get "enabled" d = Some (JBool false) ->
      is_within_schedule c (JDict d) = Ok true) /\
  (forall d tz rules ws,
      truthy (enabled_flag d) = true ->
      zoneinfo_importable c = true ->
      schedule_timezone d = Some tz ->
      tz_lookup c tz = TzFound ->
      schedule_rules d = Some rules ->
      map rule_window rules = map Some ws ->
      exists b,
        is_within_schedule c (JDict d) = Ok b /\
        (b = true <->
         exists w, In w ws /\ covers (current_day c tz) (current_time c tz) w)).
Proof.
  split; [reflexivity|]. split; [reflexivity|]. split.
  - intros d Hen. unfold is_within_schedule.
    destruct (truthy (JDict d)); [|reflexivity].
    cbn [negb py_get rbind].
    destruct Hen as [-> | ->]; reflexivity.
  - intros d tz rules ws Hen Himp Htz Hfound Hrules Htyped.
    exists (existsb (coversb (current_day c tz) (current_time c tz)) ws).
    split.
    + rewrite (is_within_schedule_enabled c d tz rules) by assumption.
      now apply scan_rules_typed.
    + rewrite existsb_exists.
      split; intros [w [Hin Hw]]; exists w; split; try assumption;
        now apply coversb_covers.
Qed.

Lemma schedule_gate_semantics_witness :
  truthy (enabled_flag office_hours) = true /\
  tz_lookup (clock_at "Mon" "12:00") "UTC" = TzFound /\
  exists b,
    is_within_schedule (clock_at "Mon" "12:00") (JDict office_hours) = Ok b /\
    (b = true <-> exists w, In w [office_window] /\ covers "mon" "12:00" w).
Proof.
  split; [reflexivity|]. split; [reflexivity|].
  destruct (schedule_gate_semantics (clock_at "Mon" "12:00")) as (_ & _ & _ & H).
  apply (H office_hours "UTC" [office_rule] [office_window]); reflexivity.
Defined.

(** The three instants of the specification's example. *)
Example office_hours_monday_noon :
  is_within_schedule (clock_at "Mon" "12:00") (JDict office_hours) = Ok true.
Proof. reflexivity. Qed.

Example office_hours_monday_evening :
  is_within_schedule (clock_at "Mon" "20:00") (JDict office_hours) = Ok false.
Proof. reflexivity. Qed.

Example office_hours_tuesday_noon :
  is_within_schedule (clock_at "Tue" "12:00") (JDict office_hours) = Ok false.
Proof. reflexivity. Qed.

(** A zone the database does not have, and a Python without [zoneinfo],
    leave the gate open. *)
Lemma unknown_timezone_fails_open (c : Clock) (d : list (string * json)) (k : string) :
  truthy (enabled_flag d) = true ->
  schedule_timezone d = Some k ->
  zoneinfo_importable c = false \/ tz_lookup c k = TzNotFound ->
  is_within_schedule c (JDict d) = Ok true.
Proof.
  intros Hen Htz Hcase.
  unfold is_within_schedule, enabled_flag, schedule_timezone in *.
  assert (Hd : truthy (JDict d) = true) by (destruct d; [discriminate Hen | reflexivity]).
  rewrite Hd. cbn [negb py_get rbind].
  destruct (dict_get "enabled" d) as [en|]; [|discriminate Hen].
  rewrite Hen. cbn [negb].
  destruct (zoneinfo_importable c); [|reflexivity].
  destruct Hcase as [Himp | Hnf]; [discriminate Himp|].
  destruct (dict_get "timezone" d) as [[ | | | |k'| | ]|]; try discriminate;
    injection Htz as ->; cbn [ZoneInfo rbind]; rewrite Hnf; reflexivity.
Qed.

(** A key that [ZoneInfo] rejects with [ValueError] escapes the handler,
    which names [ImportError] and [KeyError] only. *)
Lemma malformed_timezone_raises (c : Clock) (d : list (string * json))
      (k complaint : string) :
  truthy (enabled_flag d) = true ->
  zoneinfo_importable c = true ->
  dict_get "timezone" d = Some (JStr k) ->
  tz_lookup c k = TzMalformed complaint ->
  exists msg, is_within_schedule c (JDict d) = Raise (Exn ValueError msg).
Proof.
  intros Hen Himp Htz Hbad.
  unfold is_within_schedule, enabled_flag in *.
  assert (Hd : truthy (JDict d) = true) by (destruct d; [discriminate Hen | reflexivity]).
  rewrite Hd. cbn [negb py_get rbind].
  destruct (dict_get "enabled" d) as [en|]; [|discriminate Hen].
  rewrite Hen, Himp, Htz. cbn [negb ZoneInfo rbind]. rewrite Hbad.
  eexists. reflexivity.
Qed.

(** ** Inference client *)

Ltac case_scrutinee :=
  match goal with
  | |- context [dict_get ?k ?d] => destruct (dict_get k d) eqn:?
  | |- context [is_substring ?a ?b] => destruct (is_substring a b)
  | |- context [existsb ?f ?l] => destruct (existsb f l)
  | |- context [Z.eqb ?a ?b] => destruct (Z.eqb a b)
  | |- context [Qeq_bool ?a ?b] => destruct (Qeq_bool a b)
  | |- context [String.eqb ?a ?b] => destruct (String.eqb a b)
  | |- context [truthy ?v] => is_var v; destruct v
  | |- context [py_first ?v] => is_var v; destruct v
  | |- context [match ?x with _ => _ end] => is_var x; destruct x
  end.

(** Whatever the request body is built from, building it fails only with
    an [Exception]. *)
Lemma txt2img_body_cases (params : json) :
  (exists p body, params = JDict p /\ txt2img_body params = Ok body) \/
  (exists e, txt2img_body params = Raise e /\ is_Exception e = true).
Proof.
  destruct params as [ | | | | | |p];
    try (right; eexists; split; reflexivity).
  left. exists p. eexists. split; reflexivity.
Qed.

(** Reading a response returns one of the two result shapes, raises an
    [Exception], or passes on what [resp.json()] raised. *)
Lemma read_response_cases (resp : Response) :
  match read_response resp with
  | Ok res => is_sdxl_result res
  | Raise e => is_Exception e = true \/ json_body resp = Raise e
  end.
Proof.
  unfold read_response, is_sdxl_result.
  destruct resp as [code body]. cbn [status_code json_body].
  destruct (code =? 200); cbn [negb].
  - destruct body as [r|e]; cbn [rbind]; [|right; reflexivity].
    destruct r as [ | | | | s | l | d]; cbn.
    all: repeat (case_scrutinee; cbn).
    all: try (left; eexists; reflexivity).
    all: try (right; do 2 eexists; reflexivity).
    all: left; reflexivity.
  - left. eexists. reflexivity.
Qed.

Lemma run_sdxl_total (backend : result Response) (params : json) :
  backend_interrupts backend = false ->
  exists tr res, run_sdxl backend params = (tr, Ok res) /\ is_sdxl_result res.
Proof.
  intros Hint. unfold run_sdxl.
  destruct (txt2img_body_cases params) as [(p & body & -> & Hbody) | (e & Hbody & He)];
    rewrite Hbody; cbn [lift ebind call except_Exception].
  - destruct backend as [resp|e]; cbn [lift ebind call except_Exception app].
    + pose proof (read_response_cases resp) as Hread.
      cbn in Hint.
      destruct (read_response resp) as [res|e]; cbn.
      * do 2 eexists. split; [reflexivity | exact Hread].
      * assert (He : is_Exception e = true).
        { destruct Hread as [He | Hjson]; [exact He|].
          rewrite Hjson in Hint. cbn in Hint.
          now apply negb_false_iff in Hint. }
        rewrite He. cbn.
        do 2 eexists. split; [reflexivity | left; eexists; reflexivity].
    + cbn in Hint. apply negb_false_iff in Hint. rewrite Hint. cbn.
      do 2 eexists. split; [reflexivity | left; eexists; reflexivity].
  - rewrite He. cbn.
    do 2 eexists. split; [reflexivity | left; eexists; reflexivity].
Qed.

Lemma run_sdxl_answered (p : list (string * json)) (resp : Response) (res : json) :
  read_response resp = Ok res ->
  snd (run_sdxl (Ok resp) (JDict p)) = Ok res.
Proof.
  intros Hread. unfold run_sdxl. cbn. rewrite Hread. reflexivity.
Qed.

Lemma read_response_status (resp : Response) :
  status_code resp <> 200 ->
  read_response resp =
  Ok (error_result ("Server error " ++ decimal (status_code resp))).
Proof.
  intros Hcode. unfold read_response.
  apply Z.eqb_neq in Hcode. rewrite Hcode. reflexivity.
Qed.

Lemma read_response_images (resp : Response) (r : list (string * json))
      (image : json) (rest : list json) :
  status_code resp = 200 ->
  json_body resp = Ok (JDict r) ->
  dict_get "images" r = Some (JList (image :: rest)) ->
  read_response resp = Ok (JDict [("image", image); ("seed", reported_seed r)]).
Proof.
  intros Hcode Hbody Himages. unfold read_response, reported_seed.
  rewrite Hcode, Hbody. cbn. rewrite Himages. cbn. reflexivity.
Qed.

Lemma read_response_no_image (resp : Response) (r : list (string * json)) :
  status_code resp = 200 ->
  json_body resp = Ok (JDict r) ->
  dict_get "images" r = None \/
  (exists v, dict_get "images" r = Some v /\ truthy v = false) ->
  dict_get "image" r = None ->
  read_response resp = Ok (error_result "No image").
Proof.
  intros Hcode Hbody Himages Himage. unfold read_response.
  rewrite Hcode, Hbody. cbn.
  destruct Himages as [-> | (v & -> & Hv)]; cbn;
    rewrite ?Hv, Himage; reflexivity.
Qed.

(** C7. Inference response mapping: [run_sdxl] returns a result whenever no
    interrupt is delivered, and for a request that was sent (the parameters
    are a JSON object): a status [N] other than 200 gives [{error: "Server
    error N"}]; a 200 response whose body has a non-empty ['images'] list
    gives the first image with the reported seed, [-1] when none is reported;
    a 200 response whose body has no ['image'] field and whose ['images'] is
    absent or empty gives [{error: "No image"}]; and an exception raised by
    the transport gives [{error: str(e)}]. *)
Theorem run_sdxl_response_mapping (backend : result Response) (params : json) :
  (backend_interrupts backend = false ->
   exists tr res, run_sdxl backend params = (tr, Ok res) /\ is_sdxl_result res) /\
  (forall p resp,
      params = JDict p -> backend = Ok resp ->
      (status_code resp <> 200 ->
       snd (run_sdxl backend params) =
       Ok (error_result ("Server error " ++ decimal (status_code resp)))) /\
      (forall r,
          status_code resp = 200 -> json_body resp = Ok (JDict r) ->
          (forall image rest,
              dict_get "images" r = Some (JList (image :: rest)) ->
              snd (run_sdxl backend params) =
              Ok (JDict [("image", image); ("seed", reported_seed r)])) /\
          (dict_get "image" r = None ->
           dict_get "images" r = None \/
           (exists v, dict_get "images" r = Some v /\ truthy v = false) ->
           snd (run_sdxl backend params) = Ok (error_result "No image")))) /\
  (forall p e,
      params = JDict p -> backend = Raise e -> is_Exception e = true ->
      snd (run_sdxl backend params) = Ok (error_result (exn_msg e))).
Proof.
  split; [apply run_sdxl_total|]. split.
  - intros p resp -> ->. split.
    + intros Hcode. apply run_sdxl_answered. now apply read_response_status.
    + intros r Hcode Hbody. split.
      * intros image rest Himages. apply run_sdxl_answered.
        now apply read_response_images with (rest := rest).
      * intros Himage Himages. apply run_sdxl_answered.
        now apply read_response_no_image with (r := r).
  - intros p e -> -> He. unfold run_sdxl. cbn. rewrite He. reflexivity.
Qed.

Lemma run_sdxl_response_mapping_witness :
  snd (run_sdxl (http 200 images_body) (JDict [])) =
    Ok (JDict [("image", JStr "abc"); ("seed", JInt 42)]) /\
  snd (run_sdxl (http 500 JNull) (JDict [])) = Ok (error_result "Server error 500") /\
  snd (run_sdxl (http 200 (JDict [("info", JStr "done")])) (JDict [])) =
    Ok (error_result "No image") /\
  snd (run_sdxl (Raise connection_error) (JDict [])) =
    Ok (error_result "Connection refused").
Proof.
  split; [|split; [|split]].
  - destruct (run_sdxl_response_mapping (http 200 images_body) (JDict []))
      as (_ & H & _).
    destruct (H [] {| status_code := 200; json_body := Ok images_body |}
                eq_refl eq_refl) as (_ & H200).
    destruct (H200 [("images", JList [JStr "abc"]); ("seed", JInt 42)]
                eq_refl eq_refl) as (Himages & _).
    exact (Himages (JStr "abc") [] eq_refl).
  - destruct (run_sdxl_response_mapping (http 500 JNull) (JDict []))
      as (_ & H & _).
    destruct (H [] {| status_code := 500; json_body := Ok JNull |}
                eq_refl eq_refl) as (Hstatus & _).
    apply Hstatus. discriminate.
  - destruct (run_sdxl_response_mapping
                (http 200 (JDict [("info", JStr "done")])) (JDict []))
      as (_ & H & _).
    destruct (H [] {| status_code := 200;
                      json_body := Ok (JDict [("info", JStr "done")]) |}
                eq_refl eq_refl) as (_ & H200).
    destruct (H200 [("info", JStr "done")] eq_refl eq_refl) as (_ & Hnone).
    apply Hnone; [reflexivity | left; reflexivity].
  - destruct (run_sdxl_response_mapping (Raise connection_error) (JDict []))
      as (_ & _ & H).
    exact (H [] connection_error eq_refl eq_refl eq_refl).
Defined.

(** [run_sdxl] either returns one of its two result shapes or lets an
    interrupt through. *)
Lemma run_sdxl_cases (backend : result Response) (params : json) :
  exists tr,
    (exists res, run_sdxl backend params = (tr, Ok res) /\ is_sdxl_result res) \/
    (exists e, run_sdxl backend params = (tr, Raise e) /\
               backend_interrupts backend = true).
Proof.
  destruct (backend_interrupts backend) eqn:Hint.
  - unfold run_sdxl.
    destruct (txt2img_body_cases params) as [(p & body & -> & Hbody) | (e & Hbody & He)];
      rewrite Hbody; cbn [lift ebind call except_Exception].
    + destruct backend as [resp|e]; cbn [lift ebind call except_Exception app].
      * pose proof (read_response_cases resp) as Hread.
        destruct (read_response resp) as [res|e]; cbn.
        -- eexists. left. eexists. split; [reflexivity | exact Hread].
        -- destruct (is_Exception e); cbn.
           ++ eexists. left. eexists. split; [reflexivity | left; eexists; reflexivity].
           ++ eexists. right. eexists. split; reflexivity.
      * cbn in Hint. apply negb_true_iff in Hint. rewrite Hint.
        eexists. right. eexists. split; reflexivity.
    + rewrite He. cbn.
      eexists. left. eexists. split; [reflexivity | left; eexists; reflexivity].
  - destruct (run_sdxl_total backend params Hint) as (tr & res & Hrun & Hres).
    exists tr. left. exists res. split; assumption.
Qed.

(** ** Job dispatch *)

Section DispatchFacts.
Context {PF : PyFloat}.

Lemma dict_get_set_same (k : string) (v : json) (d : list (string * json)) :
  dict_get k (dict_set k v d) = Some v.
Proof.
  induction d as [|[k' v'] rest IH]; simpl.
  - now rewrite String.eqb_refl.
  - destruct (k' =? k)%string eqn:Hk; simpl.
    + now rewrite String.eqb_refl.
    + now rewrite Hk.
Qed.

(** What [process_job] makes of the result of [run_sdxl]. *)
Lemma finish_job_cases (elapsed : Q) (res : json) :
  is_sdxl_result res ->
  exists tr out,
    finish_job elapsed res = (tr, Ok out) /\
    ((exists err, out = JDict [("error", err)]) \/
     (exists payload,
         out = JDict [("result", JDict payload)] /\
         dict_get "inference_time" payload = Some (JFloat elapsed))).
Proof.
  intros [[msg ->] | (image & seed & ->)]; cbn.
  - do 2 eexists. split; [reflexivity|]. left. eexists. reflexivity.
  - do 2 eexists. split; [reflexivity|]. right. eexists. split; reflexivity.
Qed.

(** C8. Unsupported service rejection: a job whose service tag is not
    "sdxl" gets [{error: "Unsupported service: <tag>"}], and the only thing
    [process_job] does before returning it is write its log line: no request
    goes to the inference backend. *)
Theorem unsupported_service_rejected
        (backend : result Response) (elapsed : Q)
        (job : list (string * json)) (tag : json) (id : string) :
  dict_get "service" job = Some tag ->
  is_str "sdxl" tag = false ->
  dict_get "id" job = Some (JStr id) ->
  process_job backend elapsed (JDict job) =
  ([Log ("Processing " ++ py_str tag ++ " job " ++ substring 0 8 id ++ "...")],
   Ok (error_result ("Unsupported service: " ++ py_str tag))).
Proof.
  intros Htag Hnot Hid. unfold process_job.
  cbn [py_get py_lookup lift ebind]. rewrite Htag, Hid.
  cbn [py_slice8 lift ebind emit app py_str]. rewrite Hnot. reflexivity.
Qed.

(** C9. Job result exclusivity: whatever [process_job] returns has exactly
    one of the fields [error] and [result], and a [result] payload carries the
    measured [inference_time]; and [process_job] does return, for every job
    with a string identifier, unless an interrupt is delivered. *)
Theorem job_result_exclusive (backend : result Response) (elapsed : Q) :
  (forall job tr res,
      process_job backend elapsed job = (tr, Ok res) ->
      xorb (populated "error" res) (populated "result" res) = true /\
      (populated "result" res = true ->
       exists payload,
         res = JDict [("result", JDict payload)] /\
         dict_get "inference_time" payload = Some (JFloat elapsed))) /\
  (forall job id,
      dict_get "id" job = Some (JStr id) ->
      backend_interrupts backend = false ->
      exists tr res, process_job backend elapsed (JDict job) = (tr, Ok res)).
Proof.
  split.
  - intros job tr res Hrun. unfold process_job in Hrun.
    destruct job as [ | | | | | |j]; try discriminate Hrun.
    cbn [py_get py_lookup lift ebind] in Hrun.
    destruct (dict_get "id" j) as [id|]; [|discriminate Hrun].
    cbn [lift ebind] in Hrun.
    destruct (py_slice8 id) as [id8|e]; [|discriminate Hrun].
    cbn [lift ebind emit app] in Hrun.
    match type of Hrun with
    | context [is_str "sdxl" ?service] => destruct (is_str "sdxl" service)
    end; cbn [negb] in Hrun.
    + match type of Hrun with
      | context [run_sdxl backend ?params] =>
          destruct (run_sdxl_cases backend params) as (tr0 & Hcases);
          destruct (run_sdxl backend params) as [trx [resx|ex]]
      end; cbn [ebind] in Hrun; [|discriminate Hrun].
      destruct Hcases as [(res0 & Heq & Hshape) | (e & Heq & _)];
        [injection Heq as <- <- | discriminate Heq].
      destruct (finish_job_cases elapsed resx Hshape) as (tr1 & out & Hfin & Hout).
      rewrite Hfin in Hrun. injection Hrun as _ <-.
      destruct Hout as [[err ->] | (payload & -> & Htime)]; cbn.
      * split; [reflexivity | discriminate].
      * split; [reflexivity|]. intros _. exists payload.
        split; [reflexivity | exact Htime].
    + cbn in Hrun. injection Hrun as _ <-. cbn. split; [reflexivity | discriminate].
  - intros job id Hid Hint. unfold process_job.
    cbn [py_get py_lookup lift ebind]. rewrite Hid.
    cbn [py_slice8 lift ebind emit app].
    match goal with
    | |- context [is_str "sdxl" ?service] => destruct (is_str "sdxl" service)
    end; cbn [negb].
    + match goal with
      | |- context [run_sdxl backend ?params] =>
          destruct (run_sdxl_total backend params Hint) as (tr0 & res0 & Hsd & Hshape)
      end.
      rewrite Hsd. cbn [ebind].
      destruct (finish_job_cases elapsed res0 Hshape) as (tr1 & out & Hfin & _).
      rewrite Hfin. do 2 eexists. reflexivity.
    + do 2 eexists. reflexivity.
Qed.

End DispatchFacts.

Lemma unsupported_service_rejected_witness :
  @process_job example_floats (http 200 images_body) 1%Q (JDict unknown_job) =
  ([Log "Processing unknown job 01234567..."],
   Ok (error_result "Unsupported service: unknown")).
Proof.
  exact (@unsupported_service_rejected example_floats (http 200 images_body) 1%Q
           unknown_job (JStr "unknown") "0123456789abcdef"
           eq_refl eq_refl eq_refl).
Defined.

Lemma job_result_exclusive_witness :
  exists tr res,
    @process_job example_floats (http 200 images_body) (3 # 2)%Q (JDict untagged_job) =
    (tr, Ok res) /\
    xorb (populated "error" res) (populated "result" res) = true /\
    exists payload,
      res = JDict [("result", JDict payload)] /\
      dict_get "inference_time" payload = Some (JFloat (3 # 2)%Q).
Proof.
  destruct (@job_result_exclusive example_floats (http 200 images_body) (3 # 2)%Q)
    as (Hshape & Hreturns).
  destruct (Hreturns untagged_job "0123456789abcdef" eq_refl eq_refl)
    as (tr & res & Hrun).
  exists tr, res. split; [exact Hrun|].
  destruct (Hshape (JDict untagged_job) tr res Hrun) as (Hxor & Hpayload).
  split; [exact Hxor|]. apply Hpayload.
  vm_compute in Hrun. injection Hrun as _ <-. reflexivity.
Defined.

Section DefaultService.
Context {PF : PyFloat}.

Lemma process_job_tagged (backend : result Response) (elapsed : Q)
      (job : list (string * json)) :
  dict_get "service" job = None ->
  process_job backend elapsed (JDict job) =
  process_job backend elapsed (JDict (("service", JStr "sdxl") :: job)).
Proof.
  intros Hnone. unfold process_job.
  cbn [py_get py_lookup dict_get lift ebind]. rewrite Hnone.
  reflexivity.
Qed.

(** C10. A job without a ['service'] key is handled as the same job tagged
    "sdxl": it passes the service check and its parameters are sent to the
    inference backend. *)
Theorem missing_service_defaults_to_sdxl
        (backend : result Response) (elapsed : Q)
        (job : list (string * json)) (id : string) (p : list (string * json)) :
  dict_get "service" job = None ->
  dict_get "id" job = Some (JStr id) ->
  dict_get "params" job = None \/ dict_get "params" job = Some (JDict p) ->
  process_job backend elapsed (JDict job) =
  process_job backend elapsed (JDict (("service", JStr "sdxl") :: job)) /\
  exists body rest,
    fst (process_job backend elapsed (JDict job)) =
    Log ("Processing sdxl job " ++ substring 0 8 id ++ "...")
        :: Txt2ImgRequest body :: rest.
Proof.
  intros Hnone Hid Hparams. split; [now apply process_job_tagged|].
  unfold process_job.
  cbn [py_get py_lookup lift ebind]. rewrite Hnone, Hid.
  cbn [py_slice8 lift ebind emit app py_str is_str negb].
  rewrite String.eqb_refl. cbn [negb].
  match goal with
  | |- context [run_sdxl backend ?params] =>
      assert (Hsent : exists body tr r,
                 run_sdxl backend params = (Txt2ImgRequest body :: tr, r))
  end.
  { destruct Hparams as [-> | ->]; unfold run_sdxl; cbn;
      destruct backend as [resp|e]; cbn.
    1, 3: destruct (read_response resp) as [res|e]; cbn;
      [|destruct (is_Exception e); cbn]; do 3 eexists; reflexivity.
    all: destruct (is_Exception e); cbn; do 3 eexists; reflexivity. }
  destruct Hsent as (body & tr & r & ->).
  cbn [ebind]. destruct r as [res|e].
  - destruct (finish_job elapsed res) as [tr' r']. cbn. do 2 eexists. reflexivity.
  - cbn. do 2 eexists. reflexivity.
Qed.

End DefaultService.

Lemma missing_service_defaults_to_sdxl_witness :
  dict_get "service" untagged_job = None /\
  exists body rest,
    fst (@process_job example_floats (http 200 images_body) (3 # 2)%Q
           (JDict untagged_job)) =
    Log "Processing sdxl job 01234567..." :: Txt2ImgRequest body :: rest.
Proof.
  split; [reflexivity|].
  exact (proj2 (@missing_service_defaults_to_sdxl example_floats
                  (http 200 images_body) (3 # 2)%Q untagged_job
                  "0123456789abcdef" [("prompt", JStr "a cat")]
                  eq_refl eq_refl (or_intror eq_refl))).
Defined.

(** ** Worker loop *)

Section LoopFacts.
Context {PF : PyFloat}.

(** *** The blocks of the loop body, case by case *)

Lemma try_body_gate_closed (env : IterEnv) (st : Locals) :
  schedule_forbids (clock env) (settings st) = Ok true ->
  try_body env st = ([Sleep POLL_INTERVAL], st, Continue).
Proof.
  intros Hgate. unfold try_body, bbind, read, of_result. rewrite Hgate. reflexivity.
Qed.

Lemma try_body_gate_raises (env : IterEnv) (st : Locals) (e : exn) :
  schedule_forbids (clock env) (settings st) = Raise e ->
  try_body env st = ([], st, Throw e).
Proof.
  intros Hgate. unfold try_body, bbind, read, of_result. rewrite Hgate. reflexivity.
Qed.

Lemma try_body_polls (env : IterEnv) (st : Locals) :
  schedule_forbids (clock env) (settings st) = Ok false ->
  try_body env st =
  match poll_response env with
  | Raise e => ([PollRequest], st, Throw e)
  | Ok resp =>
      if status_code resp =? 401 then
        ([PollRequest; Log "ERROR: Invalid API key"], st, Return)
      else if negb (status_code resp =? 200) then
        ([PollRequest; Sleep (backoff (errors st + 1))],
         set_errors (errors st + 1) st, Continue)
      else
        match json_body resp with
        | Raise e => ([PollRequest], st, Throw e)
        | Ok data =>
            match (sync_settings env data ;;; handle_job env data)%body st with
            | (tr, st', f) => (PollRequest :: tr, st', f)
            end
        end
  end.
Proof.
  intros Hgate. unfold try_body.
  unfold bbind at 1. cbn [read]. unfold bbind at 1. rewrite Hgate.
  cbn [of_result]. unfold bbind at 1. unfold of_eff at 1, call at 1.
  destruct (poll_response env) as [resp|e]; [|reflexivity].
  destruct (status_code resp =? 401); [reflexivity|].
  destruct (status_code resp =? 200); cbn [negb]; [|reflexivity].
  unfold bbind at 1.
  destruct (json_body resp) as [data|e]; cbn [of_result]; [|reflexivity].
  destruct ((sync_settings env data ;;; handle_job env data)%body st) as [[tr st'] f].
  reflexivity.
Qed.

Lemma sync_settings_without_payload (env : IterEnv) (d : list (string * json))
      (st : Locals) :
  dict_get "config_sync" d = None ->
  sync_settings env (JDict d) st = ([], st, Next tt).
Proof.
  intros Hnone. unfold sync_settings, bbind. cbn [py_get of_result].
  rewrite Hnone. reflexivity.
Qed.

Lemma sync_settings_payload (env : IterEnv) (d cs : list (string * json))
      (st : Locals) (newer : bool) :
  dict_get "config_sync" d = Some (JDict cs) ->
  cs <> [] ->
  py_gt (incoming_version cs) (settings_version st) = Ok newer ->
  sync_settings env (JDict d) st =
  if newer then
    if truthy (incoming_settings cs) then
      match save_outcome env with
      | Ok _ =>
          ([SaveSettings (incoming_settings cs);
            Log ("Settings synced (v" ++ py_str (incoming_version cs) ++ ")")],
           {| settings := incoming_settings cs;
              settings_version := incoming_version cs;
              errors := errors st |},
           Next tt)
      | Raise e =>
          ([SaveSettings (incoming_settings cs)],
           set_settings (incoming_settings cs) st, Throw e)
      end
    else ([], set_settings (incoming_settings cs) st, Next tt)
  else ([], st, Next tt).
Proof.
  intros Hcs Hne Hgt. unfold incoming_version, incoming_settings in *.
  assert (Htruthy : truthy (JDict cs) = true)
    by (destruct cs; [contradiction | reflexivity]).
  unfold sync_settings, bbind, of_result, read, assign, log, of_eff, call, emit.
  cbn [py_get py_lookup]. rewrite Hcs. cbv beta iota. rewrite Htruthy.
  cbn [py_get py_lookup app]. rewrite Hgt. cbn [app].
  destruct newer; [|reflexivity].
  cbn [py_get app set_settings settings settings_version errors].
  destruct (truthy match dict_get "settings" cs with Some x => x | None => JNull end);
    [|reflexivity].
  destruct (save_outcome env) as [[]|e]; reflexivity.
Qed.

Lemma handle_job_cases (env : IterEnv) (d : list (string * json)) (st : Locals) :
  handle_job env (JDict d) st =
  if truthy (incoming_job d) then
    match process_job (backend_response env) (elapsed_time env) (incoming_job d) with
    | (tr, Raise e) => (tr, set_errors 0 st, Throw e)
    | (tr, Ok result) =>
        match py_lookup (incoming_job d) "id" with
        | Raise e => (tr, set_errors 0 st, Throw e)
        | Ok id =>
            match complete_response env with
            | Ok _ =>
                ((tr ++ [CompleteRequest (py_str id) result])%list,
                 set_errors 0 st, Next tt)
            | Raise e =>
                ((tr ++ [CompleteRequest (py_str id) result])%list,
                 set_errors 0 st, Throw e)
            end
        end
    end
  else ([Sleep POLL_INTERVAL], set_errors 0 st, Next tt).
Proof.
  unfold handle_job, incoming_job.
  unfold bbind at 1. cbn [py_get of_result].
  destruct (truthy match dict_get "job" d with Some x => x | None => JNull end);
    [|reflexivity].
  unfold bbind at 1. cbn [assign].
  unfold bbind at 1. unfold of_eff at 1.
  destruct (process_job _ _ _) as [tr [result|e]]; [|reflexivity].
  unfold bbind at 1.
  destruct (py_lookup _ "id") as [id|e]; cbn [of_result];
    [|rewrite app_nil_r; reflexivity].
  unfold bbind at 1. unfold of_eff at 1, call at 1.
  destruct (complete_response env) as [r|e]; cbn; rewrite ?app_nil_r; reflexivity.
Qed.

(** *** What the blocks put in the trace *)

Lemma run_sdxl_trace (backend : result Response) (params : json) :
  fst (run_sdxl backend params) = [] \/
  exists body, fst (run_sdxl backend params) = [Txt2ImgRequest body].
Proof.
  unfold run_sdxl.
  destruct (txt2img_body_cases params) as [(p & body & -> & Hbody) | (e & Hbody & He)];
    rewrite Hbody; cbn [lift ebind call except_Exception].
  - right. exists body.
    destruct backend as [resp|e]; cbn [lift ebind call except_Exception app].
    + destruct (read_response resp) as [res|e]; cbn; [reflexivity|].
      destruct (is_Exception e); reflexivity.
    + destruct (is_Exception e); reflexivity.
  - left. rewrite He. reflexivity.
Qed.

Lemma finish_job_trace (elapsed : Q) (res : json) :
  fst (finish_job elapsed res) = [] \/
  exists line, fst (finish_job elapsed res) = [Log line].
Proof.
  unfold finish_job.
  destruct (py_contains "error" res) as [[|]|e]; cbn [lift ebind].
  - destruct (py_lookup res "error") as [err|e]; cbn; [right; eexists|left]; reflexivity.
  - right. destruct (py_setitem res "inference_time" (JFloat elapsed)) as [r|e];
      cbn; eexists; reflexivity.
  - left. reflexivity.
Qed.

Lemma process_job_trace (backend : result Response) (elapsed : Q) (job : json) :
  forallb dispatch_event (fst (process_job backend elapsed job)) = true.
Proof.
  unfold process_job.
  destruct (py_get job "service" (JStr "sdxl")) as [service|e]; [|reflexivity].
  cbn [lift ebind].
  destruct (py_get job "params" (JDict [])) as [params|e]; [|reflexivity].
  cbn [lift ebind].
  destruct (py_lookup job "id") as [id|e]; [|reflexivity].
  cbn [lift ebind].
  destruct (py_slice8 id) as [id8|e]; [|reflexivity].
  cbn [lift ebind emit app].
  destruct (is_str "sdxl" service); cbn [negb]; [|reflexivity].
  destruct (run_sdxl_trace backend params) as [Hsd | [body Hsd]];
    destruct (run_sdxl backend params) as [tr0 [res|e]]; cbn in Hsd; subst tr0;
    cbn [ebind]; try reflexivity.
  all: destruct (finish_job_trace elapsed res) as [Hfin | [line Hfin]];
    destruct (finish_job elapsed res) as [tr1 r]; cbn in Hfin; subst tr1;
    reflexivity.
Qed.

Lemma dispatch_events_quiet (tr : list event) :
  forallb dispatch_event tr = true ->
  saved tr = [] /\ completions tr = [] /\ polls tr = O /\ sleeps tr = [].
Proof.
  induction tr as [|ev tr IH]; [repeat split|].
  cbn [forallb]. intros H. apply andb_true_iff in H as [Hev Htr].
  destruct ev; try discriminate Hev; cbn; now apply IH.
Qed.

Lemma sync_events_quiet (tr : list event) :
  forallb sync_event tr = true ->
  completions tr = [] /\ polls tr = O /\ sleeps tr = [].
Proof.
  induction tr as [|ev tr IH]; [repeat split|].
  cbn [forallb]. intros H. apply andb_true_iff in H as [Hev Htr].
  destruct ev; try discriminate Hev; cbn; now apply IH.
Qed.

Lemma sync_settings_trace (env : IterEnv) (data : json) (st : Locals) :
  forallb sync_event (fst (fst (sync_settings env data st))) = true.
Proof.
  unfold sync_settings, bbind, of_result, read, assign, log, of_eff, call, emit.
  destruct (py_get data "config_sync" JNull) as [c|e]; [|reflexivity].
  destruct (truthy c); [|reflexivity].
  destruct (py_lookup data "config_sync") as [c'|e]; [|reflexivity].
  destruct (py_get c' "settings_version" (JInt 0)) as [v|e]; [|reflexivity].
  destruct (py_gt v (settings_version st)) as [[|]|e]; try reflexivity.
  destruct (py_get c' "settings" JNull) as [s|e]; [|reflexivity].
  destruct (truthy s); [|reflexivity].
  destruct (save_outcome env) as [[]|e]; reflexivity.
Qed.

Lemma sleeps_app (tr tr' : list event) : sleeps (tr ++ tr') = (sleeps tr ++ sleeps tr')%list.
Proof.
  induction tr as [|ev tr IH]; [reflexivity|].
  destruct ev; cbn; rewrite ?IH; reflexivity.
Qed.

Lemma saved_app (tr tr' : list event) : saved (tr ++ tr') = (saved tr ++ saved tr')%list.
Proof.
  induction tr as [|ev tr IH]; [reflexivity|].
  destruct ev; cbn; rewrite ?IH; reflexivity.
Qed.

Lemma completions_app (tr tr' : list event) :
  completions (tr ++ tr') = (completions tr ++ completions tr')%list.
Proof.
  induction tr as [|ev tr IH]; [reflexivity|].
  destruct ev; cbn; rewrite ?IH; reflexivity.
Qed.

Lemma polls_app (tr tr' : list event) : polls (tr ++ tr') = (polls tr + polls tr')%nat.
Proof.
  induction tr as [|ev tr IH]; [reflexivity|].
  destruct ev; cbn; rewrite ?IH; reflexivity.
Qed.

(** *** Failed polls *)

(** C4. Authentication failure is fatal: when the poll answers 401 the loop
    writes its log line and returns at once, with no completion call, no
    sleep and no further poll, whatever iterations would have followed; a
    poll that answers any other status than 200 and 401 leaves the loop
    running. *)
Theorem auth_failure_is_fatal (env : IterEnv) (st : Locals) (resp : Response) :
  schedule_forbids (clock env) (settings st) = Ok false ->
  poll_response env = Ok resp ->
  (status_code resp = 401 ->
   forall rest,
     worker_loop (env :: rest) st =
     ([PollRequest; Log "ERROR: Invalid API key"], st, Stopped)) /\
  (status_code resp <> 401 -> status_code resp <> 200 ->
   iteration env st =
   ([PollRequest; Sleep (backoff (errors st + 1))],
    set_errors (errors st + 1) st, Running)).
Proof.
  intros Hgate Hpoll. split.
  - intros Hcode rest. cbn [worker_loop]. unfold iteration.
    rewrite (try_body_polls env st Hgate), Hpoll, Hcode. reflexivity.
  - intros H401 H200. unfold iteration.
    rewrite (try_body_polls env st Hgate), Hpoll.
    apply Z.eqb_neq in H401, H200. rewrite H401, H200. reflexivity.
Qed.

Lemma iteration_transient_failure (env : IterEnv) (st : Locals) :
  schedule_forbids (clock env) (settings st) = Ok false ->
  transient_poll_failure env = true ->
  exists tr,
    iteration env st = (tr, set_errors (errors st + 1) st, Running) /\
    sleeps tr = [backoff (errors st + 1)] /\ polls tr = 1%nat /\ completions tr = [].
Proof.
  intros Hgate Hfail. unfold transient_poll_failure in Hfail. unfold iteration.
  rewrite (try_body_polls env st Hgate).
  destruct (poll_response env) as [resp|e].
  - apply andb_true_iff in Hfail as [H200 H401].
    apply negb_true_iff in H200, H401. rewrite H401, H200. cbn [negb].
    eexists. split; [reflexivity|]. repeat split.
  - rewrite Hfail. eexists. split; [reflexivity|].
    repeat split.
Qed.

Lemma set_errors_same (st : Locals) (n : Z) : n = errors st -> set_errors n st = st.
Proof. intros ->. destruct st. reflexivity. Qed.

(** A run of transient poll failures: each one adds one to the counter and
    sleeps for the back-off of the new count. *)
Lemma consecutive_failures (envs : list IterEnv) :
  forall st,
    Forall (fun env =>
              schedule_forbids (clock env) (settings st) = Ok false /\
              transient_poll_failure env = true) envs ->
    exists tr,
      worker_loop envs st =
      (tr, set_errors (errors st + Z.of_nat (List.length envs)) st, Running) /\
      sleeps tr = map (fun k => backoff (errors st + Z.of_nat k)) (seq 1 (List.length envs)).
Proof.
  induction envs as [|env rest IH]; intros st Hall.
  - exists []. split; [|reflexivity].
    cbn. rewrite set_errors_same; [reflexivity | lia].
  - inversion Hall as [|? ? [Hgate Hfail] Hrest]; subst.
    destruct (iteration_transient_failure env st Hgate Hfail) as (tr & Hit & Hsl & _).
    destruct (IH (set_errors (errors st + 1) st) Hrest) as (tr' & Hloop & Hsl').
    exists (tr ++ tr')%list. split.
    + cbn [worker_loop]. rewrite Hit, Hloop. cbn [List.length].
      replace (set_errors (errors (set_errors (errors st + 1) st)
                           + Z.of_nat (List.length rest))
                          (set_errors (errors st + 1) st))
        with (set_errors (errors st + Z.of_nat (S (List.length rest))) st);
        [reflexivity|].
      unfold set_errors. cbn [settings settings_version errors].
      f_equal. lia.
    + rewrite sleeps_app, Hsl, Hsl'. cbn [List.length seq map app errors set_errors].
      f_equal. rewrite <- (seq_shift (List.length rest) 1), map_map.
      apply map_ext. intros k. f_equal. lia.
Qed.

Lemma last_back_off (f : nat -> Z) (n : nat) :
  last (map f (seq 1 (S n))) 0 = f (S n).
Proof.
  rewrite seq_S, map_app. cbn [map]. apply last_last.
Qed.

(** An iteration whose [try] body runs to its end has set the counter to 0. *)
Lemma completed_iteration_resets (env : IterEnv) (st st' : Locals) (tr : list event) :
  try_body env st = (tr, st', Next tt) ->
  errors st' = 0.
Proof.
  intros Hbody.
  destruct (schedule_forbids (clock env) (settings st)) as [[|]|e] eqn:Hgate.
  - rewrite (try_body_gate_closed env st Hgate) in Hbody. discriminate Hbody.
  - rewrite (try_body_polls env st Hgate) in Hbody.
    destruct (poll_response env) as [resp|e]; [|discriminate Hbody].
    destruct (status_code resp =? 401); [discriminate Hbody|].
    destruct (status_code resp =? 200); [|discriminate Hbody].
    cbn [negb] in Hbody.
    destruct (json_body resp) as [data|e]; [|discriminate Hbody].
    unfold bbind in Hbody.
    destruct (sync_settings env data st) as [[tr1 st1] [[]|e| |]];
      try discriminate Hbody.
    destruct data as [ | | | | | |d]; try discriminate Hbody.
    rewrite handle_job_cases in Hbody.
    destruct (truthy (incoming_job d)).
    + destruct (process_job _ _ _) as [trj [result|e]]; [|discriminate Hbody].
      destruct (py_lookup _ "id") as [id|e]; [|discriminate Hbody].
      destruct (complete_response env) as [r|e]; [|discriminate Hbody].
      injection Hbody as _ <-. reflexivity.
    + injection Hbody as _ <-. reflexivity.
  - rewrite (try_body_gate_raises env st e Hgate) in Hbody. discriminate Hbody.
Qed.

(** C3, as the loop has it. After [N >= 1] consecutive transient poll
    failures that start from a counter of 0 the loop sleeps
    [min(POLL_INTERVAL * N, 60)] seconds; an iteration whose [try] body runs
    to its end, which takes a successful poll, leaves the counter at 0; an
    exception raised anywhere in the [try] body, also after a successful
    poll, adds one to the counter and is slept off like a failed poll; and an
    iteration the schedule gate skips makes no request and leaves the counter
    as it was. *)
Theorem backoff_policy :
  (forall envs st,
      errors st = 0 ->
      envs <> [] ->
      Forall (fun env =>
                schedule_forbids (clock env) (settings st) = Ok false /\
                transient_poll_failure env = true) envs ->
      exists tr st',
        worker_loop envs st = (tr, st', Running) /\
        errors st' = Z.of_nat (List.length envs) /\
        last (sleeps tr) 0 = Z.min (POLL_INTERVAL * Z.of_nat (List.length envs)) 60) /\
  (forall env st tr st',
      try_body env st = (tr, st', Next tt) ->
      iteration env st = (tr, st', Running) /\ errors st' = 0) /\
  (forall env st tr st' e,
      try_body env st = (tr, st', Throw e) ->
      is_Exception e = true ->
      iteration env st =
      ((tr ++ [Log ("Error: " ++ exn_msg e); Sleep (backoff (errors st' + 1))])%list,
       set_errors (errors st' + 1) st', Running)) /\
  (forall env st,
      schedule_forbids (clock env) (settings st) = Ok true ->
      iteration env st = ([Sleep POLL_INTERVAL], st, Running)).
Proof.
  split; [|split; [|split]].
  - intros envs st Hzero Hne Hall.
    destruct (consecutive_failures envs st Hall) as (tr & Hloop & Hsl).
    exists tr. eexists. split; [exact Hloop|]. split.
    + cbn [errors set_errors]. lia.
    + rewrite Hsl, Hzero. destruct envs as [|env rest]; [contradiction|].
      cbn [List.length]. rewrite last_back_off. unfold backoff. f_equal.
  - intros env st tr st' Hbody. split.
    + unfold iteration. rewrite Hbody. reflexivity.
    + exact (completed_iteration_resets env st st' tr Hbody).
  - intros env st tr st' e Hbody He. unfold iteration.
    rewrite Hbody, He. reflexivity.
  - intros env st Hgate. unfold iteration.
    rewrite (try_body_gate_closed env st Hgate). reflexivity.
Qed.

(** *** Successful polls *)

(** A poll answered with 200 and a JSON object runs the settings sync and
    then the job block. *)
Lemma try_body_answered (env : IterEnv) (st : Locals) (resp : Response)
      (d : list (string * json)) :
  schedule_forbids (clock env) (settings st) = Ok false ->
  poll_response env = Ok resp ->
  status_code resp = 200 ->
  json_body resp = Ok (JDict d) ->
  try_body env st =
  match sync_settings env (JDict d) st with
  | (tr, st', Next _) =>
      match handle_job env (JDict d) st' with
      | (tr', st'', f) => (PollRequest :: tr ++ tr', st'', f)
      end
  | (tr, st', Throw e) => (PollRequest :: tr, st', Throw e)
  | (tr, st', Continue) => (PollRequest :: tr, st', Continue)
  | (tr, st', Return) => (PollRequest :: tr, st', Return)
  end%list.
Proof.
  intros Hgate Hpoll Hcode Hbody.
  rewrite (try_body_polls env st Hgate), Hpoll, Hcode, Hbody. cbn [Z.eqb negb].
  unfold bbind.
  destruct (sync_settings env (JDict d) st) as [[tr st'] [[]|e| |]]; try reflexivity.
  destruct (handle_job env (JDict d) st') as [[tr' st''] f]. reflexivity.
Qed.

(** C2, as the loop has it. In an iteration that received and processed a
    job the completion call is made once and never repeated. Whatever HTTP
    response it gets, the counter stays 0 and the loop goes on to the next
    poll without sleeping. When the call raises an exception the loop goes on
    as well, but through its general handler: the counter becomes 1 and the
    loop sleeps [min(POLL_INTERVAL * 1, 60)] seconds first. *)
Theorem completion_failure_handling
        (env : IterEnv) (st st_s : Locals) (resp : Response)
        (d : list (string * json)) (tr_s tr_j : list event) (result id : json) :
  schedule_forbids (clock env) (settings st) = Ok false ->
  poll_response env = Ok resp ->
  status_code resp = 200 ->
  json_body resp = Ok (JDict d) ->
  sync_settings env (JDict d) st = (tr_s, st_s, Next tt) ->
  truthy (incoming_job d) = true ->
  process_job (backend_response env) (elapsed_time env) (incoming_job d) =
    (tr_j, Ok result) ->
  py_lookup (incoming_job d) "id" = Ok id ->
  (forall r,
      complete_response env = Ok r ->
      iteration env st =
      ((PollRequest :: tr_s ++ tr_j ++ [CompleteRequest (py_str id) result])%list,
       set_errors 0 st_s, Running)) /\
  (forall e,
      complete_response env = Raise e -> is_Exception e = true ->
      iteration env st =
      ((PollRequest :: tr_s ++ tr_j ++
          [CompleteRequest (py_str id) result;
           Log ("Error: " ++ exn_msg e); Sleep (backoff 1)])%list,
       set_errors 1 st_s, Running)) /\
  (forall tr st' s,
      iteration env st = (tr, st', s) ->
      completions tr = [(py_str id, result)]).
Proof.
  intros Hgate Hpoll Hcode Hbody Hsync Hjob Hrun Hid.
  assert (Htry : try_body env st =
                 match complete_response env with
                 | Ok _ =>
                     ((PollRequest :: tr_s ++ tr_j ++
                         [CompleteRequest (py_str id) result])%list,
                      set_errors 0 st_s, Next tt)
                 | Raise e =>
                     ((PollRequest :: tr_s ++ tr_j ++
                         [CompleteRequest (py_str id) result])%list,
                      set_errors 0 st_s, Throw e)
                 end).
  { rewrite (try_body_answered env st resp d Hgate Hpoll Hcode Hbody), Hsync.
    rewrite handle_job_cases, Hjob, Hrun, Hid.
    destruct (complete_response env); reflexivity. }
  assert (Hquiet_s : completions tr_s = []).
  { pose proof (sync_settings_trace env (JDict d) st) as H.
    rewrite Hsync in H. now apply sync_events_quiet in H. }
  assert (Hquiet_j : completions tr_j = []).
  { pose proof (process_job_trace (backend_response env) (elapsed_time env)
                  (incoming_job d)) as H.
    rewrite Hrun in H. now apply dispatch_events_quiet in H. }
  split; [|split].
  - intros r Hr. unfold iteration. rewrite Htry, Hr. reflexivity.
  - intros e He Hexc. unfold iteration. rewrite Htry, He, Hexc.
    cbn [errors set_errors settings settings_version Z.add app].
    rewrite <- !app_assoc. reflexivity.
  - intros tr st' s Hit. unfold iteration in Hit. rewrite Htry in Hit.
    destruct (complete_response env) as [r|e].
    + injection Hit as <- _ _. cbn [completions].
      rewrite !completions_app, Hquiet_s, Hquiet_j. reflexivity.
    + destruct (is_Exception e); injection Hit as <- _ _; cbn [completions];
        rewrite !completions_app, Hquiet_s, Hquiet_j; reflexivity.
Qed.

(** *** Settings sync *)

Lemma handle_job_keeps_settings (env : IterEnv) (d : list (string * json))
      (st st' : Locals) (tr : list event) (f : flow unit) :
  handle_job env (JDict d) st = (tr, st', f) ->
  settings st' = settings st /\
  settings_version st' = settings_version st /\
  saved tr = [].
Proof.
  rewrite handle_job_cases. intros H.
  destruct (truthy (incoming_job d)).
  - pose proof (process_job_trace (backend_response env) (elapsed_time env)
                  (incoming_job d)) as Hq.
    destruct (process_job _ _ _) as [trj [result|e]]; cbn [fst] in Hq;
      apply dispatch_events_quiet in Hq as (Hsaved & _).
    + destruct (py_lookup _ "id") as [id|e].
      * destruct (complete_response env) as [r|e]; injection H as <- <- _;
          rewrite saved_app, Hsaved; repeat split.
      * injection H as <- <- _. repeat split. exact Hsaved.
    + injection H as <- <- _. repeat split. exact Hsaved.
  - injection H as <- <- _. repeat split.
Qed.

(** What the two handlers of the loop add to a [try] body: log lines and a
    sleep, and one more counted error; the settings stay as the body left
    them. *)
Lemma iteration_keeps_settings (env : IterEnv) (st st1 st' : Locals)
      (tr1 tr : list event) (f : flow unit) (s : status) :
  try_body env st = (tr1, st1, f) ->
  iteration env st = (tr, st', s) ->
  settings st' = settings st1 /\
  settings_version st' = settings_version st1 /\
  saved tr = saved tr1.
Proof.
  intros Hbody Hit. unfold iteration in Hit. rewrite Hbody in Hit.
  destruct f as [[]|e| |]; try (injection Hit as <- <- _; repeat split).
  destruct (is_Exception e); injection Hit as <- <- _;
    rewrite saved_app; cbn; rewrite app_nil_r; repeat split.
Qed.

(** C1, as the loop has it. On a successful poll that carries a
    [config_sync] payload: an incoming version not above the held one changes
    neither the settings nor the held version and persists nothing; a
    strictly greater version whose settings document is non-empty and is
    saved without error replaces the settings, persists them once with
    [save_settings] and becomes the held version, the one later checks
    compare with; a strictly greater version with an empty or missing
    settings document persists nothing and leaves the held version. *)
Theorem settings_sync_by_version
        (env : IterEnv) (st st' : Locals) (resp : Response)
        (d cs : list (string * json)) (held incoming : Z)
        (tr : list event) (s : status) :
  schedule_forbids (clock env) (settings st) = Ok false ->
  poll_response env = Ok resp ->
  status_code resp = 200 ->
  json_body resp = Ok (JDict d) ->
  dict_get "config_sync" d = Some (JDict cs) ->
  cs <> [] ->
  incoming_version cs = JInt incoming ->
  settings_version st = JInt held ->
  iteration env st = (tr, st', s) ->
  (incoming <= held ->
   settings st' = settings st /\ settings_version st' = JInt held /\ saved tr = []) /\
  (held < incoming ->
   truthy (incoming_settings cs) = true ->
   save_outcome env = Ok tt ->
   settings st' = incoming_settings cs /\
   settings_version st' = JInt incoming /\
   saved tr = [incoming_settings cs]) /\
  (held < incoming ->
   truthy (incoming_settings cs) = false ->
   settings_version st' = JInt held /\ saved tr = []).
Proof.
  intros Hgate Hpoll Hcode Hbody Hcs Hne Hin Hheld Hit.
  pose proof (try_body_answered env st resp d Hgate Hpoll Hcode Hbody) as Htry.
  assert (Hgt : py_gt (incoming_version cs) (settings_version st) =
                Ok (held <? incoming)).
  { rewrite Hin, Hheld. reflexivity. }
  rewrite (sync_settings_payload env d cs st _ Hcs Hne Hgt) in Htry.
  split; [|split].
  - intros Hle. apply Z.ltb_ge in Hle. rewrite Hle in Htry.
    destruct (handle_job env (JDict d) st) as [[tr' st''] f] eqn:Hjob.
    destruct (handle_job_keeps_settings env d st st'' tr' f Hjob) as (H1 & H2 & H3).
    destruct (iteration_keeps_settings env st st'' st' _ tr f s Htry Hit)
      as (H4 & H5 & H6).
    rewrite H4, H5, H6, H1, H2, Hheld. cbn [saved app]. rewrite H3.
    repeat split.
  - intros Hlt Htruthy Hsave. apply Z.ltb_lt in Hlt.
    rewrite Hlt, Htruthy, Hsave in Htry.
    match type of Htry with
    | context [handle_job env (JDict d) ?st1] =>
        destruct (handle_job env (JDict d) st1) as [[tr' st''] f] eqn:Hjob;
        destruct (handle_job_keeps_settings env d st1 st'' tr' f Hjob) as (H1 & H2 & H3)
    end.
    destruct (iteration_keeps_settings env st st'' st' _ tr f s Htry Hit)
      as (H4 & H5 & H6).
    rewrite H4, H5, H6, H1, H2. cbn [saved app settings settings_version].
    rewrite H3, Hin. repeat split.
  - intros Hlt Hfalsy. apply Z.ltb_lt in Hlt.
    rewrite Hlt, Hfalsy in Htry.
    match type of Htry with
    | context [handle_job env (JDict d) ?st1] =>
        destruct (handle_job env (JDict d) st1) as [[tr' st''] f] eqn:Hjob;
        destruct (handle_job_keeps_settings env d st1 st'' tr' f Hjob) as (H1 & H2 & H3)
    end.
    destruct (iteration_keeps_settings env st st'' st' _ tr f s Htry Hit)
      as (H4 & H5 & H6).
    rewrite H5, H6, H2. cbn [saved app settings_version set_settings].
    rewrite H3, Hheld. repeat split.
Qed.

End LoopFacts.

(** ** The loop on concrete runs *)

#[local] Existing Instance example_floats.

Lemma auth_failure_is_fatal_witness :
  (forall rest,
      worker_loop (iteration_with (http 401 JNull) (http 200 JNull) :: rest) no_settings =
      ([PollRequest; Log "ERROR: Invalid API key"], no_settings, Stopped)) /\
  iteration (iteration_with (http 503 JNull) (http 200 JNull)) no_settings =
  ([PollRequest; Sleep 5], set_errors 1 no_settings, Running).
Proof.
  split.
  - apply (auth_failure_is_fatal (iteration_with (http 401 JNull) (http 200 JNull))
             no_settings {| status_code := 401; json_body := Ok JNull |}
             eq_refl eq_refl); reflexivity.
  - apply (auth_failure_is_fatal (iteration_with (http 503 JNull) (http 200 JNull))
             no_settings {| status_code := 503; json_body := Ok JNull |}
             eq_refl eq_refl); discriminate.
Defined.

Lemma backoff_policy_witness :
  exists tr st',
    worker_loop [iteration_with (http 503 JNull) (http 200 JNull);
                 iteration_with (Raise connection_error) (http 200 JNull);
                 iteration_with (http 500 JNull) (http 200 JNull)] no_settings =
    (tr, st', Running) /\
    errors st' = 3 /\ last (sleeps tr) 0 = 15.
Proof.
  destruct backoff_policy as (Hrun & _ & _ & _).
  apply (Hrun [iteration_with (http 503 JNull) (http 200 JNull);
               iteration_with (Raise connection_error) (http 200 JNull);
               iteration_with (http 500 JNull) (http 200 JNull)] no_settings).
  - reflexivity.
  - discriminate.
  - repeat constructor.
Defined.

(** Thirteen failures in a row reach the cap of 60 seconds. *)
Example backoff_is_capped :
  map backoff [1; 2; 11; 12; 13] = [5; 10; 55; 60; 60].
Proof. reflexivity. Qed.

Lemma completion_failure_handling_witness :
  iteration (iteration_with poll_with_job (http 500 JNull)) (holding_v1 0) =
  ([PollRequest;
    Log "Processing sdxl job 01234567...";
    Txt2ImgRequest
      (JDict [("prompt", JStr "a cat"); ("negative_prompt", JStr "");
              ("width", JInt 1024); ("height", JInt 1024); ("steps", JInt 20);
              ("cfg_scale", JFloat 7%Q); ("seed", JInt (-1));
              ("sample_method", JStr "euler_a")]);
    Log "Job completed in 1.5s";
    CompleteRequest "0123456789abcdef"
      (JDict [("result",
               JDict [("image", JStr "abc"); ("seed", JInt 42);
                      ("inference_time", JFloat (3 # 2)%Q)])])],
   holding_v1 0, Running).
Proof.
  destruct (completion_failure_handling
              (iteration_with poll_with_job (http 500 JNull)) (holding_v1 0)
              (holding_v1 0)
              {| status_code := 200; json_body := Ok (JDict [("job", tagged_job)]) |}
              [("job", tagged_job)] []
              (fst (process_job (http 200 images_body) (3 # 2)%Q tagged_job))
              (JDict [("result",
                       JDict [("image", JStr "abc"); ("seed", JInt 42);
                              ("inference_time", JFloat (3 # 2)%Q)])])
              (JStr "0123456789abcdef")
              eq_refl eq_refl eq_refl eq_refl eq_refl eq_refl eq_refl eq_refl)
    as (Hanswered & _ & _).
  exact (Hanswered {| status_code := 500; json_body := Ok JNull |} eq_refl).
Defined.

Lemma settings_sync_by_version_witness :
  exists tr st' s,
    iteration (iteration_with (poll_with_sync 2 settings_v2) (http 200 JNull))
              (holding_v1 0) = (tr, st', s) /\
    settings st' = settings_v2 /\
    settings_version st' = JInt 2 /\
    saved tr = [settings_v2].
Proof.
  destruct (iteration (iteration_with (poll_with_sync 2 settings_v2) (http 200 JNull))
                      (holding_v1 0)) as [[tr st'] s] eqn:Hit.
  exists tr, st', s. split; [reflexivity|].
  destruct (settings_sync_by_version
              (iteration_with (poll_with_sync 2 settings_v2) (http 200 JNull))
              (holding_v1 0) st'
              {| status_code := 200;
                 json_body := Ok (JDict [("config_sync",
                                          JDict (sync_payload 2 settings_v2))]) |}
              [("config_sync", JDict (sync_payload 2 settings_v2))]
              (sync_payload 2 settings_v2) 1 2 tr s
              eq_refl eq_refl eq_refl eq_refl eq_refl
              ltac:(discriminate) eq_refl eq_refl Hit)
    as (_ & Hnewer & _).
  apply Hnewer; [lia | reflexivity | reflexivity].
Defined.

(** The versions of the specification's example: equal and lower versions are
    not adopted. *)
Example same_version_ignored :
  iteration (iteration_with (poll_with_sync 1 settings_v2) (http 200 JNull))
            (holding_v1 0) = ([PollRequest; Sleep 5], holding_v1 0, Running).
Proof. reflexivity. Qed.

Example lower_version_ignored :
  iteration (iteration_with (poll_with_sync 0 settings_v2) (http 200 JNull))
            (holding_v1 0) = ([PollRequest; Sleep 5], holding_v1 0, Running).
Proof. reflexivity. Qed.

(** Once version 2 is held, a second payload of version 2 is not adopted. *)
Example adopted_version_is_compared_next :
  worker_loop [iteration_with (poll_with_sync 2 settings_v2) (http 200 JNull);
               iteration_with (poll_with_sync 2 settings_v1) (http 200 JNull)]
              (holding_v1 0) =
  ([PollRequest; SaveSettings settings_v2; Log "Settings synced (v2)"; Sleep 5;
    PollRequest; Sleep 5],
   {| settings := settings_v2; settings_version := JInt 2; errors := 0 |},
   Running).
Proof. reflexivity. Qed.

(** A strictly newer version that comes with an empty settings document:
    the loop drops the settings it held, writes nothing to the settings file
    and keeps comparing with version 1. And a strictly newer version whose
    settings cannot be written: the held version stays 1 as well. *)
Lemma settings_sync_counterexample :
  incoming_version (sync_payload 2 (JDict [])) = JInt 2 /\
  settings_version (holding_v1 0) = JInt 1 /\
  iteration (iteration_with (poll_with_sync 2 (JDict [])) (http 200 JNull))
            (holding_v1 0) =
  ([PollRequest; Sleep 5],
   {| settings := JDict []; settings_version := JInt 1; errors := 0 |},
   Running) /\
  ~ (settings_version
       (snd (fst (iteration
                    (iteration_with (poll_with_sync 2 (JDict [])) (http 200 JNull))
                    (holding_v1 0)))) = JInt 2) /\
  iteration (iteration_read_only (poll_with_sync 2 settings_v2)) (holding_v1 0) =
  ([PollRequest; SaveSettings settings_v2;
    Log "Error: [Errno 30] Read-only file system"; Sleep 5],
   {| settings := settings_v2; settings_version := JInt 1; errors := 1 |},
   Running).
Proof.
  split; [reflexivity|]. split; [reflexivity|]. split; [reflexivity|].
  split; [|reflexivity].
  intros H. vm_compute in H. discriminate H.
Qed.

(** A completion call that fails with a connection error: the loop counts
    it as an error and backs off for five seconds before the next poll. *)
Lemma completion_failure_counterexample :
  sleeps (fst (fst (iteration (iteration_with poll_with_job (Raise connection_error))
                              (holding_v1 0)))) = [5] /\
  errors (snd (fst (iteration (iteration_with poll_with_job (Raise connection_error))
                              (holding_v1 0)))) = 1 /\
  ~ (errors (snd (fst (iteration
                         (iteration_with poll_with_job (Raise connection_error))
                         (holding_v1 0)))) = 0).
Proof.
  split; [reflexivity|]. split; [reflexivity|].
  intros H. vm_compute in H. discriminate H.
Qed.

(** Two successful polls that do not leave the counter at 0. In the first the
    new settings cannot be saved: the counter goes from 3 to 4 and the loop
    sleeps 20 seconds. In the second the completion call fails, so that the
    single failed poll that follows is slept off with 10 seconds, not 5. *)
Lemma backoff_policy_counterexample :
  transient_poll_failure (iteration_read_only (poll_with_sync 2 settings_v2)) = false /\
  iteration (iteration_read_only (poll_with_sync 2 settings_v2)) (holding_v1 3) =
  ([PollRequest; SaveSettings settings_v2;
    Log "Error: [Errno 30] Read-only file system"; Sleep 20],
   {| settings := settings_v2; settings_version := JInt 1; errors := 4 |},
   Running) /\
  sleeps (fst (fst (worker_loop
                      [iteration_with poll_with_job (Raise connection_error);
                       iteration_with (http 500 JNull) (http 200 JNull)]
                      (holding_v1 0)))) = [5; 10] /\
  ~ (last (sleeps (fst (fst (worker_loop
                      [iteration_with poll_with_job (Raise connection_error);
                       iteration_with (http 500 JNull) (http 200 JNull)]
                      (holding_v1 0))))) 0 = Z.min (POLL_INTERVAL * 1) 60).
Proof.
  split; [reflexivity|]. split; [reflexivity|]. split; [reflexivity|].
  intros H. vm_compute in H. discriminate H.
Qed.

(** An exception of the schedule gate is handled like a failed poll, but
    before any request is made. *)
Lemma gate_exception_skips_poll {PF : PyFloat} (env : IterEnv) (st : Locals) (e : exn) :
  schedule_forbids (clock env) (settings st) = Raise e ->
  is_Exception e = true ->
  iteration env st =
  ([Log ("Error: " ++ exn_msg e); Sleep (backoff (errors st + 1))],
   set_errors (errors st + 1) st, Running).
Proof.
  intros Hgate He. unfold iteration.
  rewrite (try_body_gate_raises env st e Hgate), He. reflexivity.
Qed.

(** A time zone of [null] is not a string: [ZoneInfo] raises [TypeError],
    which escapes in the same way, and so does the empty key. *)
Example null_timezone_raises :
  is_within_schedule (clock_at "Mon" "12:00")
                     (JDict [("enabled", JBool true); ("timezone", JNull)]) =
  Raise (Exn TypeError "expected str, bytes or os.PathLike object, not NoneType").
Proof. reflexivity. Qed.

Example empty_timezone_raises :
  is_within_schedule (clock_at "Mon" "12:00")
                     (JDict [("enabled", JBool true); ("timezone", JStr "")]) =
  Raise (Exn ValueError "ZoneInfo keys must be normalized relative paths, got: ").
Proof. reflexivity. Qed.

(** An unknown zone name, in contrast, leaves the gate open. *)
Example unknown_timezone_permits :
  is_within_schedule (clock_at "Mon" "20:00")
                     (JDict [("enabled", JBool true); ("timezone", JStr "Mars/Phobos");
                             ("rules", JList [office_rule])]) = Ok true.
Proof. reflexivity. Qed.

(** C6. Time-zone fail-open, at the input where the code departs from it:
    for an enabled schedule whose time zone is the absolute path
    "/etc/localtime", [ZoneInfo] raises [ValueError], which the handler of
    [is_within_schedule] does not name; the exception reaches the loop, which
    from then on backs off without ever polling. *)
Theorem path_timezone_escapes_gate :
  is_within_schedule (clock_at "Mon" "12:00") path_zone_schedule =
  Raise (Exn ValueError
           "ZoneInfo keys may not be absolute paths, got: /etc/localtime") /\
  worker_loop [iteration_with poll_with_job (http 200 JNull);
               iteration_with poll_with_job (http 200 JNull);
               iteration_with (poll_with_sync 4 settings_v2) (http 200 JNull)]
              holding_path_zone =
  ([Log "Error: ZoneInfo keys may not be absolute paths, got: /etc/localtime";
    Sleep 5;
    Log "Error: ZoneInfo keys may not be absolute paths, got: /etc/localtime";
    Sleep 10;
    Log "Error: ZoneInfo keys may not be absolute paths, got: /etc/localtime";
    Sleep 15],
   set_errors 3 holding_path_zone, Running).
Proof.
  split; reflexivity.
Qed.

(** * Further properties of the loop *)

Section LoopInvariants.
Context {PF : PyFloat}.

Lemma inferences_app (tr tr' : list event) :
  inferences (tr ++ tr') = (inferences tr + inferences tr')%nat.
Proof.
  induction tr as [|ev tr IH]; [reflexivity|].
  destruct ev; cbn; rewrite ?IH; reflexivity.
Qed.

(** The [try] body, by what the schedule gate says. *)
Lemma try_body_cases (env : IterEnv) (st : Locals) :
  try_body env st =
  match schedule_forbids (clock env) (settings st) with
  | Raise e => ([], st, Throw e)
  | Ok true => ([Sleep POLL_INTERVAL], st, Continue)
  | Ok false =>
      match poll_response env with
      | Raise e => ([PollRequest], st, Throw e)
      | Ok resp =>
          if status_code resp =? 401 then
            ([PollRequest; Log "ERROR: Invalid API key"], st, Return)
          else if negb (status_code resp =? 200) then
            ([PollRequest; Sleep (backoff (errors st + 1))],
             set_errors (errors st + 1) st, Continue)
          else
            match json_body resp with
            | Raise e => ([PollRequest], st, Throw e)
            | Ok data =>
                match sync_settings env data st with
                | (tr, st', Next _) =>
                    match handle_job env data st' with
                    | (tr', st'', f) => (PollRequest :: tr ++ tr', st'', f)
                    end
                | (tr, st', Throw e) => (PollRequest :: tr, st', Throw e)
                | (tr, st', Continue) => (PollRequest :: tr, st', Continue)
                | (tr, st', Return) => (PollRequest :: tr, st', Return)
                end
            end
      end
  end%list.
Proof.
  destruct (schedule_forbids (clock env) (settings st)) as [[|]|e] eqn:Hgate.
  - now apply try_body_gate_closed.
  - rewrite (try_body_polls env st Hgate).
    destruct (poll_response env) as [resp|e]; [|reflexivity].
    destruct (status_code resp =? 401); [reflexivity|].
    destruct (status_code resp =? 200); [|reflexivity].
    cbn [negb].
    destruct (json_body resp) as [data|e]; [|reflexivity].
    unfold bbind.
    destruct (sync_settings env data st) as [[tr st'] [[]|e| |]]; try reflexivity.
    destruct (handle_job env data st') as [[tr' st''] f]. reflexivity.
  - now apply try_body_gate_raises.
Qed.

(** What the settings sync can do: it touches neither the counter nor the
    network, persists at most one document, and changes the held version
    only to one that compares greater. *)
Lemma sync_settings_summary (env : IterEnv) (data : json) (st st' : Locals)
      (tr : list event) (f : flow unit) :
  sync_settings env data st = (tr, st', f) ->
  errors st' = errors st /\
  sleeps tr = [] /\ polls tr = O /\ completions tr = [] /\ inferences tr = O /\
  (List.length (saved tr) <= 1)%nat /\
  (settings_version st' = settings_version st \/
   py_gt (settings_version st') (settings_version st) = Ok true) /\
  falls_or_raises f.
Proof.
  unfold sync_settings, bbind, of_result, read, assign, log, of_eff, call, emit.
  destruct (py_get data "config_sync" JNull) as [c|e];
    [|intros H; injection H as <- <- <-; cbn; intuition lia].
  destruct (truthy c); [|intros H; injection H as <- <- <-; cbn; intuition lia].
  destruct (py_lookup data "config_sync") as [c'|e];
    [|intros H; injection H as <- <- <-; cbn; intuition lia].
  destruct (py_get c' "settings_version" (JInt 0)) as [v|e];
    [|intros H; injection H as <- <- <-; cbn; intuition lia].
  destruct (py_gt v (settings_version st)) as [[|]|e] eqn:Hgt;
    try (intros H; injection H as <- <- <-; cbn; intuition lia).
  destruct (py_get c' "settings" JNull) as [s|e];
    [|intros H; injection H as <- <- <-; cbn; intuition lia].
  destruct (truthy s); [|intros H; injection H as <- <- <-; cbn; intuition lia].
  destruct (save_outcome env) as [[]|e];
    intros H; injection H as <- <- <-; cbn; intuition lia.
Qed.

Lemma process_job_inferences (backend : result Response) (elapsed : Q) (job : json) :
  (inferences (fst (process_job backend elapsed job)) <= 1)%nat.
Proof.
  unfold process_job.
  destruct (py_get job "service" (JStr "sdxl")) as [service|e]; [|cbn; lia].
  cbn [lift ebind].
  destruct (py_get job "params" (JDict [])) as [params|e]; [|cbn; lia].
  cbn [lift ebind].
  destruct (py_lookup job "id") as [id|e]; [|cbn; lia].
  cbn [lift ebind].
  destruct (py_slice8 id) as [id8|e]; [|cbn; lia].
  cbn [lift ebind emit app].
  destruct (is_str "sdxl" service); cbn [negb]; [|cbn; lia].
  destruct (run_sdxl_trace backend params) as [Hsd | [body Hsd]];
    destruct (run_sdxl backend params) as [tr0 [res|e]]; cbn in Hsd; subst tr0;
    cbn [ebind]; try (cbn; lia).
  all: destruct (finish_job_trace elapsed res) as [Hfin | [line Hfin]];
    destruct (finish_job elapsed res) as [tr1 r]; cbn in Hfin; subst tr1;
    cbn; lia.
Qed.

(** What the job block can do: it leaves the settings alone, resets the
    counter or leaves it, sleeps the poll interval or not at all, and sends
    at most one request to the backend and one completion call. *)
Lemma handle_job_summary (env : IterEnv) (data : json) (st st' : Locals)
      (tr : list event) (f : flow unit) :
  handle_job env data st = (tr, st', f) ->
  settings st' = settings st /\
  settings_version st' = settings_version st /\
  (errors st' = 0 \/ errors st' = errors st) /\
  (sleeps tr = [] \/ sleeps tr = [POLL_INTERVAL]) /\
  polls tr = O /\ saved tr = [] /\
  (inferences tr <= 1)%nat /\ (List.length (completions tr) <= 1)%nat /\
  falls_or_raises f.
Proof.
  unfold handle_job, bbind.
  destruct (py_get data "job" JNull) as [job|e]; cbn [of_result];
    [|intros H; injection H as <- <- <-; cbn; intuition lia].
  destruct (truthy job); cbn [assign];
    [|intros H; injection H as <- <- <-; cbn; intuition lia].
  pose proof (process_job_trace (backend_response env) (elapsed_time env) job) as Hq.
  pose proof (process_job_inferences (backend_response env) (elapsed_time env) job) as Hi.
  unfold of_eff at 1.
  destruct (process_job _ _ _) as [trj [result|e]]; cbn [fst] in Hq, Hi;
    apply dispatch_events_quiet in Hq as (Hsaved & Hcompl & Hpolls & Hsleeps).
  - destruct (py_lookup job "id") as [id|e]; cbn [of_result].
    + unfold of_eff, call.
      destruct (complete_response env) as [r|e]; cbn [bret];
        intros H; injection H as <- <- <-;
        rewrite ?app_nil_r, ?sleeps_app, ?polls_app, ?saved_app, ?inferences_app,
          ?completions_app, ?Hsaved, ?Hcompl, ?Hpolls, ?Hsleeps;
        cbn; intuition lia.
    + intros H; injection H as <- <- <-.
      rewrite ?app_nil_r, ?Hsaved, ?Hcompl, ?Hpolls, ?Hsleeps.
      cbn; intuition lia.
  - intros H; injection H as <- <- <-.
    rewrite ?app_nil_r, ?Hsaved, ?Hcompl, ?Hpolls, ?Hsleeps.
    cbn; intuition lia.
Qed.

Lemma try_body_summary (env : IterEnv) (st st' : Locals) (tr : list event)
      (f : flow unit) :
  try_body env st = (tr, st', f) ->
  (polls tr <= 1)%nat /\
  (inferences tr <= polls tr)%nat /\
  (List.length (completions tr) <= polls tr)%nat /\
  (List.length (saved tr) <= polls tr)%nat /\
  (settings_version st' = settings_version st \/
   py_gt (settings_version st') (settings_version st) = Ok true) /\
  (errors st' = 0 \/ errors st' = errors st \/
   (errors st' = errors st + 1 /\ f = Continue)) /\
  Forall (fun n => n = POLL_INTERVAL \/ n = backoff (errors st + 1)) (sleeps tr).
Proof.
  rewrite try_body_cases.
  destruct (schedule_forbids (clock env) (settings st)) as [[|]|e].
  - intros H; injection H as <- <- <-. cbn. intuition (auto; lia).
  - destruct (poll_response env) as [resp|e];
      [|intros H; injection H as <- <- <-; cbn; intuition (auto; lia)].
    destruct (status_code resp =? 401);
      [intros H; injection H as <- <- <-; cbn; intuition (auto; lia)|].
    destruct (status_code resp =? 200); cbn [negb];
      [|intros H; injection H as <- <- <-; cbn; intuition (auto; lia)].
    destruct (json_body resp) as [data|e];
      [|intros H; injection H as <- <- <-; cbn; intuition (auto; lia)].
    destruct (sync_settings env data st) as [[tr1 st1] f1] eqn:Hsync.
    destruct (sync_settings_summary env data st st1 tr1 f1 Hsync)
      as (He1 & Hs1 & Hp1 & Hc1 & Hi1 & Hsv1 & Hv1 & Hf1).
    destruct f1 as [[]|e| |]; try contradiction.
    + destruct (handle_job env data st1) as [[tr2 st2] f2] eqn:Hjob.
      destruct (handle_job_summary env data st1 st2 tr2 f2 Hjob)
        as (_ & Hv2 & He2 & Hs2 & Hp2 & Hsv2 & Hi2 & Hc2 & Hf2).
      intros H; injection H as <- <- <-.
      cbn [polls inferences completions saved sleeps].
      rewrite polls_app, inferences_app, completions_app, saved_app, sleeps_app,
        List.length_app, List.length_app, Hp1, Hp2, Hi1, Hc1, Hsv2, Hs1, Hv2, <- He1.
      cbn [List.length app Nat.add].
      repeat split; try lia; try assumption.
      destruct Hs2 as [-> | ->]; repeat constructor; auto.
    + intros H; injection H as <- <- <-.
      cbn [polls inferences completions saved sleeps].
      rewrite Hp1, Hi1, Hc1, Hs1.
      repeat split; try lia; try assumption; auto.
  - intros H; injection H as <- <- <-. cbn. intuition (auto; lia).
Qed.

Lemma backoff_bounds (n : Z) : 1 <= n -> 5 <= backoff n <= 60.
Proof. unfold backoff, POLL_INTERVAL. lia. Qed.

(** One turn of the loop, in numbers. *)
Lemma iteration_summary (env : IterEnv) (st st' : Locals) (tr : list event)
      (s : status) :
  iteration env st = (tr, st', s) ->
  (polls tr <= 1)%nat /\
  (inferences tr <= polls tr)%nat /\
  (List.length (completions tr) <= polls tr)%nat /\
  (List.length (saved tr) <= polls tr)%nat /\
  (settings_version st' = settings_version st \/
   py_gt (settings_version st') (settings_version st) = Ok true) /\
  (0 <= errors st -> 0 <= errors st' <= errors st + 1) /\
  (0 <= errors st -> Forall (fun n => 5 <= n <= 60) (sleeps tr)).
Proof.
  unfold iteration.
  destruct (try_body env st) as [[tr1 st1] f] eqn:Hbody.
  destruct (try_body_summary env st st1 tr1 f Hbody)
    as (Hp & Hi & Hc & Hsv & Hv & He & Hs).
  assert (Hsl : 0 <= errors st -> Forall (fun n => 5 <= n <= 60) (sleeps tr1)).
  { intros Hpos. eapply Forall_impl; [|exact Hs].
    intros n [-> | ->]; [unfold POLL_INTERVAL; lia | apply backoff_bounds; lia]. }
  assert (Hcount : errors st1 = 0 \/ errors st1 = errors st \/
                   (errors st1 = errors st + 1 /\ f = Continue)) by exact He.
  destruct f as [[]|e| |].
  - intros H; injection H as <- <- <-.
    do 5 (split; [assumption|]). split; [lia | exact Hsl].
  - assert (Hkeep : errors st1 = 0 \/ errors st1 = errors st).
    { destruct He as [He | [He | [_ Hf]]]; [auto | auto | discriminate Hf]. }
    destruct (is_Exception e); intros H; injection H as <- <- <-;
      rewrite polls_app, inferences_app, completions_app, saved_app, sleeps_app,
        List.length_app, List.length_app;
      cbn [polls inferences completions saved sleeps List.length app
           settings_version set_errors errors];
      rewrite ?Nat.add_0_r;
      do 5 (split; [assumption|]).
    + split; [lia|]. intros Hpos. apply Forall_app. split; [auto|].
      constructor; [|constructor]. apply backoff_bounds. lia.
    + split; [lia|]. intros Hpos. rewrite app_nil_r. auto.
  - intros H; injection H as <- <- <-.
    do 5 (split; [assumption|]). split; [lia | exact Hsl].
  - intros H; injection H as <- <- <-.
    do 5 (split; [assumption|]). split; [|exact Hsl].
    destruct He as [He | [He | [_ Hf]]]; [lia | lia | discriminate Hf].
Qed.

(** A property of states that every iteration keeps, together with a
    property of traces that every iteration has and concatenation keeps,
    holds of every run. *)
Lemma worker_loop_invariant (I : Locals -> Prop) (T : list event -> Prop) :
  (forall env st tr st' s,
      I st -> iteration env st = (tr, st', s) -> I st' /\ T tr) ->
  T [] ->
  (forall tr tr', T tr -> T tr' -> T (tr ++ tr')%list) ->
  forall envs st,
    I st ->
    I (state_of (worker_loop envs st)) /\ T (trace_of (worker_loop envs st)).
Proof.
  intros Hstep Hnil Happ. induction envs as [|env rest IH]; intros st Hst.
  - split; [exact Hst | exact Hnil].
  - cbn [worker_loop].
    destruct (iteration env st) as [[tr st'] s] eqn:Hit.
    destruct (Hstep env st tr st' s Hst Hit) as [Hst' Htr].
    destruct s.
    + specialize (IH st' Hst').
      destruct (worker_loop rest st') as [[tr' st''] s']. cbn in *.
      destruct IH as [IH1 IH2]. split; [exact IH1 | now apply Happ].
    + split; assumption.
Qed.

(** Runs compose: a run over [envs1 ++ envs2] is the run over [envs1]
    followed, when that leaves the loop running, by the run over [envs2] from
    the state reached; once the loop has stopped nothing more happens. *)
Lemma worker_loop_app (envs1 envs2 : list IterEnv) (st : Locals) :
  worker_loop (envs1 ++ envs2) st =
  match worker_loop envs1 st with
  | (tr, st', Stopped) => (tr, st', Stopped)
  | (tr, st', Running) =>
      match worker_loop envs2 st' with
      | (tr', st'', s) => ((tr ++ tr')%list, st'', s)
      end
  end.
Proof.
  revert st. induction envs1 as [|env rest IH]; intros st.
  - cbn. destruct (worker_loop envs2 st) as [[tr' st''] s]. reflexivity.
  - cbn [app worker_loop].
    destruct (iteration env st) as [[tr st'] []]; [|reflexivity].
    rewrite IH.
    destruct (worker_loop rest st') as [[tr1 st1] []]; [|reflexivity].
    destruct (worker_loop envs2 st1) as [[tr2 st2] s].
    rewrite app_assoc. reflexivity.
Qed.

(** X1. One exchange at a time: in any run the worker polls at most once
    per iteration, and it sends no more requests to the inference backend,
    no more completion calls and no more settings writes than it made
    polls. *)
Theorem one_exchange_per_poll (envs : list IterEnv) (st : Locals) :
  (polls (trace_of (worker_loop envs st)) <= List.length envs)%nat /\
  (inferences (trace_of (worker_loop envs st)) <=
   polls (trace_of (worker_loop envs st)))%nat /\
  (List.length (completions (trace_of (worker_loop envs st))) <=
   polls (trace_of (worker_loop envs st)))%nat /\
  (List.length (saved (trace_of (worker_loop envs st))) <=
   polls (trace_of (worker_loop envs st)))%nat.
Proof.
  revert st. induction envs as [|env rest IH]; intros st.
  - cbn. lia.
  - cbn [worker_loop].
    destruct (iteration env st) as [[tr st'] s] eqn:Hit.
    destruct (iteration_summary env st st' tr s Hit) as (Hp & Hi & Hc & Hsv & _).
    destruct s.
    + specialize (IH st').
      destruct (worker_loop rest st') as [[tr' st''] s']. unfold trace_of in *.
      cbn [fst List.length] in *.
      rewrite polls_app, inferences_app, completions_app, saved_app,
        !List.length_app.
      lia.
    + unfold trace_of. cbn [fst List.length]. lia.
Qed.

(** X2. Bounded back-off: the counter of a run that starts at a
    non-negative count never becomes negative, and every sleep of the run
    lasts at least 5 and at most 60 seconds. *)
Theorem sleeps_are_bounded (envs : list IterEnv) (st : Locals) :
  0 <= errors st ->
  0 <= errors (state_of (worker_loop envs st)) /\
  Forall (fun n => 5 <= n <= 60) (sleeps (trace_of (worker_loop envs st))).
Proof.
  apply (worker_loop_invariant
           (fun st => 0 <= errors st)
           (fun tr => Forall (fun n => 5 <= n <= 60) (sleeps tr))).
  - intros env st0 tr st' s Hpos Hit.
    destruct (iteration_summary env st0 st' tr s Hit) as (_ & _ & _ & _ & _ & He & Hs).
    split; [apply He; exact Hpos | apply Hs; exact Hpos].
  - constructor.
  - intros tr tr' H1 H2. rewrite sleeps_app. apply Forall_app. split; assumption.
Qed.

Lemma py_gt_numbers (a b : json) (qb : Q) :
  py_gt a b = Ok true ->
  num_val b = Some qb ->
  exists qa, num_val a = Some qa /\ (qb < qa)%Q.
Proof.
  intros Hgt Hb.
  destruct a, b; cbn in Hgt, Hb; try discriminate;
    injection Hb as <-; injection Hgt as Hgt; eexists; (split; [reflexivity|]).
  all: try (apply negb_true_iff in Hgt; apply Qnot_le_lt; intros Hle;
            apply Qle_bool_iff in Hle; congruence).
  apply Z.ltb_lt in Hgt. unfold Qlt. cbn. lia.
Qed.

(** X3. The held version only grows: whatever the server sends, a worker
    that holds a numeric version holds a numeric version that is not smaller
    after any run of the loop. *)
Theorem version_never_decreases (envs : list IterEnv) (st : Locals) (q : Q) :
  num_val (settings_version st) = Some q ->
  exists q',
    num_val (settings_version (state_of (worker_loop envs st))) = Some q' /\
    (q <= q')%Q.
Proof.
  intros Hq.
  apply (worker_loop_invariant
           (fun st => exists q', num_val (settings_version st) = Some q' /\ (q <= q')%Q)
           (fun _ => True)); auto.
  - intros env st0 tr st' s (q0 & Hq0 & Hle) Hit. split; [|exact I].
    destruct (iteration_summary env st0 st' tr s Hit) as (_ & _ & _ & _ & Hv & _).
    destruct Hv as [Hv | Hv].
    + exists q0. rewrite Hv. split; assumption.
    + destruct (py_gt_numbers _ _ q0 Hv Hq0) as (q1 & Hq1 & Hlt).
      exists q1. split; [exact Hq1|].
      apply Qle_trans with q0; [exact Hle | now apply Qlt_le_weak].
  - exists q. split; [exact Hq | apply Qle_refl].
Qed.

End LoopInvariants.

(** * Further properties of job handling *)

Section JobScenarios.
Context {PF : PyFloat}.

(** The parameters [process_job] hands to [run_sdxl]. *)
Lemma process_job_sdxl (backend : result Response) (elapsed : Q)
      (j : list (string * json)) (id : string) :
  dict_get "id" j = Some (JStr id) ->
  dict_get "service" j = None \/ dict_get "service" j = Some (JStr "sdxl") ->
  process_job backend elapsed (JDict j) =
  (_ <- emit (Log ("Processing sdxl job " ++ substring 0 8 id ++ "...")) ;;
   result <- run_sdxl backend
               (match dict_get "params" j with Some v => v | None => JDict [] end) ;;
   finish_job elapsed result)%eff.
Proof.
  intros Hid Hservice. unfold process_job.
  cbn [py_get py_lookup lift ebind]. rewrite Hid.
  cbn [py_slice8 lift ebind emit app py_str].
  destruct Hservice as [-> | ->]; cbn [is_str String.eqb Ascii.eqb Bool.eqb negb py_str];
    (destruct (run_sdxl backend _) as [tr [res|e]]; cbn [ebind];
     [destruct (finish_job elapsed res) as [tr1 r1]|]; reflexivity).
Qed.

Lemma finish_job_error (elapsed : Q) (msg : string) :
  finish_job elapsed (error_result msg) =
  ([Log ("Job failed: " ++ msg)], Ok (error_result msg)).
Proof. reflexivity. Qed.

Lemma finish_job_image (elapsed : Q) (image seed : json) :
  finish_job elapsed (JDict [("image", image); ("seed", seed)]) =
  ([Log ("Job completed in " ++ float_fixed1 elapsed ++ "s")],
   Ok (JDict [("result",
               JDict [("image", image); ("seed", seed);
                      ("inference_time", JFloat elapsed)])])).
Proof. reflexivity. Qed.

(** X8. The backend's outcome reaches the job result unchanged: for a job
    handled as "sdxl", an error of [run_sdxl] becomes the job's error with the
    same text, and an image becomes the job's result with the same image and
    seed, to which only [inference_time] is added. *)
Theorem process_job_passes_outcome_on
        (backend : result Response) (elapsed : Q)
        (j : list (string * json)) (id : string) :
  dict_get "id" j = Some (JStr id) ->
  dict_get "service" j = None \/ dict_get "service" j = Some (JStr "sdxl") ->
  (forall msg,
      snd (run_sdxl backend
             (match dict_get "params" j with Some v => v | None => JDict [] end)) =
      Ok (error_result msg) ->
      snd (process_job backend elapsed (JDict j)) = Ok (error_result msg)) /\
  (forall image seed,
      snd (run_sdxl backend
             (match dict_get "params" j with Some v => v | None => JDict [] end)) =
      Ok (JDict [("image", image); ("seed", seed)]) ->
      snd (process_job backend elapsed (JDict j)) =
      Ok (JDict [("result",
                  JDict [("image", image); ("seed", seed);
                         ("inference_time", JFloat elapsed)])])).
Proof.
  intros Hid Hservice. rewrite (process_job_sdxl backend elapsed j id Hid Hservice).
  cbn [emit ebind].
  destruct (run_sdxl backend _) as [tr [res|e]]; cbn [snd];
    split; intros; try discriminate;
    match goal with H : Ok _ = Ok _ |- _ => injection H as -> end;
    cbn [ebind]; rewrite ?finish_job_error, ?finish_job_image; reflexivity.
Qed.

(** Unless an interrupt is delivered, [process_job] returns for every job
    that has a string identifier. *)
Lemma process_job_returns (backend : result Response) (elapsed : Q)
      (j : list (string * json)) (id : string) :
  dict_get "id" j = Some (JStr id) ->
  backend_interrupts backend = false ->
  exists tr result, process_job backend elapsed (JDict j) = (tr, Ok result).
Proof.
  intros Hid Hint. unfold process_job.
  cbn [py_get py_lookup lift ebind]. rewrite Hid.
  cbn [py_slice8 lift ebind emit app].
  match goal with
  | |- context [is_str "sdxl" ?service] => destruct (is_str "sdxl" service)
  end; cbn [negb].
  - match goal with
    | |- context [run_sdxl backend ?params] =>
        destruct (run_sdxl_total backend params Hint) as (tr0 & res0 & Hsd & Hshape)
    end.
    rewrite Hsd. cbn [ebind].
    destruct (finish_job_cases elapsed res0 Hshape) as (tr1 & out & Hfin & _).
    rewrite Hfin. do 2 eexists. reflexivity.
  - do 2 eexists. reflexivity.
Qed.

(** X7. Every job is reported, exactly once: when a successful poll carries
    a job with a string identifier and the settings sync before it raises
    nothing, the iteration makes one completion call, for that identifier and
    with the result of [process_job], whether the inference succeeded or
    failed; and when that call returns, the counter is 0 and the loop goes on
    without sleeping. *)
Theorem every_job_is_reported
        (env : IterEnv) (st st_s : Locals) (resp : Response)
        (d j : list (string * json)) (tr_s : list event) (id : string) :
  schedule_forbids (clock env) (settings st) = Ok false ->
  poll_response env = Ok resp ->
  status_code resp = 200 ->
  json_body resp = Ok (JDict d) ->
  sync_settings env (JDict d) st = (tr_s, st_s, Next tt) ->
  dict_get "job" d = Some (JDict j) ->
  dict_get "id" j = Some (JStr id) ->
  backend_interrupts (backend_response env) = false ->
  exists result,
    snd (process_job (backend_response env) (elapsed_time env) (JDict j)) = Ok result /\
    completions (trace_of (iteration env st)) = [(id, result)] /\
    (forall r,
        complete_response env = Ok r ->
        state_of (iteration env st) = set_errors 0 st_s /\
        sleeps (trace_of (iteration env st)) = [] /\
        status_of (iteration env st) = Running).
Proof.
  intros Hgate Hpoll Hcode Hbody Hsync Hjob Hid Hint.
  destruct (process_job_returns (backend_response env) (elapsed_time env) j id Hid Hint)
    as (tr_j & result & Hrun).
  exists result. split; [rewrite Hrun; reflexivity|].
  assert (Htruthy : truthy (incoming_job d) = true).
  { unfold incoming_job. rewrite Hjob. destruct j; [discriminate Hid | reflexivity]. }
  assert (Hinc : incoming_job d = JDict j) by (unfold incoming_job; now rewrite Hjob).
  pose proof (sync_settings_summary env (JDict d) st st_s tr_s (Next tt) Hsync)
    as (_ & Hs_s & _ & Hc_s & _).
  pose proof (process_job_trace (backend_response env) (elapsed_time env) (JDict j)) as Hq.
  rewrite Hrun in Hq. cbn [fst] in Hq.
  apply dispatch_events_quiet in Hq as (_ & Hc_j & _ & Hs_j).
  assert (Htry : try_body env st =
                 match complete_response env with
                 | Ok _ =>
                     ((PollRequest :: tr_s ++ tr_j ++ [CompleteRequest id result])%list,
                      set_errors 0 st_s, Next tt)
                 | Raise e =>
                     ((PollRequest :: tr_s ++ tr_j ++ [CompleteRequest id result])%list,
                      set_errors 0 st_s, Throw e)
                 end).
  { rewrite (try_body_answered env st resp d Hgate Hpoll Hcode Hbody), Hsync.
    rewrite handle_job_cases, Htruthy, Hinc, Hrun.
    cbn [py_lookup]. rewrite Hid. cbn [py_str].
    destruct (complete_response env); reflexivity. }
  unfold iteration. rewrite Htry.
  destruct (complete_response env) as [r|e].
  - split.
    + unfold trace_of. cbn [fst completions].
      rewrite !completions_app, Hc_s, Hc_j. reflexivity.
    + intros r' _. unfold trace_of, state_of, status_of. cbn [fst snd sleeps].
      rewrite !sleeps_app, Hs_s, Hs_j. repeat split.
  - split; [|intros r Hr; discriminate Hr].
    destruct (is_Exception e); unfold trace_of; cbn [fst app completions];
      rewrite !completions_app, Hc_s, Hc_j; reflexivity.
Qed.

Lemma run_sdxl_sent (backend : result Response) (params body : json) :
  txt2img_body params = Ok body ->
  run_sdxl backend params =
  ([Txt2ImgRequest body],
   match backend with
   | Ok bresp =>
       match read_response bresp with
       | Ok res => Ok res
       | Raise e => if is_Exception e then Ok (error_result (exn_msg e)) else Raise e
       end
   | Raise e => if is_Exception e then Ok (error_result (exn_msg e)) else Raise e
   end).
Proof.
  intros Hbody. unfold run_sdxl. rewrite Hbody.
  cbn [lift ebind call except_Exception app].
  destruct backend as [bresp|e]; cbn [lift ebind call except_Exception app].
  - destruct (read_response bresp) as [res|e]; cbn; [reflexivity|].
    destruct (is_Exception e); reflexivity.
  - destruct (is_Exception e); reflexivity.
Qed.

(** X6. The successful round: a poll that carries an "sdxl" job, a backend
    that answers 200 with a non-empty ['images'] list and a completion call
    that returns make the iteration log, send one request to the backend and
    report [{result: {image, seed, inference_time}}] for the job's
    identifier; the counter is 0 afterwards and the loop polls again without
    sleeping. *)
Theorem successful_job_round
        (env : IterEnv) (st st_s : Locals) (resp bresp cresp : Response)
        (d j r : list (string * json)) (tr_s : list event) (id : string)
        (body image : json) (rest : list json) :
  schedule_forbids (clock env) (settings st) = Ok false ->
  poll_response env = Ok resp ->
  status_code resp = 200 ->
  json_body resp = Ok (JDict d) ->
  sync_settings env (JDict d) st = (tr_s, st_s, Next tt) ->
  dict_get "job" d = Some (JDict j) ->
  dict_get "id" j = Some (JStr id) ->
  dict_get "service" j = None \/ dict_get "service" j = Some (JStr "sdxl") ->
  txt2img_body (match dict_get "params" j with Some v => v | None => JDict [] end) =
    Ok body ->
  backend_response env = Ok bresp ->
  status_code bresp = 200 ->
  json_body bresp = Ok (JDict r) ->
  dict_get "images" r = Some (JList (image :: rest)) ->
  complete_response env = Ok cresp ->
  iteration env st =
  ((PollRequest :: tr_s ++
      [Log ("Processing sdxl job " ++ substring 0 8 id ++ "...");
       Txt2ImgRequest body;
       Log ("Job completed in " ++ float_fixed1 (elapsed_time env) ++ "s");
       CompleteRequest id
         (JDict [("result",
                  JDict [("image", image); ("seed", reported_seed r);
                         ("inference_time", JFloat (elapsed_time env))])])])%list,
   set_errors 0 st_s, Running).
Proof.
  intros Hgate Hpoll Hcode Hbody Hsync Hjob Hid Hservice Hreq Hback Hbcode Hbbody
         Himages Hcompl.
  assert (Htruthy : truthy (incoming_job d) = true).
  { unfold incoming_job. rewrite Hjob. destruct j; [discriminate Hid | reflexivity]. }
  assert (Hinc : incoming_job d = JDict j) by (unfold incoming_job; now rewrite Hjob).
  unfold iteration.
  rewrite (try_body_answered env st resp d Hgate Hpoll Hcode Hbody), Hsync.
  rewrite handle_job_cases, Htruthy, Hinc.
  rewrite (process_job_sdxl _ _ j id Hid Hservice).
  rewrite (run_sdxl_sent _ _ body Hreq), Hback.
  rewrite (read_response_images bresp r image rest Hbcode Hbbody Himages).
  cbn [emit ebind app]. rewrite finish_job_image. cbn [app py_lookup].
  rewrite Hid, Hcompl. reflexivity.
Qed.

(** X4. An interrupt during inference abandons the job: when the call to
    the backend is interrupted, the loop writes "Shutting down..." and ends
    at once; no completion call is made for the job it was processing, and no
    later iteration runs. *)
Theorem interrupt_abandons_job
        (env : IterEnv) (st st_s : Locals) (resp : Response)
        (d j : list (string * json)) (tr_s : list event) (id : string)
        (body : json) (e : exn) (rest : list IterEnv) :
  schedule_forbids (clock env) (settings st) = Ok false ->
  poll_response env = Ok resp ->
  status_code resp = 200 ->
  json_body resp = Ok (JDict d) ->
  sync_settings env (JDict d) st = (tr_s, st_s, Next tt) ->
  dict_get "job" d = Some (JDict j) ->
  dict_get "id" j = Some (JStr id) ->
  dict_get "service" j = None \/ dict_get "service" j = Some (JStr "sdxl") ->
  txt2img_body (match dict_get "params" j with Some v => v | None => JDict [] end) =
    Ok body ->
  backend_response env = Raise e ->
  is_Exception e = false ->
  worker_loop (env :: rest) st =
  ((PollRequest :: tr_s ++
      [Log ("Processing sdxl job " ++ substring 0 8 id ++ "...");
       Txt2ImgRequest body;
       Log "Shutting down..."])%list,
   set_errors 0 st_s, Stopped).
Proof.
  intros Hgate Hpoll Hcode Hbody Hsync Hjob Hid Hservice Hreq Hback Hint.
  assert (Htruthy : truthy (incoming_job d) = true).
  { unfold incoming_job. rewrite Hjob. destruct j; [discriminate Hid | reflexivity]. }
  assert (Hinc : incoming_job d = JDict j) by (unfold incoming_job; now rewrite Hjob).
  cbn [worker_loop]. unfold iteration.
  rewrite (try_body_answered env st resp d Hgate Hpoll Hcode Hbody), Hsync.
  rewrite handle_job_cases, Htruthy, Hinc.
  rewrite (process_job_sdxl _ _ j id Hid Hservice).
  rewrite (run_sdxl_sent _ _ body Hreq), Hback, Hint.
  cbn [emit ebind app]. rewrite Hint. cbn [app].
  rewrite <- app_assoc. reflexivity.
Qed.

(** X5. A failed settings write loses the job of the same response: when a
    poll brings newer, non-empty settings and [save_settings] raises, the
    iteration ends in the error handler. The new settings are already in
    force in memory, the held version is still the old one, the counter has
    grown by one, and whatever job the response carried is neither processed
    nor reported. *)
Theorem failed_save_drops_job
        (env : IterEnv) (st : Locals) (resp : Response)
        (d cs : list (string * json)) (e : exn) :
  schedule_forbids (clock env) (settings st) = Ok false ->
  poll_response env = Ok resp ->
  status_code resp = 200 ->
  json_body resp = Ok (JDict d) ->
  dict_get "config_sync" d = Some (JDict cs) ->
  cs <> [] ->
  py_gt (incoming_version cs) (settings_version st) = Ok true ->
  truthy (incoming_settings cs) = true ->
  save_outcome env = Raise e ->
  is_Exception e = true ->
  iteration env st =
  ([PollRequest; SaveSettings (incoming_settings cs);
    Log ("Error: " ++ exn_msg e); Sleep (backoff (errors st + 1))],
   {| settings := incoming_settings cs;
      settings_version := settings_version st;
      errors := errors st + 1 |},
   Running).
Proof.
  intros Hgate Hpoll Hcode Hbody Hcs Hne Hgt Htruthy Hsave Hexc.
  unfold iteration.
  rewrite (try_body_answered env st resp d Hgate Hpoll Hcode Hbody).
  rewrite (sync_settings_payload env d cs st true Hcs Hne Hgt), Htruthy, Hsave, Hexc.
  reflexivity.
Qed.

End JobScenarios.

(** * Further properties of the schedule gate *)

Lemma string_leb_trans (a : string) :
  forall b c,
    String.leb a b = true -> String.leb b c = true -> String.leb a c = true.
Proof.
  unfold String.leb.
  induction a as [|x a IH]; intros [|y b] [|z c]; cbn; try congruence.
  unfold Ascii.compare.
  destruct (N.compare_spec (N_of_ascii x) (N_of_ascii y)) as [Hxy|Hxy|Hxy];
    destruct (N.compare_spec (N_of_ascii y) (N_of_ascii z)) as [Hyz|Hyz|Hyz];
    destruct (N.compare_spec (N_of_ascii x) (N_of_ascii z)) as [Hxz|Hxz|Hxz];
    try congruence; try lia; try apply IH.
Qed.

Lemma overnight_window_empty (w : window) (day hm : string) :
  String.ltb (w_end w) (w_start w) = true ->
  coversb day hm w = false.
Proof.
  intros Hlt. unfold coversb.
  destruct (String.leb (w_start w) hm) eqn:H1; [|now rewrite andb_false_r].
  destruct (String.leb hm (w_end w)) eqn:H2; [|now rewrite andb_false_r].
  pose proof (string_leb_trans _ _ _ H1 H2) as H3.
  unfold String.ltb in Hlt. unfold String.leb in H3.
  rewrite String.compare_antisym in H3.
  destruct (String.compare (w_end w) (w_start w)); discriminate.
Qed.

(** X10. Windows do not span midnight: an enabled schedule whose time zone
    resolves and whose rules all end before they start, in the order of
    strings, is never within schedule, whatever the day and the time. *)
Theorem overnight_rules_never_match
        (c : Clock) (d : list (string * json)) (tz : string)
        (rules : list json) (ws : list window) :
  truthy (enabled_flag d) = true ->
  zoneinfo_importable c = true ->
  schedule_timezone d = Some tz ->
  tz_lookup c tz = TzFound ->
  schedule_rules d = Some rules ->
  map rule_window rules = map Some ws ->
  Forall (fun w => String.ltb (w_end w) (w_start w) = true) ws ->
  is_within_schedule c (JDict d) = Ok false.
Proof.
  intros Hen Himp Htz Hfound Hrules Htyped Hnight.
  rewrite (is_within_schedule_enabled c d tz rules) by assumption.
  rewrite (scan_rules_typed _ _ rules ws Htyped). f_equal.
  clear Htyped. induction ws as [|w ws' IH]; [reflexivity|].
  inversion Hnight as [|? ? Hw Hrest]; subst.
  cbn [existsb]. rewrite (overnight_window_empty w _ _ Hw). now apply IH.
Qed.

(** X11. The order of the rules does not matter, nor do repeated rules: two
    enabled schedules in the same resolved zone whose rules denote the same
    windows give the same answer. *)
Theorem rule_order_is_irrelevant
        (c : Clock) (d d' : list (string * json)) (tz : string)
        (rules rules' : list json) (ws ws' : list window) :
  truthy (enabled_flag d) = true ->
  truthy (enabled_flag d') = true ->
  zoneinfo_importable c = true ->
  schedule_timezone d = Some tz ->
  schedule_timezone d' = Some tz ->
  tz_lookup c tz = TzFound ->
  schedule_rules d = Some rules ->
  schedule_rules d' = Some rules' ->
  map rule_window rules = map Some ws ->
  map rule_window rules' = map Some ws' ->
  (forall w, In w ws <-> In w ws') ->
  is_within_schedule c (JDict d) = is_within_schedule c (JDict d').
Proof.
  intros Hen Hen' Himp Htz Htz' Hfound Hrules Hrules' Htyped Htyped' Hsame.
  rewrite (is_within_schedule_enabled c d tz rules) by assumption.
  rewrite (is_within_schedule_enabled c d' tz rules') by assumption.
  rewrite (scan_rules_typed _ _ rules ws Htyped).
  rewrite (scan_rules_typed _ _ rules' ws' Htyped'). f_equal.
  apply eq_true_iff_eq. rewrite !existsb_exists.
  split; intros (w & Hin & Hw); exists w; split; try assumption; now apply Hsame.
Qed.

Lemma lower_ascii_not_upper (c : ascii) : is_upper (lower_ascii c) = false.
Proof.
  unfold lower_ascii, is_upper.
  destruct (Nat.leb 65 (nat_of_ascii c) && Nat.leb (nat_of_ascii c) 90)%bool eqn:Hc;
    [|exact Hc].
  apply andb_true_iff in Hc as [H1 H2].
  apply Nat.leb_le in H1, H2.
  rewrite nat_ascii_embedding by lia.
  apply andb_false_iff. right. apply Nat.leb_gt. lia.
Qed.

Lemma lower_has_no_upper (s : string) : has_upper (lower s) = false.
Proof.
  induction s as [|c r IH]; [reflexivity|].
  cbn. now rewrite lower_ascii_not_upper, IH.
Qed.

Lemma substring_has_no_upper (s : string) :
  has_upper s = false -> forall n m, has_upper (substring n m s) = false.
Proof.
  induction s as [|c r IH]; intros Hs n m.
  - destruct n, m; reflexivity.
  - cbn in Hs. apply orb_false_iff in Hs as [Hc Hr].
    destruct n; cbn.
    + destruct m; [reflexivity|]. cbn. now rewrite Hc, IH.
    + now apply IH.
Qed.

Lemma substring_length_le (s : string) :
  forall n m, (String.length (substring n m s) <= m)%nat.
Proof.
  induction s as [|c r IH]; intros n m.
  - destruct n, m; cbn; lia.
  - destruct n; cbn.
    + destruct m; cbn; [lia|]. specialize (IH O m). lia.
    + apply IH.
Qed.

Lemma current_day_shape (c : Clock) (tz : string) :
  (String.length (current_day c tz) <= 3)%nat /\ has_upper (current_day c tz) = false.
Proof.
  unfold current_day. split.
  - apply substring_length_le.
  - apply substring_has_no_upper, lower_has_no_upper.
Qed.

Lemma unmatchable_days_cover_nothing (c : Clock) (tz hm : string) (w : window) :
  forallb unmatchable_day (w_days w) = true ->
  coversb (current_day c tz) hm w = false.
Proof.
  intros Hdays. unfold coversb.
  destruct (existsb (is_str (current_day c tz)) (w_days w)) eqn:Hex; [|reflexivity].
  exfalso. apply existsb_exists in Hex as (v & Hin & Hv).
  rewrite forallb_forall in Hdays. specialize (Hdays v Hin).
  destruct v; try discriminate Hv.
  cbn [is_str] in Hv. cbn [unmatchable_day] in Hdays.
  apply String.eqb_eq in Hv. subst s.
  destruct (current_day_shape c tz) as [Hlen Hup].
  rewrite Hup, orb_false_r in Hdays. apply Nat.ltb_lt in Hdays. lia.
Qed.

(** X12. Day codes are compared as written: a rule matches a day only
    through an entry of at most three characters without upper-case letters,
    so an enabled schedule whose rules name their days capitalised or
    spelled out ("Mon", "monday") is never within schedule. *)
Theorem capitalised_days_never_match
        (c : Clock) (d : list (string * json)) (tz : string)
        (rules : list json) (ws : list window) :
  truthy (enabled_flag d) = true ->
  zoneinfo_importable c = true ->
  schedule_timezone d = Some tz ->
  tz_lookup c tz = TzFound ->
  schedule_rules d = Some rules ->
  map rule_window rules = map Some ws ->
  Forall (fun w => forallb unmatchable_day (w_days w) = true) ws ->
  is_within_schedule c (JDict d) = Ok false.
Proof.
  intros Hen Himp Htz Hfound Hrules Htyped Hdays.
  rewrite (is_within_schedule_enabled c d tz rules) by assumption.
  rewrite (scan_rules_typed _ _ rules ws Htyped). f_equal.
  clear Htyped. induction ws as [|w ws' IH]; [reflexivity|].
  inversion Hdays as [|? ? Hw Hrest]; subst.
  cbn [existsb]. rewrite (unmatchable_days_cover_nothing c tz _ w Hw). now apply IH.
Qed.

Section GateAndLoop.
Context {PF : PyFloat}.

(** While the gate is closed the loop only sleeps, and its state stays as
    it is. *)
Lemma closed_gate_run (envs : list IterEnv) (st : Locals) :
  Forall (fun env => schedule_forbids (clock env) (settings st) = Ok true) envs ->
  worker_loop envs st = (map (fun _ => Sleep POLL_INTERVAL) envs, st, Running).
Proof.
  induction envs as [|env rest IH]; intros Hall; [reflexivity|].
  inversion Hall as [|? ? Hgate Hrest]; subst.
  cbn [worker_loop]. unfold iteration.
  rewrite (try_body_gate_closed env st Hgate), (IH Hrest). reflexivity.
Qed.

(** X9. A closed schedule cuts the worker off: while the held settings have
    an enabled schedule, in a zone that resolves, none of whose rules covers
    the current day and time, every iteration sleeps the poll interval and
    makes no request, so nothing the server has to say, new settings included,
    reaches the worker; with an empty rule list that holds at every time. *)
Theorem closed_schedule_never_polls
        (envs : list IterEnv) (st : Locals) (s d : list (string * json))
        (tz : string) (rules : list json) (ws : list window) :
  settings st = JDict s ->
  dict_get "schedule" s = Some (JDict d) ->
  truthy (enabled_flag d) = true ->
  schedule_timezone d = Some tz ->
  schedule_rules d = Some rules ->
  map rule_window rules = map Some ws ->
  Forall (fun env =>
            zoneinfo_importable (clock env) = true /\
            tz_lookup (clock env) tz = TzFound /\
            existsb (coversb (current_day (clock env) tz)
                             (current_time (clock env) tz)) ws = false) envs ->
  worker_loop envs st = (map (fun _ => Sleep POLL_INTERVAL) envs, st, Running).
Proof.
  intros Hst Hsched Hen Htz Hrules Htyped Hall.
  apply closed_gate_run.
  eapply Forall_impl; [|exact Hall].
  intros env (Himp & Hfound & Hnone). cbn beta.
  unfold schedule_forbids. rewrite Hst.
  assert (Hs : truthy (JDict s) = true) by (destruct s; [discriminate Hsched | reflexivity]).
  rewrite Hs. cbn [py_get rbind]. rewrite Hsched.
  rewrite (is_within_schedule_enabled (clock env) d tz rules) by assumption.
  rewrite (scan_rules_typed _ _ rules ws Htyped), Hnone. reflexivity.
Qed.

End GateAndLoop.

(** * Further properties of the inference client *)

(** X13. The singular image field is a fallback: a 200 response whose
    ['images'] is absent or empty but which has an ['image'] field yields that
    image, with the reported seed or [-1]. *)
Theorem singular_image_is_fallback
        (p : list (string * json)) (resp : Response)
        (r : list (string * json)) (image : json) :
  status_code resp = 200 ->
  json_body resp = Ok (JDict r) ->
  dict_get "images" r = None \/
  (exists v, dict_get "images" r = Some v /\ truthy v = false) ->
  dict_get "image" r = Some image ->
  snd (run_sdxl (Ok resp) (JDict p)) =
  Ok (JDict [("image", image); ("seed", reported_seed r)]).
Proof.
  intros Hcode Hbody Himages Himage. apply run_sdxl_answered.
  unfold read_response, reported_seed. rewrite Hcode, Hbody. cbn.
  destruct Himages as [-> | (v & -> & Hv)]; cbn; rewrite ?Hv, Himage; reflexivity.
Qed.

Lemma singular_image_is_fallback_witness :
  snd (run_sdxl (http 200 (JDict [("images", JList []); ("image", JStr "abc")]))
                (JDict [("prompt", JStr "a cat")])) =
  Ok (JDict [("image", JStr "abc"); ("seed", JInt (-1))]).
Proof.
  apply (singular_image_is_fallback
           [("prompt", JStr "a cat")]
           {| status_code := 200;
              json_body := Ok (JDict [("images", JList []); ("image", JStr "abc")]) |}
           [("images", JList []); ("image", JStr "abc")] (JStr "abc")).
  - reflexivity.
  - reflexivity.
  - right. exists (JList []). split; reflexivity.
  - reflexivity.
Defined.

(** * The further properties on concrete runs *)

Lemma sleeps_are_bounded_witness :
  0 <= errors (state_of (worker_loop
                           [iteration_with (Raise connection_error) (http 200 (JDict []));
                            iteration_with (Raise connection_error) (http 200 (JDict []))]
                           (holding_v1 20))) /\
  Forall (fun n => 5 <= n <= 60)
         (sleeps (trace_of (worker_loop
                              [iteration_with (Raise connection_error) (http 200 (JDict []));
                               iteration_with (Raise connection_error) (http 200 (JDict []))]
                              (holding_v1 20)))).
Proof.
  apply (sleeps_are_bounded
           [iteration_with (Raise connection_error) (http 200 (JDict []));
            iteration_with (Raise connection_error) (http 200 (JDict []))]
           (holding_v1 20)).
  cbn. lia.
Defined.

Lemma version_never_decreases_witness :
  exists q',
    num_val (settings_version
               (state_of (worker_loop
                            [iteration_with (poll_with_sync 2 settings_v2) (http 200 (JDict []));
                             iteration_with (poll_with_sync 1 settings_v1) (http 200 (JDict []))]
                            (holding_v1 0)))) = Some q' /\
    (1 <= q')%Q.
Proof.
  apply (version_never_decreases
           [iteration_with (poll_with_sync 2 settings_v2) (http 200 (JDict []));
            iteration_with (poll_with_sync 1 settings_v1) (http 200 (JDict []))]
           (holding_v1 0) 1%Q).
  reflexivity.
Defined.

Lemma process_job_passes_outcome_on_witness :
  snd (process_job (http 500 (JDict [])) (3 # 2)%Q (JDict job_fields)) =
  Ok (error_result "Server error 500").
Proof.
  destruct (process_job_passes_outcome_on
              (http 500 (JDict [])) (3 # 2)%Q job_fields "0123456789abcdef"
              eq_refl (or_intror eq_refl)) as [Herr _].
  apply Herr. reflexivity.
Defined.

Lemma every_job_is_reported_witness :
  exists result,
    snd (process_job (http 500 (JDict [])) (3 # 2)%Q (JDict job_fields)) = Ok result /\
    completions (trace_of (iteration
                             {| clock := clock_at "Mon" "12:00";
                                poll_response := poll_with_job;
                                save_outcome := Ok tt;
                                backend_response := http 500 (JDict []);
                                elapsed_time := (3 # 2)%Q;
                                complete_response := http 200 (JDict []) |}
                             (holding_v1 3))) =
    [("0123456789abcdef", result)].
Proof.
  destruct (every_job_is_reported
              {| clock := clock_at "Mon" "12:00";
                 poll_response := poll_with_job;
                 save_outcome := Ok tt;
                 backend_response := http 500 (JDict []);
                 elapsed_time := (3 # 2)%Q;
                 complete_response := http 200 (JDict []) |}
              (holding_v1 3) (holding_v1 3)
              {| status_code := 200; json_body := Ok (JDict [("job", tagged_job)]) |}
              [("job", tagged_job)] job_fields [] "0123456789abcdef"
              eq_refl eq_refl eq_refl eq_refl eq_refl eq_refl eq_refl eq_refl)
    as (result & Hres & Hcompl & _).
  exists result. split; assumption.
Defined.

Lemma successful_job_round_witness :
  iteration (iteration_with poll_with_job (http 200 (JDict []))) (holding_v1 3) =
  ([PollRequest;
    Log "Processing sdxl job 01234567...";
    Txt2ImgRequest prompt_request;
    Log "Job completed in 1.5s";
    CompleteRequest "0123456789abcdef"
      (JDict [("result",
               JDict [("image", JStr "abc"); ("seed", JInt 42);
                      ("inference_time", JFloat (3 # 2)%Q)])])],
   holding_v1 0, Running).
Proof.
  rewrite (successful_job_round
             (iteration_with poll_with_job (http 200 (JDict []))) (holding_v1 3) (holding_v1 3)
             {| status_code := 200; json_body := Ok (JDict [("job", tagged_job)]) |}
             {| status_code := 200; json_body := Ok images_body |}
             {| status_code := 200; json_body := Ok (JDict []) |}
             [("job", tagged_job)] job_fields
             [("images", JList [JStr "abc"]); ("seed", JInt 42)]
             [] "0123456789abcdef" prompt_request (JStr "abc") []);
    try reflexivity.
  right. reflexivity.
Defined.

Lemma interrupt_abandons_job_witness :
  worker_loop [iteration_interrupted poll_with_job;
               iteration_with poll_with_job (http 200 (JDict []))] (holding_v1 3) =
  ([PollRequest;
    Log "Processing sdxl job 01234567...";
    Txt2ImgRequest prompt_request;
    Log "Shutting down..."],
   holding_v1 0, Stopped).
Proof.
  rewrite (interrupt_abandons_job
           (iteration_interrupted poll_with_job) (holding_v1 3) (holding_v1 3)
           {| status_code := 200; json_body := Ok (JDict [("job", tagged_job)]) |}
           [("job", tagged_job)] job_fields [] "0123456789abcdef" prompt_request
           (Exn KeyboardInterrupt "")
           [iteration_with poll_with_job (http 200 (JDict []))]);
    try reflexivity.
  right. reflexivity.
Defined.

Lemma failed_save_drops_job_witness :
  iteration (iteration_read_only
               (http 200 (JDict [("config_sync", JDict (sync_payload 2 settings_v2));
                                 ("job", tagged_job)])))
            (holding_v1 0) =
  ([PollRequest; SaveSettings settings_v2;
    Log "Error: [Errno 30] Read-only file system"; Sleep 5],
   {| settings := settings_v2; settings_version := JInt 1; errors := 1 |},
   Running).
Proof.
  rewrite (failed_save_drops_job
           (iteration_read_only
              (http 200 (JDict [("config_sync", JDict (sync_payload 2 settings_v2));
                                ("job", tagged_job)])))
           (holding_v1 0)
           {| status_code := 200;
              json_body := Ok (JDict [("config_sync", JDict (sync_payload 2 settings_v2));
                                      ("job", tagged_job)]) |}
           [("config_sync", JDict (sync_payload 2 settings_v2)); ("job", tagged_job)]
           (sync_payload 2 settings_v2)
           (Exn OSError "[Errno 30] Read-only file system"));
    try reflexivity.
  discriminate.
Defined.

Lemma overnight_rules_never_match_witness :
  is_within_schedule (clock_at "Mon" "23:00") (JDict night_shift) = Ok false.
Proof.
  apply (overnight_rules_never_match
           (clock_at "Mon" "23:00") night_shift "UTC" [night_rule] [night_window]);
    try reflexivity.
  repeat constructor.
Defined.

Lemma rule_order_is_irrelevant_witness :
  is_within_schedule (clock_at "Sat" "12:00") (JDict office_then_weekend) =
  is_within_schedule (clock_at "Sat" "12:00") (JDict weekend_then_office).
Proof.
  apply (rule_order_is_irrelevant
           (clock_at "Sat" "12:00") office_then_weekend weekend_then_office "UTC"
           [office_rule; weekend_rule] [weekend_rule; office_rule; weekend_rule]
           [office_window; weekend_window]
           [weekend_window; office_window; weekend_window]);
    try reflexivity.
  intros w. cbn [In]. tauto.
Defined.

Lemma capitalised_days_never_match_witness :
  is_within_schedule (clock_at "Mon" "12:00") (JDict capitalised_schedule) = Ok false.
Proof.
  apply (capitalised_days_never_match
           (clock_at "Mon" "12:00") capitalised_schedule "UTC"
           [capitalised_rule] [capitalised_window]);
    try reflexivity.
  repeat constructor.
Defined.

Lemma closed_schedule_never_polls_witness :
  worker_loop [monday_evening (poll_with_sync 3 settings_v1);
               monday_evening poll_with_job] holding_office_hours =
  ([Sleep 5; Sleep 5], holding_office_hours, Running).
Proof.
  rewrite (closed_schedule_never_polls
           [monday_evening (poll_with_sync 3 settings_v1); monday_evening poll_with_job]
           holding_office_hours
           [("schedule", JDict office_hours)] office_hours "UTC"
           [office_rule] [office_window]);
    try reflexivity.
  repeat constructor.
Defined.

(** * Properties of the start-up probes *)

(** ** GPU detection *)

Lemma gpu_row_reported (max_digits : nat) (line : string) (entry : json) :
  gpu_row max_digits line = Some entry -> reported_gpu entry.
Proof.
  unfold gpu_row.
  destruct (map strip (split "," line)) as [|index [|name [|mem rest]]]; try discriminate.
  destruct (py_int max_digits index) as [idx|]; [|discriminate].
  destruct (existsb _ software_keywords) eqn:Hsoft; [discriminate|].
  destruct (py_int max_digits (strip (remove "MiB" mem))) as [vram|]; [|discriminate].
  destruct (vram <? 2000) eqn:Hsmall; [discriminate|].
  intros [= <-]. apply Z.ltb_ge in Hsmall.
  exists idx, name, (vram / 1024). unfold gpu_entry, memory_label.
  replace (1024 <=? vram) with true by (symmetry; apply Z.leb_le; lia).
  split; [reflexivity|]. split; [|exact Hsoft].
  apply Z.div_le_lower_bound; lia.
Qed.

Lemma gpu_rows_reported (max_digits : nat) (output : string) :
  Forall reported_gpu (gpu_rows max_digits output).
Proof.
  unfold gpu_rows. induction (split "010" (strip output)) as [|line rest IH].
  - constructor.
  - cbn [flat_map]. apply Forall_app. split; [|exact IH].
    destruct (gpu_row max_digits line) as [entry|] eqn:Hrow; constructor.
    + exact (gpu_row_reported _ _ _ Hrow).
    + constructor.
Qed.

(** X14. Only real cards of some size are reported: whatever [nvidia-smi]
    prints, every entry [detect_gpus] returns has an integer index, a name
    with none of "llvmpipe", "software", "virtual" in it in any
    capitalisation, and a memory label of the form "<n>GB" with n at least
    1; the "MB" label is never produced, since a card below 2000 MiB is
    dropped. *)
Theorem detected_gpus_are_sized
        (max_digits : nat) (nvidia_smi : result CompletedProcess) (gpus : list json) :
  detect_gpus max_digits nvidia_smi = Ok gpus ->
  Forall reported_gpu gpus.
Proof.
  unfold detect_gpus. destruct nvidia_smi as [completed|e].
  - destruct (returncode completed =? 0); intros [= <-].
    + apply gpu_rows_reported.
    + constructor.
  - destruct (is_tool_failure e); [|discriminate]. intros [= <-]. constructor.
Qed.

(** X15. Detection does not stop the worker: a missing or failing
    [nvidia-smi] (an [OSError], a time-out, a non-zero exit status) gives the
    empty list, and from whatever list [detect_gpus] returns the [gpu_info]
    header is built without error: empty for no GPU, else the name and the
    label of the first entry. *)
Theorem gpu_header_is_built
        (max_digits : nat) (nvidia_smi : result CompletedProcess) :
  (forall e, nvidia_smi = Raise e -> is_tool_failure e = true) ->
  exists gpus,
    detect_gpus max_digits nvidia_smi = Ok gpus /\
    ((forall completed, nvidia_smi = Ok completed -> returncode completed <> 0) ->
     gpus = []) /\
    match gpus with
    | [] => gpu_info gpus = Ok (JDict [])
    | first :: _ =>
        exists index name gb,
          first = gpu_entry index name gb /\
          gpu_info gpus =
          Ok (JDict [("name", JStr name); ("memory", JStr (decimal gb ++ "GB"))])
    end.
Proof.
  intros Hcaught.
  assert (Hret : exists gpus, detect_gpus max_digits nvidia_smi = Ok gpus /\
                   ((forall completed, nvidia_smi = Ok completed ->
                                       returncode completed <> 0) -> gpus = []) /\
                   Forall reported_gpu gpus).
  { unfold detect_gpus. destruct nvidia_smi as [completed|e].
    - destruct (returncode completed =? 0) eqn:Hcode.
      + eexists. split; [reflexivity|]. split; [|apply gpu_rows_reported].
        intros Hbad. apply Z.eqb_eq in Hcode. now destruct (Hbad completed eq_refl).
      + exists []. repeat split; auto.
    - rewrite (Hcaught e eq_refl). exists []. repeat split; auto. }
  destruct Hret as (gpus & Hrun & Hempty & Hall).
  exists gpus. split; [exact Hrun|]. split; [exact Hempty|].
  destruct gpus as [|first rest]; [reflexivity|].
  inversion Hall as [|? ? (index & name & gb & -> & _ & _) _]; subst.
  exists index, name, gb. split; reflexivity.
Qed.

(** *** Text *)

Lemma split_nonempty (sep : ascii) (s : string) : split sep s <> [].
Proof.
  destruct s as [|c r]; cbn; [discriminate|].
  destruct (Ascii.eqb c sep); [discriminate|].
  destruct (split sep r); discriminate.
Qed.

Lemma split_app (sep : ascii) (a b : string) :
  split sep (a ++ String sep b) = (split sep a ++ split sep b)%list.
Proof.
  induction a as [|c a IH]; cbn.
  - now rewrite Ascii.eqb_refl.
  - destruct (Ascii.eqb c sep); [now rewrite IH|].
    rewrite IH. destruct (split sep a) as [|field fields] eqn:Hsplit.
    + now destruct (split_nonempty sep a).
    + reflexivity.
Qed.

Lemma split_plain (sep : ascii) (s : string) :
  contains_char sep s = false -> split sep s = [s].
Proof.
  induction s as [|c r IH]; cbn; [reflexivity|].
  intros H. apply orb_false_iff in H as [Hc Hr].
  rewrite Hc, (IH Hr). reflexivity.
Qed.

Lemma contains_char_app (c : ascii) (a b : string) :
  contains_char c (a ++ b) = contains_char c a || contains_char c b.
Proof. induction a as [|c' a IH]; cbn; [reflexivity|]. now rewrite IH, orb_assoc. Qed.

Lemma rstrip_app (a b : string) :
  rstrip b <> "" -> rstrip (a ++ b) = a ++ rstrip b.
Proof.
  intros Hb. induction a as [|c a IH]; cbn; [reflexivity|].
  rewrite IH. destruct (a ++ rstrip b) eqn:Hab; [|reflexivity].
  destruct a; [|discriminate]. now destruct Hb.
Qed.

Lemma rstrip_app_blank (a b : string) :
  rstrip b = "" -> rstrip (a ++ b) = rstrip a.
Proof.
  intros Hb. induction a as [|c a IH]; cbn; [exact Hb|]. now rewrite IH.
Qed.

Lemma append_assoc (a b c : string) : (a ++ b) ++ c = a ++ b ++ c.
Proof. induction a as [|x a IH]; cbn; [reflexivity|]. now rewrite IH. Qed.

(** *** Printed numbers *)

Lemma printed_first (d : Decimal.uint) :
  d <> Decimal.Nil ->
  exists c r, NilEmpty.string_of_uint d = String c r /\
              is_space c = false /\ is_int_space c = false /\
              Ascii.eqb c "-" = false /\ Ascii.eqb c "+" = false /\
              prefix "MiB" (String c r) = false.
Proof.
  intros Hd. destruct d; [now destruct Hd| ..]; cbn; do 2 eexists;
    (split; [reflexivity|]); repeat split.
Qed.

Lemma printed_lstrip (d : Decimal.uint) (rest : string) :
  d <> Decimal.Nil ->
  lstrip (NilEmpty.string_of_uint d ++ rest) = NilEmpty.string_of_uint d ++ rest.
Proof.
  intros Hd. destruct (printed_first d Hd) as (c & r & Hp & Hsp & _).
  rewrite Hp. cbn. now rewrite Hsp.
Qed.

Lemma append_empty (s : string) : s ++ "" = s.
Proof. induction s as [|c s IH]; cbn; [reflexivity|]. now rewrite IH. Qed.

Lemma printed_plain (c : ascii) (d : Decimal.uint) :
  c = ","%char \/ c = "010"%char \/ c = "/"%char ->
  contains_char c (NilEmpty.string_of_uint d) = false.
Proof.
  intros Hc. induction d; cbn; [reflexivity|..]; rewrite IHd;
    destruct Hc as [-> | [-> | ->]]; reflexivity.
Qed.

Lemma printed_rstrip (d : Decimal.uint) : rstrip (NilEmpty.string_of_uint d) = NilEmpty.string_of_uint d.
Proof.
  induction d; cbn; [reflexivity|..]; rewrite IHd; destruct (NilEmpty.string_of_uint d); reflexivity.
Qed.

Lemma printed_int_rstrip (d : Decimal.uint) : int_rstrip (NilEmpty.string_of_uint d) = NilEmpty.string_of_uint d.
Proof.
  induction d; cbn; [reflexivity|..]; rewrite IHd; destruct (NilEmpty.string_of_uint d); reflexivity.
Qed.

Lemma printed_length (d : Decimal.uint) : String.length (NilEmpty.string_of_uint d) = Decimal.nb_digits d.
Proof. induction d; cbn; congruence. Qed.

Lemma int_digits_printed (d : Decimal.uint) (after_digit : bool) :
  d <> Decimal.Nil \/ after_digit = true ->
  int_digits (NilEmpty.string_of_uint d) after_digit = Some d.
Proof.
  revert after_digit.
  induction d; intros after_digit Hd; cbn;
    [destruct Hd as [Hd | ->]; [now destruct Hd | reflexivity] | ..];
    rewrite (IHd true (or_intror eq_refl)); reflexivity.
Qed.

(** [int] reads back what the worker's own formatting prints. *)
Lemma py_int_printed (max_digits : nat) (d : Decimal.uint) :
  d <> Decimal.Nil ->
  max_digits = O \/ (Decimal.nb_digits d <= max_digits)%nat ->
  py_int max_digits (NilEmpty.string_of_uint d) = Some (Z.of_uint d).
Proof.
  intros Hd Hlimit. unfold py_int.
  destruct (printed_first d Hd) as (c & r & Hp & _ & Hsp & Hminus & Hplus & _).
  assert (Hl : int_lstrip (NilEmpty.string_of_uint d) = NilEmpty.string_of_uint d) by (rewrite Hp; cbn; now rewrite Hsp).
  rewrite Hl, printed_int_rstrip.
  assert (Hsign : (match NilEmpty.string_of_uint d with
                   | String "-" r => (true, r)
                   | String "+" r => (false, r)
                   | _ => (false, NilEmpty.string_of_uint d)
                   end) = (false, NilEmpty.string_of_uint d)).
  { destruct d; reflexivity. }
  rewrite Hsign, (int_digits_printed d false (or_introl Hd)).
  replace (Nat.ltb 0 max_digits && Nat.ltb max_digits (Decimal.nb_digits d))%bool
    with false; [reflexivity|].
  symmetry. apply andb_false_iff.
  destruct Hlimit as [-> | Hle]; [left; reflexivity | right; apply Nat.ltb_ge; exact Hle].
Qed.

Lemma decimal_printed (z : Z) :
  0 <= z ->
  exists d, d <> Decimal.Nil /\ decimal z = NilEmpty.string_of_uint d /\ Z.of_uint d = z.
Proof.
  intros Hz. destruct z as [|p|p]; [| |lia].
  - exists (Decimal.D0 Decimal.Nil). repeat split. discriminate.
  - exists (Pos.to_uint p).
    pose proof (DecimalPos.Unsigned.to_uint_nonnil p) as Hnn.
    split; [exact Hnn|]. split.
    + unfold decimal. cbn. destruct (Pos.to_uint p); [now destruct Hnn|reflexivity..].
    + unfold Z.of_uint. now rewrite DecimalPos.Unsigned.of_to.
Qed.

Lemma remove_unit (d : Decimal.uint) :
  remove "MiB" (NilEmpty.string_of_uint d ++ " MiB") = NilEmpty.string_of_uint d ++ " ".
Proof.
  unfold remove. induction d; cbn; [reflexivity|..]; now rewrite IHd.
Qed.

(** *** Reading a listing *)

Lemma gpu_row_reads_line (max_digits : nat) (g : gpu) :
  usable_gpu max_digits g = true ->
  gpu_row max_digits (gpu_line g) =
  Some (gpu_entry (g_index g) (g_name g) (g_vram g / 1024)).
Proof.
  unfold usable_gpu, plain_name. intros H.
  apply andb_true_iff in H as [H Hwv]. apply andb_true_iff in H as [H Hwi].
  apply andb_true_iff in H as [H Hhard]. apply andb_true_iff in H as [H Hname].
  apply andb_true_iff in H as [Hindex Hvram].
  apply andb_true_iff in Hname as [Hname Hline].
  apply andb_true_iff in Hname as [Hstrip Hcomma].
  apply negb_true_iff in Hhard, Hline, Hcomma.
  apply String.eqb_eq in Hstrip. apply Z.leb_le in Hindex, Hvram.
  destruct (decimal_printed (g_index g)) as (di & Hdi & Hpi & Hvi); [assumption|].
  destruct (decimal_printed (g_vram g)) as (dv & Hdv & Hpv & Hvv); [lia|].
  assert (Hli : max_digits = O \/ (Decimal.nb_digits di <= max_digits)%nat).
  { rewrite <- printed_length, <- Hpi. unfold within_limit in Hwi.
    apply orb_true_iff in Hwi as [Hwi | Hwi];
      [left; now apply Nat.eqb_eq | right; now apply Nat.leb_le]. }
  assert (Hlv : max_digits = O \/ (Decimal.nb_digits dv <= max_digits)%nat).
  { rewrite <- printed_length, <- Hpv. unfold within_limit in Hwv.
    apply orb_true_iff in Hwv as [Hwv | Hwv];
      [left; now apply Nat.eqb_eq | right; now apply Nat.leb_le]. }
  unfold gpu_row, gpu_line. rewrite Hpi, Hpv.
  change (NilEmpty.string_of_uint di ++ ", " ++ g_name g ++ ", " ++ NilEmpty.string_of_uint dv ++ " MiB")
    with (NilEmpty.string_of_uint di ++ String "," (String " " (g_name g) ++
                                    String "," (String " " (NilEmpty.string_of_uint dv ++ " MiB")))).
  rewrite split_app, (split_plain "," (NilEmpty.string_of_uint di)) by (apply printed_plain; auto).
  rewrite split_app, (split_plain "," (String " " (g_name g)))
    by (cbn; assumption).
  rewrite (split_plain "," (String " " (NilEmpty.string_of_uint dv ++ " MiB")))
    by (cbn; rewrite contains_char_app, printed_plain by auto; reflexivity).
  cbn [app map].
  assert (Hs1 : strip (NilEmpty.string_of_uint di) = NilEmpty.string_of_uint di).
  { unfold strip. rewrite <- (append_empty (NilEmpty.string_of_uint di)) at 1.
    rewrite (printed_lstrip di "" Hdi), append_empty. apply printed_rstrip. }
  assert (Hs2 : strip (String " " (g_name g)) = g_name g) by assumption.
  assert (Hs3 : strip (String " " (NilEmpty.string_of_uint dv ++ " MiB")) =
                NilEmpty.string_of_uint dv ++ " MiB").
  { unfold strip.
    change (lstrip (String " " (NilEmpty.string_of_uint dv ++ " MiB")))
      with (lstrip (NilEmpty.string_of_uint dv ++ " MiB")).
    rewrite (printed_lstrip dv " MiB" Hdv).
    rewrite rstrip_app; [reflexivity | discriminate]. }
  rewrite Hs1, Hs2, Hs3, (py_int_printed max_digits di Hdi Hli), Hvi.
  fold (is_software (g_name g)). rewrite Hhard.
  rewrite remove_unit.
  assert (Hs4 : strip (NilEmpty.string_of_uint dv ++ " ") = NilEmpty.string_of_uint dv).
  { unfold strip. rewrite (printed_lstrip dv " " Hdv).
    rewrite rstrip_app_blank by reflexivity. apply printed_rstrip. }
  rewrite Hs4, (py_int_printed max_digits dv Hdv Hlv), Hvv.
  replace (g_vram g <? 2000) with false by (symmetry; apply Z.ltb_ge; lia).
  unfold memory_label, gpu_entry.
  replace (1024 <=? g_vram g) with true by (symmetry; apply Z.leb_le; lia).
  reflexivity.
Qed.

Lemma usable_gpu_line (max_digits : nat) (g : gpu) :
  usable_gpu max_digits g = true ->
  rstrip (gpu_line g) = gpu_line g /\
  contains_char "010" (gpu_line g) = false /\
  forall rest, lstrip (gpu_line g ++ rest) = gpu_line g ++ rest.
Proof.
  unfold usable_gpu, plain_name. intros H.
  apply andb_true_iff in H as [H _]. apply andb_true_iff in H as [H _].
  apply andb_true_iff in H as [H _]. apply andb_true_iff in H as [H Hname].
  apply andb_true_iff in H as [Hindex Hvram].
  apply andb_true_iff in Hname as [_ Hline].
  apply negb_true_iff in Hline. apply Z.leb_le in Hindex, Hvram.
  destruct (decimal_printed (g_index g)) as (di & Hdi & Hpi & _); [assumption|].
  destruct (decimal_printed (g_vram g)) as (dv & Hdv & Hpv & _); [lia|].
  unfold gpu_line. rewrite Hpi, Hpv. repeat split.
  - rewrite <- !append_assoc. rewrite rstrip_app; [reflexivity | discriminate].
  - rewrite !contains_char_app, !printed_plain, Hline by auto. reflexivity.
  - intros rest. rewrite append_assoc. apply printed_lstrip. exact Hdi.
Qed.

Lemma listing_lines (max_digits : nat) (gpus : list gpu) (g : gpu) :
  forallb (usable_gpu max_digits) (g :: gpus) = true ->
  split "010" (rstrip (listing (g :: gpus))) = map gpu_line (g :: gpus).
Proof.
  revert g. induction gpus as [|g' rest IH]; intros g Hall;
    cbn [forallb] in Hall; apply andb_true_iff in Hall as [Hg Hrest];
    destruct (usable_gpu_line max_digits g Hg) as (Hr & Hplain & _).
  - cbn [listing fold_right map].
    rewrite rstrip_app_blank by reflexivity. rewrite Hr. now apply split_plain.
  - specialize (IH g' Hrest).
    change (listing (g :: g' :: rest))
      with (gpu_line g ++ String "010" (listing (g' :: rest))).
    assert (Hne : rstrip (listing (g' :: rest)) <> "").
    { intros Hempty. rewrite Hempty in IH. cbn in IH. injection IH as Hline _.
      unfold gpu_line in Hline. symmetry in Hline.
      cbn [forallb] in Hrest. apply andb_true_iff in Hrest as [Hg' _].
      destruct (usable_gpu_line max_digits g' Hg') as (_ & _ & Hl).
      destruct (decimal_printed (g_index g')) as (d & Hd & Hp & _).
      { unfold usable_gpu in Hg'. repeat (apply andb_true_iff in Hg' as [Hg' _]).
        now apply Z.leb_le. }
      rewrite Hp in Hline. destruct d; [now destruct Hd | discriminate..]. }
    rewrite rstrip_app.
    + cbn [rstrip]. destruct (rstrip (listing (g' :: rest))) eqn:Hrs; [now destruct Hne|].
      rewrite split_app, (split_plain _ _ Hplain), IH. reflexivity.
    + cbn [rstrip]. destruct (rstrip (listing (g' :: rest))); [now destruct Hne | discriminate].
Qed.

(** X16. A listing is read back: when [nvidia-smi] exits with 0 and prints
    one line "index, name, memory MiB" per GPU, for hardware GPUs of at
    least 2000 MiB whose names have no comma, [detect_gpus] returns one
    entry per line, in order, with that index and name and the memory in
    whole GiB, rounded down. *)
Theorem detect_gpus_reads_listing (max_digits : nat) (gpus : list gpu) :
  forallb (usable_gpu max_digits) gpus = true ->
  detect_gpus max_digits (Ok {| returncode := 0; stdout := listing gpus |}) =
  Ok (map (fun g => gpu_entry (g_index g) (g_name g) (g_vram g / 1024)) gpus).
Proof.
  intros Hall. unfold detect_gpus. cbn [returncode stdout Z.eqb]. f_equal.
  unfold gpu_rows. destruct gpus as [|g rest]; [reflexivity|].
  assert (Hg : usable_gpu max_digits g = true)
    by (cbn [forallb] in Hall; now apply andb_true_iff in Hall as [Hg _]).
  destruct (usable_gpu_line max_digits g Hg) as (_ & _ & Hl).
  unfold strip.
  change (listing (g :: rest)) with (gpu_line g ++ String "010" (listing rest)) at 1.
  rewrite Hl.
  change (gpu_line g ++ String "010" (listing rest)) with (listing (g :: rest)).
  rewrite (listing_lines max_digits rest g Hall).
  revert Hall. generalize (g :: rest). clear. intros gpus.
  induction gpus as [|g rest IH]; intros Hall; [reflexivity|].
  cbn [forallb] in Hall. apply andb_true_iff in Hall as [Hg Hrest].
  cbn [map flat_map]. rewrite (gpu_row_reads_line max_digits g Hg), (IH Hrest).
  reflexivity.
Qed.

(** ** Model detection *)

Lemma rfind_dot_extension (stem : string) :
  rfind_dot (stem ++ ".safetensors") = Some (String.length stem).
Proof. induction stem as [|c stem IH]; cbn; [reflexivity|]. now rewrite IH. Qed.

Lemma substring_prefix (a b : string) : substring 0 (String.length a) (a ++ b) = a.
Proof.
  induction a as [|c a IH]; cbn; [now destruct b|]. now rewrite IH.
Qed.

Lemma length_append (a b : string) :
  String.length (a ++ b) = (String.length a + String.length b)%nat.
Proof. induction a as [|c a IH]; cbn; [reflexivity|]. now rewrite IH. Qed.

Lemma path_name_last (dir name : string) :
  contains_char "/" name = false ->
  name <> "" -> name <> "." ->
  path_name (dir ++ "/" ++ name) = name.
Proof.
  intros Hplain Hne Hdot. unfold path_name.
  change (dir ++ "/" ++ name) with (dir ++ String "/" name).
  rewrite split_app, (split_plain _ _ Hplain), filter_app. cbn [filter].
  replace (name =? "")%string with false by (symmetry; now apply String.eqb_neq).
  replace (name =? ".")%string with false by (symmetry; now apply String.eqb_neq).
  cbn [negb andb]. apply last_last.
Qed.

Lemma path_stem_of_checkpoint (dir stem : string) :
  file_stem stem = true ->
  path_stem (dir ++ "/" ++ stem ++ ".safetensors") = stem.
Proof.
  unfold file_stem. intros H. apply andb_true_iff in H as [Hne Hplain].
  apply negb_true_iff in Hne, Hplain. apply String.eqb_neq in Hne.
  unfold path_stem. rewrite path_name_last.
  - rewrite rfind_dot_extension, length_append.
    destruct stem as [|c stem]; [now destruct Hne|].
    replace (Nat.ltb 0 (String.length (String c stem))) with true by reflexivity.
    replace (Nat.ltb (S (String.length (String c stem)))
                     (String.length (String c stem) + String.length ".safetensors"))
      with true by (symmetry; apply Nat.ltb_lt; cbn; lia).
    cbn [andb]. apply substring_prefix.
  - rewrite contains_char_app, Hplain. reflexivity.
  - destruct stem; [now destruct Hne | discriminate].
  - destruct stem as [|c [|c' stem]]; [now destruct Hne | discriminate | discriminate].
Qed.

(** X17. Models are named after their files: when the model directory holds
    the files [<stem>.safetensors], [detect_models] reports one model per
    file, in the order of [glob.glob], named by the stem, without directory
    and extension, and served by "sdxl"; an empty directory gives the empty
    list. *)
Theorem models_are_file_stems (glob : string -> list string) (stems : list string) :
  forallb file_stem stems = true ->
  glob "/models/sd/*.safetensors" =
    map (fun stem => MODELS_DIR ++ "/" ++ stem ++ ".safetensors") stems ->
  detect_models glob = map model_entry stems.
Proof.
  intros Hstems Hglob. unfold detect_models.
  change (MODELS_DIR ++ "/*.safetensors") with "/models/sd/*.safetensors".
  rewrite Hglob, map_map. clear Hglob.
  induction stems as [|stem rest IH]; [reflexivity|].
  cbn [forallb] in Hstems. apply andb_true_iff in Hstems as [Hstem Hrest].
  cbn [map]. rewrite (IH Hrest), (path_stem_of_checkpoint MODELS_DIR stem Hstem).
  reflexivity.
Qed.

(** ** File hashes *)

Section HashProperties.
Context {SHA : Sha256}.

(** [hashlib]: feeding [a] and then [b] is feeding [a + b]. *)
Hypothesis update_app :
  forall (h : hasher) (a b : string), update (update h a) b = update h (a ++ b).

Lemma hash_chunks_content (h : hasher) (first : string) (chunks : list string)
      (later : list (result string)) :
  first <> "" ->
  Forall (fun chunk => chunk <> "") chunks ->
  later = [] \/ (exists rest, later = Ok "" :: rest) ->
  hash_chunks (update h first) (map Ok chunks ++ later) =
  Ok (update h (first ++ String.concat "" chunks)).
Proof.
  intros Hfirst Hchunks Hlater. revert first Hfirst.
  induction Hchunks as [|chunk rest Hchunk Hrest IH]; intros first Hfirst.
  - cbn [map app String.concat]. rewrite append_empty.
    destruct Hlater as [-> | (rest & ->)]; reflexivity.
  - cbn [map app hash_chunks].
    replace (chunk =? "")%string with false by (symmetry; now apply String.eqb_neq).
    rewrite update_app, IH.
    + rewrite append_assoc. f_equal. f_equal. f_equal.
      destruct rest; cbn; [now rewrite append_empty | reflexivity].
    + destruct first; [now destruct Hfirst | discriminate].
Qed.

(** X18. The digest is of the content, not of the chunks: for a file that
    opens and closes without error and is read in any number of non-empty
    chunks up to the end of the file, [compute_file_hash] returns the digest
    of the concatenation of the chunks, so two ways of cutting the same
    bytes give the same hash; nothing is read after the first empty read. *)
Theorem file_hash_is_of_content
        (first : string) (chunks : list string) (later : list (result string)) :
  first <> "" ->
  Forall (fun chunk => chunk <> "") chunks ->
  later = [] \/ (exists rest, later = Ok "" :: rest) ->
  compute_file_hash {| open_outcome := Ok tt;
                       read_outcomes := (map Ok (first :: chunks) ++ later)%list;
                       close_outcome := Ok tt |} =
  Ok (Some (hexdigest (update sha256 (String.concat "" (first :: chunks))))).
Proof.
  intros Hfirst Hchunks Hlater. unfold compute_file_hash.
  cbn [open_outcome read_outcomes close_outcome rbind leave_with map app hash_chunks].
  replace (first =? "")%string with false by (symmetry; now apply String.eqb_neq).
  rewrite (hash_chunks_content sha256 first chunks later Hfirst Hchunks Hlater).
  cbn [rbind]. do 3 f_equal.
  destruct chunks; cbn; [now rewrite append_empty | reflexivity].
Qed.

End HashProperties.

(** ** The table of hashes *)

Lemma dict_get_set_other (k k' : string) (v : json) (d : list (string * json)) :
  k <> k' -> dict_get k (dict_set k' v d) = dict_get k d.
Proof.
  intros Hk. induction d as [|[k0 v0] rest IH]; cbn.
  - replace (k' =? k)%string with false; [reflexivity|].
    symmetry. apply String.eqb_neq. congruence.
  - destruct (k0 =? k')%string eqn:H0; cbn.
    + apply String.eqb_eq in H0. subst k0.
      replace (k' =? k)%string with false; [reflexivity|].
      symmetry. apply String.eqb_neq. congruence.
    + destruct (k0 =? k)%string; [reflexivity | exact IH].
Qed.

Section HashTable.
Context {SHA : Sha256}.
Variable files : string -> FileRead.

Lemma add_hash_get (key path : string) (hashes : list (string * json))
      (o : option string) :
  compute_file_hash (files path) = Ok o ->
  exists hashes',
    add_hash files key path hashes = Ok hashes' /\
    forall k, dict_get k hashes' =
              if (k =? key)%string then
                match hash_entry files path with
                | Some v => Some v
                | None => dict_get k hashes
                end
              else dict_get k hashes.
Proof.
  intros Hhash. unfold add_hash, hash_entry. rewrite Hhash. cbn [rbind].
  eexists. split; [reflexivity|]. intros k.
  destruct o as [digest|]; [|now destruct (k =? key)%string].
  destruct (digest =? "")%string; [now destruct (k =? key)%string|].
  destruct (k =? key)%string eqn:Hk.
  - apply String.eqb_eq in Hk. subst k. apply dict_get_set_same.
  - apply String.eqb_neq in Hk. now apply dict_get_set_other.
Qed.

Lemma add_hashes_get (paths : list string) (hashes : list (string * json)) :
  (forall path, In path paths -> exists o, compute_file_hash (files path) = Ok o) ->
  exists hashes',
    add_hashes files paths hashes = Ok hashes' /\
    forall k, dict_get k hashes' =
              if existsb (String.eqb k) paths then
                match hash_entry files k with
                | Some v => Some v
                | None => dict_get k hashes
                end
              else dict_get k hashes.
Proof.
  revert hashes. induction paths as [|path rest IH]; intros hashes Hread.
  - exists hashes. split; reflexivity.
  - destruct (Hread path (or_introl eq_refl)) as (o & Ho).
    destruct (add_hash_get path path hashes o Ho) as (h1 & Hadd & Hget1).
    destruct (IH h1 (fun p Hp => Hread p (or_intror Hp))) as (h2 & Hrest & Hget2).
    exists h2. cbn [add_hashes]. rewrite Hadd. cbn [rbind]. split; [exact Hrest|].
    intros k. rewrite Hget2, Hget1. cbn [existsb].
    destruct (k =? path)%string eqn:Hk; cbn [orb].
    + apply String.eqb_eq in Hk. subst k.
      destruct (existsb (String.eqb path) rest), (hash_entry files path); reflexivity.
    + reflexivity.
Qed.

(** X19. The table of hashes lists the readable critical files: when no
    read fails with anything but an [OSError], [compute_integrity_hashes]
    returns a table in which a path other than "worker_script" has an entry
    exactly when it is the inference binary or a file the checkpoint pattern
    matches and its hash could be computed, the entry being that hash; an
    unreadable file is left out without an error, and the worker's own file,
    when readable, is entered under "worker_script". *)
Theorem integrity_table_lists_readable_files
        (glob : string -> list string) (script : string) :
  (forall path, critical_file glob path \/ path = script ->
                exists o, compute_file_hash (files path) = Ok o) ->
  exists hashes,
    compute_integrity_hashes files glob script = Ok hashes /\
    (forall key v,
        key <> "worker_script" ->
        (dict_get key hashes = Some v <->
         critical_file glob key /\ hash_entry files key = Some v)) /\
    (forall v, hash_entry files script = Some v ->
               dict_get "worker_script" hashes = Some v).
Proof.
  intros Hread. unfold compute_integrity_hashes, INTEGRITY_PATHS.
  cbn [hash_patterns].
  change (is_substring "*" "/usr/local/bin/sd") with false.
  change (is_substring "*" "/models/sd/*.safetensors") with true.
  cbv iota.
  destruct (Hread "/usr/local/bin/sd" (or_introl (or_introl eq_refl))) as (o1 & Ho1).
  destruct (add_hash_get "/usr/local/bin/sd" "/usr/local/bin/sd" [] o1 Ho1)
    as (h1 & Hadd1 & Hget1).
  rewrite Hadd1. cbn [rbind].
  destruct (add_hashes_get (glob "/models/sd/*.safetensors") h1) as (h2 & Hadd2 & Hget2).
  { intros path Hin. apply Hread. left. right. exact Hin. }
  rewrite Hadd2. cbn [rbind].
  destruct (Hread script (or_intror eq_refl)) as (o3 & Ho3).
  destruct (add_hash_get "worker_script" script h2 o3 Ho3) as (h3 & Hadd3 & Hget3).
  exists h3. split; [exact Hadd3|]. split.
  - intros key v Hkey. rewrite Hget3.
    replace (key =? "worker_script")%string with false
      by (symmetry; now apply String.eqb_neq).
    rewrite Hget2, Hget1. cbn [dict_get]. unfold critical_file.
    assert (Hin : existsb (String.eqb key) (glob "/models/sd/*.safetensors") = true <->
                  In key (glob "/models/sd/*.safetensors")).
    { rewrite existsb_exists. split.
      - intros (p & Hp & Heq). apply String.eqb_eq in Heq. now subst p.
      - intros Hp. exists key. split; [exact Hp | apply String.eqb_refl]. }
    destruct (String.eqb_spec key "/usr/local/bin/sd") as [-> | Hsd].
    + destruct (hash_entry files "/usr/local/bin/sd") as [w|];
        destruct (existsb _ (glob "/models/sd/*.safetensors"));
        (split; [intros H; split; [left; reflexivity | exact H] | intros [_ H]; exact H]).
    + destruct (existsb (String.eqb key) (glob "/models/sd/*.safetensors")) eqn:Hex.
      * destruct (hash_entry files key) as [w|].
        -- split; [intros H; split; [right; now apply Hin | exact H]
                  | intros [_ H]; exact H].
        -- split; [discriminate | intros [_ H]; discriminate].
      * split; [discriminate|].
        intros [[Heq | Hp] _]; [now destruct Hsd|].
        apply Hin in Hp. discriminate.
  - intros v Hentry. rewrite Hget3, String.eqb_refl, Hentry. reflexivity.
Qed.

End HashTable.

(** ** The settings file *)

Section StartUp.
Context {PF : PyFloat}.

Lemma open_gate_polls (env : IterEnv) (st : Locals) :
  schedule_forbids (clock env) (settings st) = Ok false ->
  exists tr, trace_of (iteration env st) = PollRequest :: tr.
Proof.
  intros Hgate. unfold iteration. rewrite (try_body_polls env st Hgate).
  destruct (poll_response env) as [resp|e].
  - destruct (status_code resp =? 401); [eexists; reflexivity|].
    destruct (status_code resp =? 200); cbn [negb]; [|eexists; reflexivity].
    destruct (json_body resp) as [data|e].
    + destruct ((sync_settings env data ;;; handle_job env data)%body st)
        as [[tr st'] [[]|e| |]]; try (eexists; reflexivity).
      destruct (is_Exception e); eexists; reflexivity.
    + destruct (is_Exception e); eexists; reflexivity.
  - destruct (is_Exception e); eexists; reflexivity.
Qed.

(** X20. Without a usable settings file the worker starts unrestricted:
    when the file does not exist, cannot be read or does not hold JSON, the
    loop starts with no settings, version 0 and no errors counted, and its
    iteration polls the server whatever the day and the time. *)
Theorem missing_settings_start_unrestricted (file : SettingsFile) :
  file_exists file = false \/
  (exists e, load_outcome file = Raise e /\ is_load_failure e = true) ->
  initial_state file =
    Ok {| settings := JNull; settings_version := JInt 0; errors := 0 |} /\
  forall env, exists tr,
      trace_of (iteration env {| settings := JNull; settings_version := JInt 0;
                                 errors := 0 |}) = PollRequest :: tr.
Proof.
  intros Hfile. split.
  - unfold initial_state, load_settings.
    destruct Hfile as [-> | (e & He & Hcaught)]; [reflexivity|].
    rewrite He, Hcaught. now destruct (file_exists file).
  - intros env. apply open_gate_polls. reflexivity.
Qed.

End StartUp.

(** X21. The settings file must hold an object: a file with any other JSON
    value makes the start-up fail with [AttributeError] when the value is
    truthy (a non-empty list or string, a non-zero number, [true]), and is
    taken as no settings, at version 0, when it is falsy. *)
Theorem settings_file_must_hold_object (file : SettingsFile) (loaded : json) :
  file_exists file = true ->
  load_outcome file = Ok loaded ->
  (forall d, loaded <> JDict d) ->
  initial_state file =
  if truthy loaded
  then Raise (Exn AttributeError
                  ("'" ++ py_type_name loaded ++ "' object has no attribute 'get'"))
  else Ok {| settings := loaded; settings_version := JInt 0; errors := 0 |}.
Proof.
  intros Hexists Hload Hshape. unfold initial_state, load_settings, startup.
  rewrite Hexists, Hload. cbn [rbind].
  destruct (truthy loaded); [|reflexivity].
  destruct loaded; try reflexivity. now destruct (Hshape d).
Qed.

(** ** The probes on concrete machines *)

Lemma detected_gpus_are_sized_witness :
  detect_gpus 4300 (smi_output mixed_output) =
    Ok [gpu_entry 0 "NVIDIA GeForce RTX 3090" 24] /\
  Forall reported_gpu [gpu_entry 0 "NVIDIA GeForce RTX 3090" 24].
Proof.
  split; [reflexivity|].
  apply (detected_gpus_are_sized 4300 (smi_output mixed_output)). reflexivity.
Defined.

Lemma gpu_header_is_built_witness :
  exists gpus,
    detect_gpus 4300 (Raise (Exn OSError "[Errno 2] No such file or directory")) =
      Ok gpus /\
    gpus = [] /\
    gpu_info gpus = Ok (JDict []).
Proof.
  destruct (gpu_header_is_built
              4300 (Raise (Exn OSError "[Errno 2] No such file or directory")))
    as (gpus & Hrun & Hempty & Hinfo).
  - intros e [= <-]. reflexivity.
  - exists gpus. split; [exact Hrun|].
    assert (Hnone : gpus = []) by (apply Hempty; discriminate).
    split; [exact Hnone|]. subst gpus. exact Hinfo.
Defined.

Lemma detect_gpus_reads_listing_witness :
  detect_gpus 4300 (smi_output (listing [rtx3090; gtx1050])) =
  Ok [gpu_entry 0 "NVIDIA GeForce RTX 3090" 24;
      gpu_entry 1 "NVIDIA GeForce GTX 1050" 2].
Proof.
  apply (detect_gpus_reads_listing 4300 [rtx3090; gtx1050]). reflexivity.
Defined.

Lemma models_are_file_stems_witness :
  detect_models two_models = [model_entry "sd_xl_base_1.0"; model_entry "turbo"].
Proof.
  apply (models_are_file_stems two_models ["sd_xl_base_1.0"; "turbo"]); reflexivity.
Defined.

Lemma file_hash_is_of_content_witness :
  @compute_file_hash transcript (readable ["ELF"; "binary"]) = Ok (Some "ELFbinary").
Proof.
  apply (@file_hash_is_of_content transcript append_assoc "ELF" ["binary"] []).
  - discriminate.
  - repeat constructor. discriminate.
  - left. reflexivity.
Defined.

Lemma integrity_table_lists_readable_files_witness :
  exists hashes,
    @compute_integrity_hashes transcript two_files two_models
                              "/opt/worker/gpu_worker.py" = Ok hashes /\
    (forall key v,
        key <> "worker_script" ->
        (dict_get key hashes = Some v <->
         critical_file two_models key /\ @hash_entry transcript two_files key = Some v)) /\
    (forall v, @hash_entry transcript two_files "/opt/worker/gpu_worker.py" = Some v ->
               dict_get "worker_script" hashes = Some v).
Proof.
  apply (@integrity_table_lists_readable_files transcript two_files two_models
           "/opt/worker/gpu_worker.py").
  intros path _. unfold two_files.
  destruct (path =? "/usr/local/bin/sd")%string; [eexists; reflexivity|].
  destruct (path =? "/models/sd/turbo.safetensors")%string; [eexists; reflexivity|].
  destruct (path =? "/opt/worker/gpu_worker.py")%string; eexists; reflexivity.
Defined.

Lemma missing_settings_start_unrestricted_witness :
  initial_state truncated_settings_file = Ok no_settings /\
  forall env, exists tr, trace_of (iteration env no_settings) = PollRequest :: tr.
Proof.
  apply (missing_settings_start_unrestricted truncated_settings_file).
  right. eexists. split; reflexivity.
Defined.

Lemma settings_file_must_hold_object_witness :
  initial_state (settings_file_with (JList [JStr "schedule"])) =
  Raise (Exn AttributeError "'list' object has no attribute 'get'").
Proof.
  apply (settings_file_must_hold_object
           (settings_file_with (JList [JStr "schedule"])) (JList [JStr "schedule"]));
    try reflexivity.
  discriminate.
Defined.
